(** * Nullable integer scalars: Int16, Uint and Uint64

  A shallow embedding of the three nullable integer types of package
  [null] (files int16.go, uint.go and the Uint64 source) together with
  the parts of the Go standard library their methods call
  ([strconv.ParseInt], [strconv.ParseUint], [strconv.FormatInt],
  [strconv.FormatUint], [bytes.Equal] and [json.Unmarshal]).

  Conventions.
  - A Go [[]byte] and a Go [string] are both byte sequences; both are
    [string] here (a list of 8-bit [ascii]).
  - A fixed-width Go integer is a [Z]; every conversion between widths
    is written out with its wrap-around.
  - A method with a pointer receiver takes the receiver's state and
    returns the new state next to its Go results.
  - A Go [error] result is an [option error]; [None] is Go's [nil]. *)

From Stdlib Require Import ZArith Lia Bool List Ascii String.
Import ListNotations.

#[local] Open Scope string_scope.
#[local] Open Scope Z_scope.

(** * Machine integers *)

Module GoInt.

(** The two word sizes a Go [uint] can have ([strconv.IntSize]). *)
Inductive arch : Set := Arch32 | Arch64.

Definition IntSize (a : arch) : Z :=
  match a with Arch32 => 32 | Arch64 => 64 end.

Definition maxUint64 : Z := 2 ^ 64 - 1.
Definition MaxInt16 : Z := 32767. (* math.MaxInt16 = 1<<15 - 1 *)
Definition MinInt16 : Z := -32768.

(** Conversion to an unsigned type of [w] bits keeps the low [w] bits. *)
Definition to_unsigned (w : Z) (x : Z) : Z := x mod 2 ^ w.

(** Conversion to a signed type of [w] bits keeps the low [w] bits and
    reads them in two's complement. *)
Definition to_signed (w : Z) (x : Z) : Z :=
  (x + 2 ^ (w - 1)) mod 2 ^ w - 2 ^ (w - 1).

Definition to_int16 : Z -> Z := to_signed 16.
Definition to_int64 : Z -> Z := to_signed 64.
Definition to_uint64 : Z -> Z := to_unsigned 64.
Definition to_uint (a : arch) : Z -> Z := to_unsigned (IntSize a).

Definition in_int16 (x : Z) : Prop := MinInt16 <= x <= MaxInt16.
Definition in_int64 (x : Z) : Prop := - 2 ^ 63 <= x < 2 ^ 63.
Definition in_uint64 (x : Z) : Prop := 0 <= x < 2 ^ 64.
Definition in_uint (a : arch) (x : Z) : Prop := 0 <= x < 2 ^ IntSize a.

(** Go's [%] truncates towards zero. *)
Definition go_rem (x y : Z) : Z := Z.rem x y.

End GoInt.
Export GoInt.

(** * Errors *)

(** [strconv.ErrSyntax] and [strconv.ErrRange]. *)
Inductive numErr : Set := ErrSyntax | ErrRange.

Inductive error : Set :=
| SyntaxError
  (* *json.SyntaxError: the bytes are not one JSON value *)
| UnmarshalTypeError (value : string)
  (* *json.UnmarshalTypeError{Value: value} *)
| NumError (func : string) (err : numErr)
  (* *strconv.NumError{Func: func, Err: err} *)
| OverflowError (x : Z)
  (* fmt.Errorf("json: %d overflows max int16 value", x) *)
| TypeMismatchError (target : string) (name : string)
  (* fmt.Errorf("json: cannot unmarshal %v into Go value of type "
     + target, name) *)
| ConversionError (msg : string).
  (* whatever convert.ConvertAssign reports *)

(** * Bytes *)

Module Bytes.

Definition byte_val (c : ascii) : Z := Z.of_N (N_of_ascii c).
Definition byte_of (z : Z) : ascii := ascii_of_N (Z.to_N z).

Definition in_range (lo hi c : ascii) : bool :=
  (byte_val lo <=? byte_val c) && (byte_val c <=? byte_val hi).

(** ['0' <= c && c <= '9'] *)
Definition is_digit (c : ascii) : bool := in_range "0" "9" c.

(** [strconv.lower]: [c | ('x' - 'X')]. *)
Definition lower (c : ascii) : ascii := byte_of (Z.lor (byte_val c) 32).

(** [bytes.Equal]. *)
Definition Equal (a b : string) : bool := String.eqb a b.

(** [len(text) == 0]; a nil slice has length 0 as well. *)
Definition is_empty (s : string) : bool :=
  match s with EmptyString => true | String _ _ => false end.

End Bytes.
Export Bytes.

(** * strconv *)

Module strconv.

(** ** ParseUint

    [ParseUint(s, base, bitSize)] for [2 <= base <= 36] and
    [1 <= bitSize <= 64], which is how this package calls it (a
    [bitSize] of 0 is resolved to [IntSize] by the caller below).  The
    first component is the number Go returns next to the error: 0 with
    a syntax error, [maxVal] with a range error. *)

Definition digit_value (c : ascii) : option Z :=
  if is_digit c then Some (byte_val c - byte_val "0")
  else if in_range "a" "z" (lower c)
       then Some (byte_val (lower c) - byte_val "a" + 10)
       else None.

Fixpoint parseUint_loop (base cutoff maxVal : Z) (n : Z) (s : string)
  : Z * option numErr :=
  match s with
  | EmptyString => (n, None)
  | String c s' =>
      match digit_value c with
      | None => (0, Some ErrSyntax)
      | Some d =>
          if base <=? d then (0, Some ErrSyntax)
          else if cutoff <=? n then (maxVal, Some ErrRange) (* n*base overflows *)
          else
            let n0 := n * base in
            let n1 := to_uint64 (n0 + d) in
            if (n1 <? n0) || (maxVal <? n1)
            then (maxVal, Some ErrRange)                  (* n+d overflows *)
            else parseUint_loop base cutoff maxVal n1 s'
      end
  end.

Definition parseUint (s : string) (base bitSize : Z) : Z * option numErr :=
  if is_empty s then (0, Some ErrSyntax)
  else
    let cutoff := maxUint64 / base + 1 in
    let maxVal := 2 ^ bitSize - 1 in
    parseUint_loop base cutoff maxVal 0 s.

Definition wrapErr (fn : string) (r : Z * option numErr) : Z * option error :=
  (fst r, option_map (NumError fn) (snd r)).

Definition ParseUint (s : string) (base bitSize : Z) : Z * option error :=
  wrapErr "ParseUint" (parseUint s base bitSize).

(** [bitSize == 0] selects [IntSize]. *)
Definition resolveBitSize (a : arch) (bitSize : Z) : Z :=
  if bitSize =? 0 then IntSize a else bitSize.

(** ** ParseInt *)

Definition parseInt (s : string) (base bitSize : Z) : Z * option numErr :=
  match s with
  | EmptyString => (0, Some ErrSyntax)
  | String c0 s1 =>
      (* Pick off leading sign. *)
      let '(neg, body) :=
        if Ascii.eqb c0 "+" then (false, s1)
        else if Ascii.eqb c0 "-" then (true, s1)
        else (false, s) in
      (* Convert unsigned and check range. *)
      let '(un, err) := parseUint body base bitSize in
      match err with
      | Some ErrSyntax => (0, Some ErrSyntax)
      | _ =>
          let cutoff := 2 ^ (bitSize - 1) in
          if negb neg && (cutoff <=? un) then (cutoff - 1, Some ErrRange)
          else if neg && (cutoff <? un) then (- cutoff, Some ErrRange)
          else
            let n := to_int64 un in
            (if neg then to_int64 (- n) else n, None)
      end
  end.

Definition ParseInt (s : string) (base bitSize : Z) : Z * option error :=
  wrapErr "ParseInt" (parseInt s base bitSize).

(** ** FormatUint and FormatInt, base 10

    [formatBits] fills its buffer from the least significant digit; Go
    emits two digits per round, which yields the same bytes.  A 64-bit
    number has at most 20 decimal digits. *)

Definition digit_char (d : Z) : ascii := byte_of (byte_val "0" + d).

Fixpoint formatBits (fuel : nat) (u : Z) (acc : string) : string :=
  match fuel with
  | O => acc
  | S fuel' =>
      if u <? 10 then String (digit_char u) acc
      else formatBits fuel' (u / 10) (String (digit_char (u mod 10)) acc)
  end.

Definition FormatUint (u : Z) : string := formatBits 20 u EmptyString.

(** [FormatInt(i, 10)]: a negative [i] is printed as ['-'] followed by
    the digits of [uint64(-i)]. *)
Definition FormatInt (i : Z) : string :=
  if i <? 0 then String "-" (FormatUint (to_uint64 (- i)))
  else FormatUint (to_uint64 i).

End strconv.
Export strconv.


(** * encoding/json

  [json.Unmarshal(data, &v)] for the three targets this package uses:
  an [int64], a [uint64] and an empty [interface{}].  Unmarshal first
  checks that [data] is exactly one JSON value with optional white
  space around it ([checkValid]), then stores the value. *)

Module json.

(** What an empty interface holds after decoding.  A JSON number becomes
    a [float64]; its callers here only look at the dynamic type and
    decode the literal again, so the model keeps the literal.  A string
    is kept unquoted. *)
#[local] Set Warnings "-register-all".
Inductive jvalue : Set :=
| JNull
| JBool (b : bool)
| JNumber (lit : string)
| JString (s : string)
| JArray (elems : list jvalue)
| JObject (members : list (string * jvalue)).

Definition ch_tab : ascii := "009".
Definition ch_lf : ascii := "010".
Definition ch_ff : ascii := "012".
Definition ch_cr : ascii := "013".
Definition ch_bs : ascii := "008".
Definition ch_quote : ascii := "034".
Definition ch_backslash : ascii := "092".

Definition is_char (c d : ascii) : bool := Ascii.eqb c d.

(** [isSpace]: [c <= ' ' && (c == ' ' || c == '\t' || c == '\r' || c == '\n')]. *)
Definition is_space (c : ascii) : bool :=
  is_char c " " || is_char c ch_tab || is_char c ch_cr || is_char c ch_lf.

Fixpoint skip_space (s : string) : string :=
  match s with
  | String c r => if is_space c then skip_space r else s
  | EmptyString => s
  end.

(** ** Numbers

    An optional minus sign; then 0, or a digit from 1 to 9 followed by
    any digits; then optionally a dot with one digit or more; then
    optionally e or E, an optional sign, and one digit or more. *)

Fixpoint span_digits (s : string) : string * string :=
  match s with
  | String c r =>
      if is_digit c
      then let '(ds, rest) := span_digits r in (String c ds, rest)
      else (EmptyString, s)
  | EmptyString => (EmptyString, EmptyString)
  end.

Definition scan_sign (s : string) : string * string :=
  match s with
  | String c r => if is_char c "-" then (String c EmptyString, r) else (EmptyString, s)
  | EmptyString => (EmptyString, s)
  end.

Definition scan_int (s : string) : option (string * string) :=
  match s with
  | String c r =>
      if is_char c "0" then Some (String c EmptyString, r)
      else if is_digit c
           then let '(ds, rest) := span_digits r in Some (String c ds, rest)
           else None
  | EmptyString => None
  end.

Definition scan_frac (s : string) : option (string * string) :=
  match s with
  | String c r =>
      if is_char c "."
      then match span_digits r with
           | (EmptyString, _) => None
           | (ds, rest) => Some (String c ds, rest)
           end
      else Some (EmptyString, s)
  | EmptyString => Some (EmptyString, s)
  end.

Definition scan_exp (s : string) : option (string * string) :=
  match s with
  | String c r =>
      if is_char c "e" || is_char c "E"
      then
        let '(sg, r1) :=
          match r with
          | String c1 r' =>
              if is_char c1 "+" || is_char c1 "-"
              then (String c1 EmptyString, r') else (EmptyString, r)
          | EmptyString => (EmptyString, r)
          end in
        match span_digits r1 with
        | (EmptyString, _) => None
        | (ds, rest) => Some (String c (sg ++ ds), rest)
        end
      else Some (EmptyString, s)
  | EmptyString => Some (EmptyString, s)
  end.

(** The literal and what follows it. *)
Definition scan_number (s : string) : option (string * string) :=
  let '(sg, s0) := scan_sign s in
  match scan_int s0 with
  | None => None
  | Some (ip, s1) =>
      match scan_frac s1 with
      | None => None
      | Some (fp, s2) =>
          match scan_exp s2 with
          | None => None
          | Some (ep, s3) => Some (sg ++ ip ++ fp ++ ep, s3)
          end
      end
  end.

(** ** Strings *)

Definition hex_value (c : ascii) : option Z :=
  if is_digit c then Some (byte_val c - byte_val "0")
  else if in_range "a" "f" c then Some (byte_val c - byte_val "a" + 10)
  else if in_range "A" "F" c then Some (byte_val c - byte_val "A" + 10)
  else None.

Definition hex4 (h1 h2 h3 h4 : ascii) : option Z :=
  match hex_value h1, hex_value h2, hex_value h3, hex_value h4 with
  | Some a, Some b, Some c, Some d => Some (((a * 16 + b) * 16 + c) * 16 + d)
  | _, _, _, _ => None
  end.

Definition is_simple_escape (e : ascii) : bool :=
  is_char e "b" || is_char e "f" || is_char e "n" || is_char e "r"
  || is_char e "t" || is_char e ch_backslash || is_char e "/"
  || is_char e ch_quote.

(** The scanner inside a string, after the opening quote: the raw bytes
    up to the closing quote and what follows it. *)
Fixpoint scan_string (s : string) : option (string * string) :=
  match s with
  | EmptyString => None
  | String c r =>
      if is_char c ch_quote then Some (EmptyString, r)
      else if is_char c ch_backslash then
        match r with
        | String e r1 =>
            if is_simple_escape e then
              match scan_string r1 with
              | Some (raw, rest) => Some (String c (String e raw), rest)
              | None => None
              end
            else if is_char e "u" then
              match r1 with
              | String h1 (String h2 (String h3 (String h4 r2))) =>
                  match hex4 h1 h2 h3 h4, scan_string r2 with
                  | Some _, Some (raw, rest) =>
                      Some (String c (String e (String h1 (String h2
                             (String h3 (String h4 raw))))), rest)
                  | _, _ => None
                  end
              | _ => None
              end
            else None
        | EmptyString => None
        end
      else if byte_val c <? 32 then None
      else match scan_string r with
           | Some (raw, rest) => Some (String c raw, rest)
           | None => None
           end
  end.

(** [utf8.EncodeRune]. *)
Definition EncodeRune (r : Z) : string :=
  let b (z : Z) (t : string) := String (byte_of z) t in
  let cont (z : Z) := Z.lor 128 (Z.land z 63) in
  if r <? 128 then b r EmptyString
  else if r <? 2048 then
    b (Z.lor 192 (Z.shiftr r 6)) (b (cont r) EmptyString)
  else if ((55296 <=? r) && (r <=? 57343)) || (1114111 <? r) then
    b 239 (b 191 (b 189 EmptyString))               (* U+FFFD *)
  else if r <? 65536 then
    b (Z.lor 224 (Z.shiftr r 12))
      (b (cont (Z.shiftr r 6)) (b (cont r) EmptyString))
  else
    b (Z.lor 240 (Z.shiftr r 18))
      (b (cont (Z.shiftr r 12))
         (b (cont (Z.shiftr r 6)) (b (cont r) EmptyString))).

Definition RuneError : Z := 65533.

(** [utf16.IsSurrogate] and [utf16.DecodeRune]. *)
Definition IsSurrogate (r : Z) : bool := (55296 <=? r) && (r <? 57344).

Definition utf16_DecodeRune (r1 r2 : Z) : Z :=
  if (55296 <=? r1) && (r1 <? 56320) && (56320 <=? r2) && (r2 <? 57344)
  then Z.lor (Z.shiftl (r1 - 55296) 10) (r2 - 56320) + 65536
  else RuneError.

(** Which byte sequences [utf8.DecodeRune] accepts as one rune of 2, 3
    or 4 bytes. *)
Definition bin (lo hi : Z) (c : ascii) : bool :=
  (lo <=? byte_val c) && (byte_val c <=? hi).

Definition utf8_seq2 (c b1 : ascii) : bool := bin 194 223 c && bin 128 191 b1.

Definition utf8_seq3 (c b1 b2 : ascii) : bool :=
  ((bin 224 224 c && bin 160 191 b1)
   || ((bin 225 236 c || bin 238 239 c) && bin 128 191 b1)
   || (bin 237 237 c && bin 128 159 b1))
  && bin 128 191 b2.

Definition utf8_seq4 (c b1 b2 b3 : ascii) : bool :=
  ((bin 240 240 c && bin 144 191 b1)
   || (bin 241 243 c && bin 128 191 b1)
   || (bin 244 244 c && bin 128 143 b1))
  && bin 128 191 b2 && bin 128 191 b3.

Definition unescape (e : ascii) : ascii :=
  if is_char e "b" then ch_bs
  else if is_char e "f" then ch_ff
  else if is_char e "n" then ch_lf
  else if is_char e "r" then ch_cr
  else if is_char e "t" then ch_tab
  else e.

Definition prepend (p : string) (r : option string) : option string :=
  option_map (String.append p) r.

(** [unquoteBytes] on the raw bytes between the quotes: escapes are
    replaced, a surrogate pair is joined, and bytes that are not
    well-formed UTF-8 become U+FFFD.  [None] is Go's [ok == false]. *)
Fixpoint unquote (s : string) : option string :=
  let bad := EncodeRune RuneError in
  match s with
  | EmptyString => Some EmptyString
  | String c r =>
      if is_char c ch_backslash then
        match r with
        | String e r1 =>
            if is_char e "u" then
              match r1 with
              | String h1 (String h2 (String h3 (String h4 r2))) =>
                  match hex4 h1 h2 h3 h4 with
                  | None => None
                  | Some rr =>
                      if IsSurrogate rr then
                        match r2 with
                        | String b (String u (String g1 (String g2
                            (String g3 (String g4 r3))))) =>
                            match (if is_char b ch_backslash && is_char u "u"
                                   then hex4 g1 g2 g3 g4 else None) with
                            | Some rr1 =>
                                if utf16_DecodeRune rr rr1 =? RuneError
                                then prepend bad (unquote r2)
                                else prepend (EncodeRune (utf16_DecodeRune rr rr1))
                                             (unquote r3)
                            | None => prepend bad (unquote r2)
                            end
                        | _ => prepend bad (unquote r2)
                        end
                      else prepend (EncodeRune rr) (unquote r2)
                  end
              | _ => None
              end
            else if is_simple_escape e || is_char e "'"
                 then option_map (String (unescape e)) (unquote r1)
                 else None
        | EmptyString => None
        end
      else if is_char c ch_quote || (byte_val c <? 32) then None
      else if byte_val c <? 128 then option_map (String c) (unquote r)
      else
        (* Coerce to well-formed UTF-8. *)
        match r with
        | String b1 r1 =>
            if utf8_seq2 c b1
            then option_map (fun t => String c (String b1 t)) (unquote r1)
            else
              match r1 with
              | String b2 r2 =>
                  if utf8_seq3 c b1 b2
                  then option_map (fun t => String c (String b1 (String b2 t)))
                                  (unquote r2)
                  else
                    match r2 with
                    | String b3 r3 =>
                        if utf8_seq4 c b1 b2 b3
                        then option_map
                               (fun t => String c (String b1 (String b2 (String b3 t))))
                               (unquote r3)
                        else prepend bad (unquote r)
                    | EmptyString => prepend bad (unquote r)
                    end
              | EmptyString => prepend bad (unquote r)
              end
        | EmptyString => prepend bad (unquote r)
        end
  end.

(** ** Values *)

(** The scanner refuses more than [maxNestingDepth] open arrays and
    objects. *)
Definition maxNestingDepth : Z := 10000.

(** [expect lit s]: [s] without its prefix [lit]. *)
Fixpoint expect (lit s : string) : option string :=
  match lit, s with
  | EmptyString, _ => Some s
  | String a lit', String c s' => if is_char a c then expect lit' s' else None
  | String _ _, EmptyString => None
  end.

(** One JSON value at the head of [s] (no leading white space), with
    what follows it.  [depth] counts the arrays and objects that are
    open.  Every call consumes input, so [fuel] bounds the recursion;
    [decode] supplies enough of it ([decode_fuel_enough] below). *)
Fixpoint parse_value (fuel : nat) (depth : Z) (s : string) {struct fuel}
  : option (jvalue * string) :=
  match fuel with
  | O => None
  | S fuel' =>
      match s with
      | EmptyString => None
      | String c r =>
          if is_digit c || is_char c "-" then
            match scan_number s with
            | Some (lit, rest) => Some (JNumber lit, rest)
            | None => None
            end
          else if is_char c ch_quote then
            match scan_string r with
            | Some (raw, rest) =>
                match unquote raw with
                | Some str => Some (JString str, rest)
                | None => None
                end
            | None => None
            end
          else if is_char c "n" then
            option_map (pair JNull) (expect "ull" r)
          else if is_char c "t" then
            option_map (pair (JBool true)) (expect "rue" r)
          else if is_char c "f" then
            option_map (pair (JBool false)) (expect "alse" r)
          else if is_char c "[" then
            if maxNestingDepth <? depth + 1 then None
            else
              match skip_space r with
              | String c1 r1 =>
                  if is_char c1 "]" then Some (JArray [], r1)
                  else parse_elements fuel' (depth + 1) (String c1 r1) []
              | EmptyString => None
              end
          else if is_char c "{" then
            if maxNestingDepth <? depth + 1 then None
            else
              match skip_space r with
              | String c1 r1 =>
                  if is_char c1 "}" then Some (JObject [], r1)
                  else parse_members fuel' (depth + 1) (String c1 r1) []
              | EmptyString => None
              end
          else None
      end
  end

(** The elements of an array from the head of [s], which is the start
    of an element; [acc] holds the earlier ones, last first. *)
with parse_elements (fuel : nat) (depth : Z) (s : string) (acc : list jvalue)
       {struct fuel} : option (jvalue * string) :=
  match fuel with
  | O => None
  | S fuel' =>
      match parse_value fuel' depth s with
      | None => None
      | Some (v, r) =>
          match skip_space r with
          | String c r1 =>
              if is_char c "," then
                parse_elements fuel' depth (skip_space r1) (v :: acc)
              else if is_char c "]" then Some (JArray (rev (v :: acc)), r1)
              else None
          | EmptyString => None
          end
      end
  end

(** The members of an object from the head of [s], which is the start
    of a key. *)
with parse_members (fuel : nat) (depth : Z) (s : string)
       (acc : list (string * jvalue)) {struct fuel}
     : option (jvalue * string) :=
  match fuel with
  | O => None
  | S fuel' =>
      match s with
      | String q r =>
          if is_char q ch_quote then
            match scan_string r with
            | None => None
            | Some (raw, r0) =>
                match unquote raw, skip_space r0 with
                | Some key, String c r1 =>
                    if is_char c ":" then
                      match parse_value fuel' depth (skip_space r1) with
                      | None => None
                      | Some (v, r2) =>
                          match skip_space r2 with
                          | String c2 r3 =>
                              if is_char c2 "," then
                                parse_members fuel' depth (skip_space r3)
                                              ((key, v) :: acc)
                              else if is_char c2 "}" then
                                Some (JObject (rev ((key, v) :: acc)), r3)
                              else None
                          | EmptyString => None
                          end
                      end
                    else None
                | _, _ => None
                end
            end
          else None
      | EmptyString => None
      end
  end.

(** [checkValid] and the decoding of the value in one pass: [None] is a
    [*SyntaxError]. *)
Definition decode (data : string) : option jvalue :=
  let fuel := (2 * String.length data + 2)%nat in
  match parse_value fuel 0 (skip_space data) with
  | Some (v, rest) => if is_empty (skip_space rest) then Some v else None
  | None => None
  end.

(** ** Numbers held by an interface: [convertNumber]

    [convertNumber(s)] is [strconv.ParseFloat(s, 64)].  On a literal the
    scanner accepted, ParseFloat can only fail with [ErrRange], which it
    does when the correctly rounded value is infinite: the magnitude is
    at least [2^1024 - 2^970], half an ulp above the largest float64.
    As in [readFloat], the exponent stops growing once it has reached
    10000. *)

Definition float64_limit : Z := 2 ^ 1024 - 2 ^ 970.

(** Digits from the head of [s]: their value on top of [m], their
    number on top of [n], and the rest. *)
Fixpoint read_digits (m n : Z) (s : string) : Z * Z * string :=
  match s with
  | String c r =>
      if is_digit c
      then read_digits (m * 10 + (byte_val c - byte_val "0")) (n + 1) r
      else (m, n, s)
  | EmptyString => (m, n, s)
  end.

Fixpoint read_exponent (e : Z) (s : string) : Z * string :=
  match s with
  | String c r =>
      if is_digit c
      then read_exponent
             (if e <? 10000 then e * 10 + (byte_val c - byte_val "0") else e) r
      else (e, s)
  | EmptyString => (e, s)
  end.

Definition ParseFloat64_err (s : string) : option numErr :=
  let s0 :=
    match s with
    | String c r => if is_char c "+" || is_char c "-" then r else s
    | EmptyString => s
    end in
  let '(m1, n1, r1) := read_digits 0 0 s0 in
  let '(m, k, r2) :=
    match r1 with
    | String c r => if is_char c "." then read_digits m1 0 r else (m1, 0, r1)
    | EmptyString => (m1, 0, r1)
    end in
  if n1 + k =? 0 then Some ErrSyntax
  else
    let '(e, r3) :=
      match r2 with
      | String c r =>
          if is_char (lower c) "e" then
            match r with
            | String c1 r' =>
                if is_char c1 "+" then read_exponent 0 r'
                else if is_char c1 "-"
                     then let '(e, t) := read_exponent 0 r' in (- e, t)
                     else read_exponent 0 r
            | EmptyString => (0, r2)
            end
          else (0, r2)
      | EmptyString => (0, r2)
      end in
    if negb (is_empty r3) then Some ErrSyntax
    else
      (* the decimal value is m * 10^(e - k) *)
      let p := e - k in
      let overflow :=
        if 0 <=? p then float64_limit <=? m * 10 ^ p
        else float64_limit * 10 ^ (- p) <=? m in
      if overflow then Some ErrRange else None.

(** The first number of [v], in document order, that [convertNumber]
    refuses. *)
Fixpoint convert_error (v : jvalue) : option error :=
  match v with
  | JNumber lit =>
      match ParseFloat64_err lit with
      | Some _ => Some (UnmarshalTypeError ("number " ++ lit))
      | None => None
      end
  | JArray elems =>
      (fix first (l : list jvalue) : option error :=
         match l with
         | [] => None
         | x :: t => match convert_error x with
                     | Some e => Some e
                     | None => first t
                     end
         end) elems
  | JObject members =>
      (fix first (l : list (string * jvalue)) : option error :=
         match l with
         | [] => None
         | (_, x) :: t => match convert_error x with
                          | Some e => Some e
                          | None => first t
                          end
         end) members
  | JNull | JBool _ | JString _ => None
  end.

(** ** Unmarshal *)

(** [var v interface{}; err = json.Unmarshal(data, &v)]: the error, or
    what [v] holds. *)
Definition Unmarshal_interface (data : string) : jvalue + error :=
  match decode data with
  | None => inr SyntaxError
  | Some v =>
      match convert_error v with
      | Some e => inr e
      | None => inl v
      end
  end.

(** [json.Unmarshal(data, &x)] for [x int64] holding [x0]: the new [x]
    and the error.  A JSON null leaves a number untouched without an
    error; any other value that is not an integer literal of 64 bits is
    an [UnmarshalTypeError] and leaves it untouched as well. *)
Definition Unmarshal_int64 (data : string) (x0 : Z) : Z * option error :=
  match decode data with
  | None => (x0, Some SyntaxError)
  | Some JNull => (x0, None)
  | Some (JNumber lit) =>
      match ParseInt lit 10 64 with
      | (n, None) => (n, None)
      | (_, Some _) => (x0, Some (UnmarshalTypeError ("number " ++ lit)))
      end
  | Some (JBool _) => (x0, Some (UnmarshalTypeError "bool"))
  | Some (JString _) => (x0, Some (UnmarshalTypeError "string"))
  | Some (JArray _) => (x0, Some (UnmarshalTypeError "array"))
  | Some (JObject _) => (x0, Some (UnmarshalTypeError "object"))
  end.

(** The same for [x uint64]. *)
Definition Unmarshal_uint64 (data : string) (x0 : Z) : Z * option error :=
  match decode data with
  | None => (x0, Some SyntaxError)
  | Some JNull => (x0, None)
  | Some (JNumber lit) =>
      match ParseUint lit 10 64 with
      | (n, None) => (n, None)
      | (_, Some _) => (x0, Some (UnmarshalTypeError ("number " ++ lit)))
      end
  | Some (JBool _) => (x0, Some (UnmarshalTypeError "bool"))
  | Some (JString _) => (x0, Some (UnmarshalTypeError "string"))
  | Some (JArray _) => (x0, Some (UnmarshalTypeError "array"))
  | Some (JObject _) => (x0, Some (UnmarshalTypeError "object"))
  end.

End json.

Export json.

(** * Package null *)

(** Modelled from the spec: the package variable [NullBytes], which is
    declared in a file of the package that is not among the sources.  It
    is the JSON null literal: "If the token is the JSON null literal",
    "JSON encode emits the null literal". *)
Definition NullBytes : string := "null".

(** What an [interface{}] handed to [Scan], or returned by [Value] as a
    [driver.Value], can hold.  [VOther] stands for every dynamic type the
    methods here never look into (float64, bool, time.Time, ...). *)
Inductive GoValue : Set :=
| VNil
| VInt64 (i : Z)
| VUint64 (u : Z)
| VString (s : string)
| VBytes (b : string)
| VOther (typeName : string).

(** The destinations [Scan] passes to the converter: [&i.Int16],
    [&u.Uint] and [&u.Uint64]. *)
Inductive destType : Set := DestInt16 | DestUint | DestUint64.

(** Modelled from the spec: [convert.ConvertAssign(dest, src)], whose
    package is not among the sources.  The spec keeps it opaque, "a
    capability interface coerce(raw: DriverValue, targetKind: Kind) ->
    (T, error)" that the core "must not assume [the] internal algorithm"
    of.  It gets the number [dest] points to and the source value, and
    gives the number [dest] points to afterwards together with the
    error. *)
Class Converter : Type :=
  ConvertAssign : destType -> Z -> GoValue -> Z * option error.

(** Modelled from the spec: what the spec does say of the converter where
    [Uint64.Scan] relies on it.  "Scan of a signed 64-bit driver value -1
    into the unsigned-64-bit instantiation must yield value ==
    18446744073709551615 [...], not an error": an unsigned 64-bit source
    assigned to an unsigned 64-bit destination is stored as it is. *)
Definition assigns_uint64 (conv : Converter) : Prop :=
  forall dest u, in_uint64 u ->
    @ConvertAssign conv DestUint64 dest (VUint64 u) = (u, None).

(** Modelled from the spec: a converter that stores an integer source the
    destination type can represent, and reports every other source as
    unconvertible, leaving the destination as it was ("trusted to report
    errors for unconvertible shapes"). *)
Definition integerConverter (a : arch) : Converter :=
  fun d dest src =>
    let fits (x : Z) : bool :=
      match d with
      | DestInt16 => (MinInt16 <=? x) && (x <=? MaxInt16)
      | DestUint => (0 <=? x) && (x <? 2 ^ IntSize a)
      | DestUint64 => (0 <=? x) && (x <? 2 ^ 64)
      end in
    match src with
    | VInt64 x | VUint64 x =>
        if fits x then (x, None)
        else (dest, Some (ConversionError "value out of range"))
    | _ => (dest, Some (ConversionError "unsupported Scan"))
    end.

Definition is_nil (err : option error) : bool :=
  match err with None => true | Some _ => false end.

(** ** Int16 (int16.go) *)

Module Int16.

(** [type Int16 struct { Int16 int16; Valid bool; set bool }] *)
Record t : Set := mk { Int16 : Z; Valid : bool; set : bool }.

(** The zero value of the struct. *)
Definition zero : t := mk 0 false false.

Definition NewInt16 (i : Z) (valid set : bool) : t :=
  {| Int16 := i; Valid := valid; set := set |}.

Definition Int16From (i : Z) : t := NewInt16 i true true.

(** [i *int16] is [None] for a nil pointer. *)
Definition Int16FromPtr (i : option Z) : t :=
  match i with
  | None => NewInt16 0 false true
  | Some v => NewInt16 v true true
  end.

Definition IsSet (i : t) : bool := set i.

Definition UnmarshalJSON (i : t) (data : string) : t * option error :=
  let i := {| Int16 := Int16 i; Valid := Valid i; set := true |} in
  if Equal data NullBytes
  then ({| Int16 := 0; Valid := false; set := set i |}, None)
  else
    (* var x int64 *)
    match Unmarshal_int64 data 0 with
    | (_, Some err) => (i, Some err)
    | (x, None) =>
        if MaxInt16 <? x then (i, Some (OverflowError x))
        else ({| Int16 := to_int16 x; Valid := true; set := set i |}, None)
    end.

Definition UnmarshalText (i : t) (text : string) : t * option error :=
  let i := {| Int16 := Int16 i; Valid := Valid i; set := true |} in
  if is_empty text
  then ({| Int16 := Int16 i; Valid := false; set := set i |}, None)
  else
    let '(res, err) := ParseInt text 10 16 in
    let i := {| Int16 := Int16 i; Valid := is_nil err; set := set i |} in
    let i := if Valid i
             then {| Int16 := to_int16 res; Valid := Valid i; set := set i |}
             else i in
    (i, err).

Definition MarshalJSON (i : t) : string * option error :=
  if negb (Valid i) then (NullBytes, None)
  else (FormatInt (to_int64 (Int16 i)), None).

Definition MarshalText (i : t) : string * option error :=
  if negb (Valid i) then (EmptyString, None)
  else (FormatInt (to_int64 (Int16 i)), None).

Definition SetValid (i : t) (n : Z) : t :=
  {| Int16 := n; Valid := true; set := true |}.

(** The pointer is to the value the struct holds; [None] is nil. *)
Definition Ptr (i : t) : option Z :=
  if negb (Valid i) then None else Some (Int16 i).

Definition IsZero (i : t) : bool := negb (Valid i).

Definition Scan {conv : Converter} (i : t) (value : GoValue) : t * option error :=
  match value with
  | VNil => ({| Int16 := 0; Valid := false; set := false |}, None)
  | _ =>
      let '(n, err) := ConvertAssign DestInt16 (Int16 i) value in
      ({| Int16 := n; Valid := true; set := true |}, err)
  end.

Definition Value (i : t) : GoValue * option error :=
  if negb (Valid i) then (VNil, None)
  else (VInt64 (to_int64 (Int16 i)), None).

(** [nextInt] is called once, and only when [shouldBeNull] is false. *)
Definition Randomize (i : t) (nextInt : unit -> Z) (fieldType : string)
  (shouldBeNull : bool) : t :=
  if shouldBeNull
  then {| Int16 := 0; Valid := false; set := set i |}
  else {| Int16 := to_int16 (go_rem (nextInt tt) MaxInt16);
          Valid := true; set := set i |}.

End Int16.

(** [reflect.TypeOf(v).Name()] for what an interface holds after
    decoding; the slice and map types have no name. *)
Definition type_name (v : jvalue) : string :=
  match v with
  | JBool _ => "bool"
  | JNumber _ => "float64"
  | JString _ => "string"
  | JNull | JArray _ | JObject _ => EmptyString
  end.

(** ** Uint (uint.go) *)

Module Uint.

(** [type Uint struct { Uint uint; Valid bool }] *)
Record t : Set := mk { Uint : Z; Valid : bool }.

Definition zero : t := mk 0 false.

Definition NewUint (i : Z) (valid : bool) : t := {| Uint := i; Valid := valid |}.

Definition UintFrom (i : Z) : t := NewUint i true.

Definition UintFromPtr (i : option Z) : t :=
  match i with
  | None => NewUint 0 false
  | Some v => NewUint v true
  end.

Section WordSize.

Variable a : arch.

Definition UnmarshalJSON (u : t) (data : string) : t * option error :=
  if Equal data NullBytes then ({| Uint := 0; Valid := false |}, None)
  else
    match Unmarshal_interface data with
    | inr err => (u, Some err)
    | inl v =>
        (* the two statements after the switch, for [i] and [err] *)
        let finish (i : Z) (err : option error) : t * option error :=
          let n := to_uint a i in
          ({| Uint := n; Valid := is_nil err && negb (n =? 0) |}, err) in
        (* var i uint64 *)
        match v with
        | JNumber _ =>
            let '(i, err) := Unmarshal_uint64 data 0 in finish i err
        | JString str =>
            if is_empty str then ({| Uint := Uint u; Valid := false |}, None)
            else let '(i, err) := ParseUint str 10 64 in finish i err
        | JNull => ({| Uint := Uint u; Valid := false |}, None)
        | JBool _ | JArray _ | JObject _ =>
            finish 0 (Some (TypeMismatchError "null.Uint" (type_name v)))
        end
    end.

Definition UnmarshalText (u : t) (text : string) : t * option error :=
  if is_empty text then ({| Uint := Uint u; Valid := false |}, None)
  else
    let '(res, err) := ParseUint text 10 (resolveBitSize a 0) in
    let u := {| Uint := Uint u; Valid := is_nil err |} in
    let u := if Valid u then {| Uint := to_uint a res; Valid := Valid u |} else u in
    (u, err).

Definition Scan {conv : Converter} (u : t) (value : GoValue) : t * option error :=
  match value with
  | VNil => ({| Uint := 0; Valid := false |}, None)
  | _ =>
      let '(n, err) := ConvertAssign DestUint (Uint u) value in
      ({| Uint := n; Valid := true |}, err)
  end.

Definition Randomize (u : t) (nextInt : unit -> Z) (fieldType : string)
  (shouldBeNull : bool) : t :=
  if shouldBeNull then {| Uint := 0; Valid := false |}
  else {| Uint := to_uint a (nextInt tt); Valid := true |}.

End WordSize.

Definition MarshalJSON (u : t) : string * option error :=
  if negb (Valid u) then (NullBytes, None)
  else (FormatUint (to_uint64 (Uint u)), None).

Definition MarshalText (u : t) : string * option error :=
  if negb (Valid u) then (EmptyString, None)
  else (FormatUint (to_uint64 (Uint u)), None).

Definition SetValid (u : t) (n : Z) : t := {| Uint := n; Valid := true |}.

Definition Ptr (u : t) : option Z :=
  if negb (Valid u) then None else Some (Uint u).

Definition IsZero (u : t) : bool := negb (Valid u).

Definition Value (u : t) : GoValue * option error :=
  if negb (Valid u) then (VNil, None)
  else (VInt64 (to_int64 (Uint u)), None).

End Uint.

(** ** Uint64 *)

Module Uint64.

(** [type Uint64 struct { Uint64 uint64; Valid bool }] *)
Record t : Set := mk { Uint64 : Z; Valid : bool }.

Definition zero : t := mk 0 false.

Definition NewUint64 (i : Z) (valid : bool) : t :=
  {| Uint64 := i; Valid := valid |}.

Definition Uint64From (i : Z) : t := NewUint64 i true.

Definition Uint64FromPtr (i : option Z) : t :=
  match i with
  | None => NewUint64 0 false
  | Some v => NewUint64 v true
  end.

Definition UnmarshalJSON (u : t) (data : string) : t * option error :=
  if Equal data NullBytes then ({| Uint64 := 0; Valid := false |}, None)
  else
    match Unmarshal_interface data with
    | inr err => (u, Some err)
    | inl v =>
        (* the statement after the switch, for [u.Uint64] and [err] *)
        let finish (n : Z) (err : option error) : t * option error :=
          ({| Uint64 := n; Valid := is_nil err && negb (n =? 0) |}, err) in
        match v with
        | JNumber _ =>
            let '(n, err) := Unmarshal_uint64 data (Uint64 u) in finish n err
        | JString str =>
            if is_empty str then ({| Uint64 := Uint64 u; Valid := false |}, None)
            else let '(n, err) := ParseUint str 10 64 in finish n err
        | JNull => ({| Uint64 := Uint64 u; Valid := false |}, None)
        | JBool _ | JArray _ | JObject _ =>
            finish (Uint64 u)
                   (Some (TypeMismatchError "null.Uint64" (type_name v)))
        end
    end.

Definition UnmarshalText (u : t) (text : string) : t * option error :=
  if is_empty text then ({| Uint64 := Uint64 u; Valid := false |}, None)
  else
    let '(res, err) := ParseUint text 10 64 in
    let u := {| Uint64 := Uint64 u; Valid := is_nil err |} in
    let u := if Valid u then {| Uint64 := to_uint64 res; Valid := Valid u |} else u in
    (u, err).

Definition MarshalJSON (u : t) : string * option error :=
  if negb (Valid u) then (NullBytes, None)
  else (FormatUint (Uint64 u), None).

Definition MarshalText (u : t) : string * option error :=
  if negb (Valid u) then (EmptyString, None)
  else (FormatUint (Uint64 u), None).

Definition SetValid (u : t) (n : Z) : t := {| Uint64 := n; Valid := true |}.

Definition Ptr (u : t) : option Z :=
  if negb (Valid u) then None else Some (Uint64 u).

Definition IsZero (u : t) : bool := negb (Valid u).

Definition Scan {conv : Converter} (u : t) (value : GoValue) : t * option error :=
  match value with
  | VNil => ({| Uint64 := 0; Valid := false |}, None)
  | _ =>
      (* u.Valid = true *)
      let assign (src : GoValue) : t * option error :=
        let '(n, err) := ConvertAssign DestUint64 (Uint64 u) src in
        ({| Uint64 := n; Valid := true |}, err) in
      (* If value is negative int64, convert it to uint64 *)
      match value with
      | VInt64 i => if i <? 0 then assign (VUint64 (to_uint64 i)) else assign value
      | _ => assign value
      end
  end.

Definition Value (u : t) : GoValue * option error :=
  if negb (Valid u) then (VNil, None)
  else
    (* If u.Uint64 overflows the range of int64, convert it to string *)
    if 2 ^ 63 <=? Uint64 u then (VString (FormatUint (Uint64 u)), None)
    else (VInt64 (to_int64 (Uint64 u)), None).

Definition Randomize (u : t) (nextInt : unit -> Z) (fieldType : string)
  (shouldBeNull : bool) : t :=
  if shouldBeNull then {| Uint64 := 0; Valid := false |}
  else {| Uint64 := to_uint64 (nextInt tt); Valid := true |}.

End Uint64.

(** * Histories of an Int16

    The operations that change an [Int16] in place, and what a sequence
    of them makes of an instance. *)

Inductive op : Type :=
| OpUnmarshalJSON (data : string)
| OpUnmarshalText (text : string)
| OpSetValid (n : Z)
| OpScan (value : GoValue)
| OpRandomize (nextInt : unit -> Z) (fieldType : string) (shouldBeNull : bool).

Definition apply_op {conv : Converter} (i : Int16.t) (o : op) : Int16.t :=
  match o with
  | OpUnmarshalJSON data => fst (Int16.UnmarshalJSON i data)
  | OpUnmarshalText text => fst (Int16.UnmarshalText i text)
  | OpSetValid n => Int16.SetValid i n
  | OpScan value => fst (Int16.Scan i value)
  | OpRandomize nextInt fieldType shouldBeNull =>
      Int16.Randomize i nextInt fieldType shouldBeNull
  end.

Definition run {conv : Converter} (ops : list op) (i : Int16.t) : Int16.t :=
  fold_left apply_op ops i.

Definition is_scan_nil (o : op) : bool :=
  match o with OpScan VNil => true | _ => false end.

(** * Decimal strings

    What the proofs say of the strings [FormatUint] writes and
    [ParseUint] reads. *)

Fixpoint all_digits (s : string) : bool :=
  match s with
  | EmptyString => true
  | String c r => is_digit c && all_digits r
  end.

(** The number the digits of [s] denote, on top of [n]. *)
Fixpoint dec_value (n : Z) (s : string) : Z :=
  match s with
  | EmptyString => n
  | String c r => dec_value (n * 10 + (byte_val c - 48)) r
  end.

Definition slen (s : string) : Z := Z.of_nat (String.length s).

(** A canonical decimal: one digit or more, and no leading zero unless
    the string is "0". *)
Definition canonical (s : string) : bool :=
  match s with
  | EmptyString => false
  | String c r =>
      all_digits s && (negb (is_char c "0") || is_empty r)
  end.

(** The first byte is a digit other than 0. *)
Definition nonzero_head (s : string) : bool :=
  match s with
  | EmptyString => false
  | String c _ => negb (is_char c "0")
  end.

(** With fuel above twice the length of the input, the answer of the
    parser does not depend on the fuel. *)
Definition stable_at (n : nat) : Prop :=
  (forall d s f f', String.length s = n ->
     (2 * n + 1 <= f)%nat -> (2 * n + 1 <= f')%nat ->
     parse_value f d s = parse_value f' d s)
  /\ (forall d s acc f f', String.length s = n ->
        (2 * n + 2 <= f)%nat -> (2 * n + 2 <= f')%nat ->
        parse_elements f d s acc = parse_elements f' d s acc)
  /\ (forall d s acc f f', String.length s = n ->
        (2 * n + 2 <= f)%nat -> (2 * n + 2 <= f')%nat ->
        parse_members f d s acc = parse_members f' d s acc).

(** A JSON string token: [s] between two quotes. *)
Definition quoted (s : string) : string :=
  String ch_quote (s ++ String ch_quote EmptyString).

(** White space in the sense of the JSON scanner. *)
Fixpoint all_space (s : string) : bool :=
  match s with
  | EmptyString => true
  | String c r => is_space c && all_space r
  end.

(** Bytes that stand for themselves inside a JSON string: printable
    ASCII other than the quote and the backslash. *)
Definition plain_byte (c : ascii) : bool :=
  (32 <=? byte_val c) && (byte_val c <? 128)
  && negb (is_char c ch_quote) && negb (is_char c ch_backslash).

Fixpoint all_plain (s : string) : bool :=
  match s with
  | EmptyString => true
  | String c r => plain_byte c && all_plain r
  end.

(** * Bytes: facts *)

Lemma byte_val_range c : 0 <= byte_val c < 256.
Proof.
  unfold byte_val. pose proof (N_ascii_bounded c) as H. lia.
Qed.

Lemma byte_val_of z : 0 <= z < 256 -> byte_val (byte_of z) = z.
Proof.
  intros H. unfold byte_val, byte_of.
  rewrite N_ascii_embedding by lia. lia.
Qed.

Lemma byte_val_inj c d : byte_val c = byte_val d -> c = d.
Proof.
  unfold byte_val. intros H.
  rewrite <- (ascii_N_embedding c), <- (ascii_N_embedding d).
  f_equal. lia.
Qed.

Lemma is_char_val c d : is_char c d = (byte_val c =? byte_val d).
Proof.
  unfold is_char. destruct (Ascii.eqb_spec c d) as [->|Hne].
  - symmetry. apply Z.eqb_refl.
  - symmetry. apply Z.eqb_neq. intros H. apply Hne, byte_val_inj, H.
Qed.

Lemma is_digit_val c : is_digit c = (48 <=? byte_val c) && (byte_val c <=? 57).
Proof. reflexivity. Qed.

Lemma is_digit_true c : is_digit c = true <-> 48 <= byte_val c <= 57.
Proof. rewrite is_digit_val, andb_true_iff, !Z.leb_le. tauto. Qed.

Lemma byte_val_digit_char d : 0 <= d <= 9 -> byte_val (digit_char d) = 48 + d.
Proof.
  intros H. unfold digit_char. change (byte_val "0") with 48.
  apply byte_val_of. lia.
Qed.

Lemma is_digit_digit_char d : 0 <= d <= 9 -> is_digit (digit_char d) = true.
Proof.
  intros H. apply is_digit_true. rewrite byte_val_digit_char; lia.
Qed.

Lemma digit_value_digit c :
  is_digit c = true -> digit_value c = Some (byte_val c - 48).
Proof. intros H. unfold digit_value. rewrite H. reflexivity. Qed.

Lemma is_space_digit c : is_digit c = true -> is_space c = false.
Proof.
  intros H%is_digit_true. unfold is_space. rewrite !is_char_val.
  change (byte_val " ") with 32. change (byte_val ch_tab) with 9.
  change (byte_val ch_cr) with 13. change (byte_val ch_lf) with 10.
  repeat (apply orb_false_intro); apply Z.eqb_neq; lia.
Qed.

Lemma is_char_digit c d :
  is_digit c = true -> is_digit d = false -> is_char c d = false.
Proof.
  intros Hc Hd. unfold is_char. destruct (Ascii.eqb_spec c d) as [->|]; congruence.
Qed.

(** * Decimal strings: facts *)

Lemma append_nil_r s : (s ++ EmptyString)%string = s.
Proof. induction s as [|c s IH]; simpl; congruence. Qed.

Lemma append_assoc s t u : ((s ++ t) ++ u)%string = (s ++ (t ++ u))%string.
Proof. induction s as [|c s IH]; simpl; congruence. Qed.

Lemma slen_nonneg s : 0 <= slen s.
Proof. unfold slen. lia. Qed.

Lemma slen_cons c s : slen (String c s) = slen s + 1.
Proof. unfold slen. simpl String.length. lia. Qed.

Lemma slen_app s t : slen (s ++ t) = slen s + slen t.
Proof.
  induction s as [|c s IH].
  - unfold slen. simpl. lia.
  - change (String c s ++ t)%string with (String c (s ++ t)).
    rewrite !slen_cons, IH. lia.
Qed.

Lemma all_digits_app s t :
  all_digits (s ++ t) = all_digits s && all_digits t.
Proof.
  induction s as [|c s IH]; simpl; [reflexivity|].
  rewrite IH. apply andb_assoc.
Qed.

Lemma dec_value_app s t n : dec_value n (s ++ t) = dec_value (dec_value n s) t.
Proof.
  revert n. induction s as [|c s IH]; intros n; simpl; [reflexivity|apply IH].
Qed.

Lemma dec_value_ge s :
  all_digits s = true -> forall n, 0 <= n -> n <= dec_value n s.
Proof.
  induction s as [|c s IH]; simpl; intros Hs n Hn; [lia|].
  apply andb_true_iff in Hs as [Hc%is_digit_true Hs].
  specialize (IH Hs (n * 10 + (byte_val c - 48))). lia.
Qed.

(** [formatBits] writes its digits in front of what it was given. *)
Lemma formatBits_app fuel :
  forall u acc, formatBits fuel u acc = (formatBits fuel u EmptyString ++ acc)%string.
Proof.
  induction fuel as [|fuel IH]; intros u acc; simpl; [reflexivity|].
  destruct (u <? 10); [reflexivity|].
  rewrite (IH (u / 10) (String _ acc)), (IH (u / 10) (String _ EmptyString)).
  rewrite append_assoc. reflexivity.
Qed.

Lemma nonzero_head_app s t : nonzero_head s = true -> nonzero_head (s ++ t) = true.
Proof. destruct s; simpl; [discriminate|trivial]. Qed.

Lemma is_char_zero_digit_char d :
  0 <= d <= 9 -> is_char (digit_char d) "0" = (d =? 0).
Proof.
  intros H. rewrite is_char_val, byte_val_digit_char by lia.
  change (byte_val "0") with 48.
  destruct (Z.eqb_spec d 0); [apply Z.eqb_eq|apply Z.eqb_neq]; lia.
Qed.

(** With enough fuel, [formatBits] writes the decimal digits of [u],
    most significant first and without a leading zero. *)
Lemma formatBits_spec fuel :
  forall u, 0 <= u < 10 ^ Z.of_nat (S fuel) ->
    let s := formatBits (S fuel) u EmptyString in
    all_digits s = true
    /\ (forall n, dec_value n s = n * 10 ^ slen s + u)
    /\ (0 < u -> nonzero_head s = true)
    /\ 0 < slen s.
Proof.
  induction fuel as [|fuel IH]; intros u Hu.
  - assert (Hlt : u < 10) by (change (10 ^ Z.of_nat 1) with 10 in Hu; lia).
    cbn [formatBits]. apply Z.ltb_lt in Hlt as Hb. rewrite Hb. cbv zeta.
    repeat split.
    + simpl. rewrite is_digit_digit_char by lia. reflexivity.
    + intros n. simpl dec_value. rewrite byte_val_digit_char by lia.
      change (slen _) with 1. lia.
    + intros Hpos. simpl. rewrite is_char_zero_digit_char by lia.
      destruct (Z.eqb_spec u 0); [lia|reflexivity].
  - cbv zeta. change (formatBits (S (S fuel)) u EmptyString)
      with (if u <? 10 then String (digit_char u) EmptyString
            else formatBits (S fuel) (u / 10)
                   (String (digit_char (u mod 10)) EmptyString)).
    destruct (Z.ltb_spec u 10) as [Hlt|Hge].
    + repeat split.
      * simpl. rewrite is_digit_digit_char by lia. reflexivity.
      * intros n. simpl dec_value. rewrite byte_val_digit_char by lia.
        change (slen _) with 1. lia.
      * intros Hpos. simpl. rewrite is_char_zero_digit_char by lia.
        destruct (Z.eqb_spec u 0); [lia|reflexivity].
    + rewrite formatBits_app.
      assert (Hq : 0 <= u / 10 < 10 ^ Z.of_nat (S fuel)).
      { split; [apply Z.div_pos; lia|].
        apply Z.div_lt_upper_bound; [lia|].
        replace (Z.of_nat (S (S fuel))) with (Z.of_nat (S fuel) + 1) in Hu by lia.
        rewrite Z.pow_add_r, Z.pow_1_r in Hu by lia. lia. }
      destruct (IH (u / 10) Hq) as (Hd & Hv & Hh & Hl).
      pose proof (Z.mod_pos_bound u 10 ltac:(lia)) as Hm.
      pose proof (Z.div_mod u 10 ltac:(lia)) as Hdm.
      set (s := formatBits (S fuel) (u / 10) EmptyString) in *.
      repeat split.
      * rewrite all_digits_app, Hd. simpl.
        rewrite is_digit_digit_char by lia. reflexivity.
      * intros n. rewrite dec_value_app, Hv. simpl dec_value.
        rewrite byte_val_digit_char by lia.
        rewrite slen_app. change (slen (String _ EmptyString)) with 1.
        rewrite Z.pow_add_r, Z.pow_1_r by lia. lia.
      * intros _. apply nonzero_head_app, Hh.
        assert (10 <= u) by lia. apply Z.div_str_pos. lia.
      * rewrite slen_app. pose proof (slen_nonneg (String (digit_char (u mod 10)) EmptyString)). lia.
Qed.

Lemma FormatUint_spec u :
  in_uint64 u ->
  all_digits (FormatUint u) = true
  /\ dec_value 0 (FormatUint u) = u
  /\ (0 < u -> nonzero_head (FormatUint u) = true)
  /\ 0 < slen (FormatUint u).
Proof.
  intros [Hlo Hhi]. unfold FormatUint.
  assert (Hb : 0 <= u < 10 ^ Z.of_nat 20)
    by (split; [lia|]; eapply Z.lt_trans; [exact Hhi|reflexivity]).
  destruct (formatBits_spec 19 u Hb) as (Hd & Hv & Hh & Hl).
  repeat split; auto.
Qed.

Lemma FormatUint_0 : FormatUint 0 = "0".
Proof. reflexivity. Qed.

Lemma FormatUint_canonical u : in_uint64 u -> canonical (FormatUint u) = true.
Proof.
  intros Hu. destruct (FormatUint_spec u Hu) as (Hd & _ & Hh & Hl).
  destruct (Z.eq_dec u 0) as [->|Hne]; [reflexivity|].
  specialize (Hh ltac:(unfold in_uint64 in Hu; lia)).
  unfold canonical. destruct (FormatUint u) as [|c r]; [discriminate|].
  rewrite Hd. simpl in Hh. rewrite Hh. reflexivity.
Qed.

(** * strconv: parsing what was formatted *)

Lemma to_uint64_small x : in_uint64 x -> to_uint64 x = x.
Proof. intros H. apply Z.mod_small. exact H. Qed.

Lemma to_int64_small x : in_int64 x -> to_int64 x = x.
Proof.
  intros [Hlo Hhi]. unfold to_int64, to_signed.
  change (2 ^ (64 - 1)) with (2 ^ 63). rewrite Z.mod_small; lia.
Qed.

Lemma to_int16_small x : in_int16 x -> to_int16 x = x.
Proof.
  unfold in_int16, MinInt16, MaxInt16. intros [Hlo Hhi].
  unfold to_int16, to_signed. rewrite Z.mod_small; lia.
Qed.

Lemma to_uint_small a x : in_uint a x -> to_uint a x = x.
Proof. intros H. apply Z.mod_small. exact H. Qed.

Lemma in_uint_uint64 a x : in_uint a x -> in_uint64 x.
Proof. unfold in_uint, in_uint64. destruct a; simpl IntSize; lia. Qed.

(** On digits whose value fits, the loop of [ParseUint] returns that
    value. *)
Lemma parseUint_loop_digits maxVal s :
  maxVal <= maxUint64 -> all_digits s = true ->
  forall n, 0 <= n -> dec_value n s <= maxVal ->
    parseUint_loop 10 (maxUint64 / 10 + 1) maxVal n s = (dec_value n s, None).
Proof.
  intros Hmax. induction s as [|c s IH]; intros Hs n Hn Hv; [reflexivity|].
  simpl in Hs. apply andb_true_iff in Hs as [Hc Hs].
  cbn [parseUint_loop dec_value] in *.
  rewrite (digit_value_digit c Hc).
  apply is_digit_true in Hc.
  pose proof (dec_value_ge s Hs (n * 10 + (byte_val c - 48)) ltac:(lia)) as Hge.
  unfold maxUint64 in *.
  change ((2 ^ 64 - 1) / 10 + 1) with 1844674407370955162 in *.
  destruct (Z.leb_spec 10 (byte_val c - 48)); [lia|].
  destruct (Z.leb_spec 1844674407370955162 n); [lia|].
  cbv zeta. rewrite to_uint64_small by (unfold in_uint64; lia).
  destruct (Z.ltb_spec (n * 10 + (byte_val c - 48)) (n * 10)); [lia|].
  destruct (Z.ltb_spec maxVal (n * 10 + (byte_val c - 48))); [lia|].
  simpl. apply IH; auto; lia.
Qed.

Lemma parseUint_digits s bitSize :
  1 <= bitSize <= 64 -> all_digits s = true -> 0 < slen s ->
  dec_value 0 s < 2 ^ bitSize ->
  parseUint s 10 bitSize = (dec_value 0 s, None).
Proof.
  intros Hb Hs Hl Hv. unfold parseUint.
  destruct s as [|c r]; [unfold slen in Hl; simpl in Hl; lia|].
  cbn [is_empty]. cbv zeta.
  apply parseUint_loop_digits; auto; try lia.
  unfold maxUint64.
  assert (2 ^ bitSize <= 2 ^ 64) by (apply Z.pow_le_mono_r; lia). lia.
Qed.

Lemma parseUint_FormatUint u bitSize :
  1 <= bitSize <= 64 -> 0 <= u < 2 ^ bitSize ->
  parseUint (FormatUint u) 10 bitSize = (u, None).
Proof.
  intros Hb Hu.
  assert (Hu64 : in_uint64 u).
  { unfold in_uint64.
    assert (2 ^ bitSize <= 2 ^ 64) by (apply Z.pow_le_mono_r; lia). lia. }
  destruct (FormatUint_spec u Hu64) as (Hd & Hv & _ & Hl).
  rewrite parseUint_digits; auto; rewrite Hv; [reflexivity|lia].
Qed.

Lemma ParseUint_FormatUint u bitSize :
  1 <= bitSize <= 64 -> 0 <= u < 2 ^ bitSize ->
  ParseUint (FormatUint u) 10 bitSize = (u, None).
Proof.
  intros Hb Hu. unfold ParseUint. rewrite parseUint_FormatUint by auto.
  reflexivity.
Qed.

(** The first byte of a decimal string is neither a sign nor a letter. *)
Lemma digit_not_sign c :
  is_digit c = true ->
  is_char c "+" = false /\ is_char c "-" = false /\ is_char c "n" = false.
Proof.
  intros H%is_digit_true. rewrite !is_char_val.
  change (byte_val "+") with 43. change (byte_val "-") with 45.
  change (byte_val "n") with 110.
  repeat split; apply Z.eqb_neq; lia.
Qed.

Lemma FormatUint_head u :
  in_uint64 u ->
  exists c r, FormatUint u = String c r /\ is_digit c = true
              /\ all_digits r = true.
Proof.
  intros Hu. destruct (FormatUint_spec u Hu) as (Hd & _ & _ & Hl).
  destruct (FormatUint u) as [|c r]; [unfold slen in Hl; simpl in Hl; lia|].
  simpl in Hd. apply andb_true_iff in Hd as [Hc Hr]. eauto.
Qed.

Lemma parseInt_FormatInt v bitSize :
  1 <= bitSize <= 64 -> - 2 ^ (bitSize - 1) <= v < 2 ^ (bitSize - 1) ->
  parseInt (FormatInt v) 10 bitSize = (v, None).
Proof.
  intros Hb Hv.
  assert (Hp : 0 < 2 ^ (bitSize - 1) <= 2 ^ 63).
  { split; [apply Z.pow_pos_nonneg; lia|apply Z.pow_le_mono_r; lia]. }
  unfold FormatInt. destruct (Z.ltb_spec v 0) as [Hneg|Hpos].
  - assert (Hu : in_uint64 (- v)) by (unfold in_uint64; lia).
    rewrite (to_uint64_small _ Hu).
    unfold parseInt. change (Ascii.eqb "-" "+") with false.
    change (Ascii.eqb "-" "-") with true. cbv iota.
    assert (Hpp : 2 ^ bitSize = 2 * 2 ^ (bitSize - 1)).
    { replace bitSize with (bitSize - 1 + 1) at 1 by lia.
      rewrite Z.pow_add_r by lia. lia. }
    rewrite (parseUint_FormatUint (- v) bitSize) by lia.
    cbv zeta. cbn [negb andb].
    destruct (Z.ltb_spec (2 ^ (bitSize - 1)) (- v)); [lia|].
    f_equal. destruct (Z.eq_dec (- v) (2 ^ 63)) as [He|Hne].
    + rewrite He. replace v with (- 2 ^ 63) by lia. reflexivity.
    + rewrite (to_int64_small (- v)) by (unfold in_int64; lia).
      rewrite Z.opp_involutive. apply to_int64_small. unfold in_int64. lia.
  - assert (Hu : in_uint64 v) by (unfold in_uint64; lia).
    rewrite (to_uint64_small _ Hu).
    destruct (FormatUint_head v Hu) as (c & r & Hs & Hc & Hr).
    assert (Hpp : 2 ^ bitSize = 2 * 2 ^ (bitSize - 1)).
    { replace bitSize with (bitSize - 1 + 1) at 1 by lia.
      rewrite Z.pow_add_r by lia. lia. }
    pose proof (parseUint_FormatUint v bitSize ltac:(lia) ltac:(lia)) as Hparse.
    rewrite Hs in *. unfold parseInt.
    destruct (digit_not_sign c Hc) as (Hplus & Hminus & _).
    unfold is_char in Hplus, Hminus. rewrite Hplus, Hminus.
    rewrite Hparse. cbv zeta. cbn [negb andb].
    destruct (Z.leb_spec (2 ^ (bitSize - 1)) v); [lia|].
    f_equal. apply to_int64_small. unfold in_int64. lia.
Qed.

Lemma ParseInt_FormatInt v bitSize :
  1 <= bitSize <= 64 -> - 2 ^ (bitSize - 1) <= v < 2 ^ (bitSize - 1) ->
  ParseInt (FormatInt v) 10 bitSize = (v, None).
Proof.
  intros Hb Hv. unfold ParseInt. rewrite parseInt_FormatInt by auto.
  reflexivity.
Qed.

(** * json: decoding a decimal integer literal *)

Lemma span_digits_all s :
  all_digits s = true -> span_digits s = (s, EmptyString).
Proof.
  induction s as [|c s IH]; simpl; [reflexivity|].
  intros [Hc Hs]%andb_true_iff. rewrite Hc, (IH Hs). reflexivity.
Qed.

Lemma scan_int_canonical s :
  canonical s = true -> scan_int s = Some (s, EmptyString).
Proof.
  destruct s as [|c r]; [discriminate|].
  unfold canonical. intros [Hd Hz]%andb_true_iff.
  simpl in Hd. apply andb_true_iff in Hd as [Hc Hr].
  unfold scan_int. destruct (is_char c "0") eqn:E.
  - simpl in Hz. destruct r; [reflexivity|discriminate].
  - rewrite Hc, (span_digits_all r Hr). reflexivity.
Qed.

Lemma scan_number_canonical s :
  canonical s = true -> scan_number s = Some (s, EmptyString).
Proof.
  intros Hs. pose proof (scan_int_canonical s Hs) as Hi.
  destruct s as [|c r]; [discriminate|].
  unfold canonical in Hs. apply andb_true_iff in Hs as [Hd _].
  simpl in Hd. apply andb_true_iff in Hd as [Hc _].
  destruct (digit_not_sign c Hc) as (_ & Hminus & _).
  unfold scan_number, scan_sign. rewrite Hminus, Hi. simpl.
  rewrite append_nil_r. reflexivity.
Qed.

Lemma scan_number_negative s :
  canonical s = true ->
  scan_number (String "-" s) = Some (String "-" s, EmptyString).
Proof.
  intros Hs. unfold scan_number, scan_sign.
  change (is_char "-" "-") with true. cbv iota.
  rewrite (scan_int_canonical s Hs). simpl.
  rewrite append_nil_r. reflexivity.
Qed.

Lemma canonical_head s :
  canonical s = true ->
  exists c r, s = String c r /\ is_digit c = true /\ all_digits r = true.
Proof.
  destruct s as [|c r]; [discriminate|].
  unfold canonical. intros [Hd _]%andb_true_iff.
  simpl in Hd. apply andb_true_iff in Hd as [Hc Hr]. eauto.
Qed.

Lemma decode_fuel (data : string) :
  exists fuel, (2 * String.length data + 2)%nat = S fuel.
Proof. exists (2 * String.length data + 1)%nat. lia. Qed.

(** A canonical decimal, with or without a minus sign in front, decodes
    to the number with that literal. *)
Lemma decode_canonical s :
  canonical s = true -> decode s = Some (JNumber s).
Proof.
  intros Hs. destruct (canonical_head s Hs) as (c & r & -> & Hc & Hr).
  unfold decode. destruct (decode_fuel (String c r)) as [fuel ->].
  cbn [skip_space]. rewrite (is_space_digit c Hc).
  cbn [parse_value]. rewrite Hc. cbn [orb].
  rewrite (scan_number_canonical _ Hs). reflexivity.
Qed.

Lemma decode_negative s :
  canonical s = true -> decode (String "-" s) = Some (JNumber (String "-" s)).
Proof.
  intros Hs. unfold decode. destruct (decode_fuel (String "-" s)) as [fuel ->].
  cbn [skip_space]. change (is_space "-") with false. cbv iota.
  cbn [parse_value]. change (is_digit "-") with false.
  change (is_char "-" "-") with true. cbn [orb].
  rewrite (scan_number_negative _ Hs). reflexivity.
Qed.

Lemma read_digits_all s :
  all_digits s = true ->
  forall m n, read_digits m n s = (dec_value m s, n + slen s, EmptyString).
Proof.
  induction s as [|c s IH]; intros Hs m n.
  - simpl. unfold slen. simpl. rewrite Z.add_0_r. reflexivity.
  - simpl in Hs. apply andb_true_iff in Hs as [Hc Hs].
    cbn [read_digits dec_value]. rewrite Hc, (IH Hs).
    change (byte_val "0") with 48. rewrite slen_cons.
    replace (n + 1 + slen s) with (n + (slen s + 1)) by lia. reflexivity.
Qed.

Lemma float64_limit_above_uint64 : 2 ^ 64 < float64_limit.
Proof. reflexivity. Qed.

(** A decimal integer below [2^64] is within the range of a float64. *)
Lemma ParseFloat64_err_canonical s :
  canonical s = true -> dec_value 0 s < 2 ^ 64 ->
  ParseFloat64_err s = None.
Proof.
  intros Hs Hv. destruct (canonical_head s Hs) as (c & r & -> & Hc & Hr).
  destruct (digit_not_sign c Hc) as (Hplus & Hminus & _).
  assert (Hall : all_digits (String c r) = true) by (simpl; rewrite Hc, Hr; reflexivity).
  unfold ParseFloat64_err. rewrite Hplus, Hminus. cbn [orb].
  rewrite (read_digits_all _ Hall). cbv iota beta zeta.
  rewrite slen_cons. pose proof (slen_nonneg r) as Hl.
  destruct (Z.eqb_spec (0 + (slen r + 1) + 0) 0); [lia|].
  cbn [is_empty negb]. change (0 - 0) with 0. change (0 <=? 0) with true.
  cbv iota. rewrite Z.pow_0_r, Z.mul_1_r.
  pose proof float64_limit_above_uint64.
  destruct (Z.leb_spec float64_limit (dec_value 0 (String c r))); [lia|reflexivity].
Qed.

Lemma Unmarshal_interface_canonical s :
  canonical s = true -> dec_value 0 s < 2 ^ 64 ->
  Unmarshal_interface s = inl (JNumber s).
Proof.
  intros Hs Hv. unfold Unmarshal_interface.
  rewrite (decode_canonical s Hs). cbn [convert_error].
  rewrite (ParseFloat64_err_canonical s Hs Hv). reflexivity.
Qed.

Lemma Equal_NullBytes_digit c r :
  is_digit c = true -> Equal (String c r) NullBytes = false.
Proof.
  intros Hc. destruct (digit_not_sign c Hc) as (_ & _ & Hn).
  unfold Equal, NullBytes. cbn [String.eqb].
  unfold is_char in Hn. rewrite Hn. reflexivity.
Qed.

Lemma Equal_NullBytes_FormatUint u :
  in_uint64 u -> Equal (FormatUint u) NullBytes = false.
Proof.
  intros Hu. destruct (FormatUint_head u Hu) as (c & r & -> & Hc & _).
  apply Equal_NullBytes_digit, Hc.
Qed.

Lemma Unmarshal_interface_FormatUint u :
  in_uint64 u -> Unmarshal_interface (FormatUint u) = inl (JNumber (FormatUint u)).
Proof.
  intros Hu. destruct (FormatUint_spec u Hu) as (_ & Hv & _).
  apply Unmarshal_interface_canonical.
  - apply FormatUint_canonical, Hu.
  - rewrite Hv. apply Hu.
Qed.

Lemma Unmarshal_uint64_FormatUint u x0 :
  in_uint64 u -> Unmarshal_uint64 (FormatUint u) x0 = (u, None).
Proof.
  intros Hu. unfold Unmarshal_uint64.
  rewrite (decode_canonical _ (FormatUint_canonical u Hu)).
  rewrite ParseUint_FormatUint by (unfold in_uint64 in Hu; lia).
  reflexivity.
Qed.

Lemma Unmarshal_int64_FormatInt v x0 :
  in_int64 v -> Unmarshal_int64 (FormatInt v) x0 = (v, None).
Proof.
  intros Hv. unfold Unmarshal_int64.
  assert (Hd : decode (FormatInt v) = Some (JNumber (FormatInt v))).
  { unfold FormatInt. unfold in_int64 in Hv. destruct (Z.ltb_spec v 0).
    - apply decode_negative, FormatUint_canonical.
      rewrite to_uint64_small; unfold in_uint64; lia.
    - apply decode_canonical, FormatUint_canonical.
      rewrite to_uint64_small; unfold in_uint64; lia. }
  rewrite Hd, ParseInt_FormatInt; [reflexivity|lia|exact Hv].
Qed.

(** * json: the fuel of [decode] is enough

    More fuel than [decode] supplies never changes what the parser
    answers. *)

Lemma skip_space_length s : (String.length (skip_space s) <= String.length s)%nat.
Proof.
  induction s as [|c s IH]; simpl; [lia|].
  destruct (is_space c); simpl; lia.
Qed.

Lemma span_digits_length s ds r :
  span_digits s = (ds, r) -> (String.length r <= String.length s)%nat.
Proof.
  revert ds r. induction s as [|c s IH]; simpl; intros ds r H.
  - injection H as <- <-. simpl. lia.
  - destruct (is_digit c).
    + destruct (span_digits s) as [ds' r'] eqn:E. injection H as <- <-.
      specialize (IH _ _ eq_refl). lia.
    + injection H as <- <-. simpl. lia.
Qed.

Lemma scan_number_length s lit r :
  scan_number s = Some (lit, r) -> (String.length r < String.length s)%nat.
Proof.
  unfold scan_number. destruct (scan_sign s) as [sg s0] eqn:Esg.
  assert (H0 : (String.length s0 <= String.length s)%nat).
  { unfold scan_sign in Esg. destruct s as [|c t].
    - injection Esg as <- <-. lia.
    - destruct (is_char c "-"); injection Esg as <- <-; simpl; lia. }
  destruct (scan_int s0) as [[ip s1]|] eqn:Ei; [|discriminate].
  assert (H1 : (String.length s1 < String.length s0)%nat).
  { unfold scan_int in Ei. destruct s0 as [|c t]; [discriminate|].
    destruct (is_char c "0").
    - injection Ei as <- <-. simpl. lia.
    - destruct (is_digit c); [|discriminate].
      destruct (span_digits t) as [ds r'] eqn:E. injection Ei as <- <-.
      apply span_digits_length in E. simpl. lia. }
  destruct (scan_frac s1) as [[fp s2]|] eqn:Ef; [|discriminate].
  assert (H2 : (String.length s2 <= String.length s1)%nat).
  { unfold scan_frac in Ef. destruct s1 as [|c t].
    - injection Ef as <- <-. lia.
    - destruct (is_char c ".").
      + destruct (span_digits t) as [ds r'] eqn:E.
        apply span_digits_length in E.
        destruct ds; [discriminate|]. injection Ef as <- <-. simpl. lia.
      + injection Ef as <- <-. lia. }
  destruct (scan_exp s2) as [[ep s3]|] eqn:Ee; [|discriminate].
  assert (H3 : (String.length s3 <= String.length s2)%nat).
  { unfold scan_exp in Ee. destruct s2 as [|c t].
    - injection Ee as <- <-. lia.
    - destruct (is_char c "e" || is_char c "E").
      + destruct (match t with
                  | EmptyString => (EmptyString, t)
                  | String c1 r' =>
                      if is_char c1 "+" || is_char c1 "-"
                      then (String c1 EmptyString, r') else (EmptyString, t)
                  end) as [sg' r1] eqn:Es.
        assert (String.length r1 <= String.length t)%nat.
        { destruct t as [|c1 r']; [injection Es as <- <-; lia|].
          destruct (is_char c1 "+" || is_char c1 "-");
            injection Es as <- <-; simpl; lia. }
        destruct (span_digits r1) as [ds r'] eqn:E.
        apply span_digits_length in E.
        destruct ds; [discriminate|]. injection Ee as <- <-. simpl. lia.
      + injection Ee as <- <-. lia. }
  intros H. injection H as <- <-. lia.
Qed.

Lemma scan_string_length s :
  forall raw r, scan_string s = Some (raw, r) ->
                (String.length r < String.length s)%nat.
Proof.
  induction s as [s IH] using (induction_ltof1 _ String.length).
  unfold ltof in IH. intros raw r H.
  destruct s as [|c t]; [discriminate|]. cbn [scan_string] in H.
  destruct (is_char c ch_quote); [injection H as <- <-; simpl; lia|].
  destruct (is_char c ch_backslash).
  - destruct t as [|e t1]; [discriminate|].
    destruct (is_simple_escape e).
    + destruct (scan_string t1) as [[raw' r']|] eqn:E; [|discriminate].
      injection H as <- <-. apply IH in E; simpl in *; lia.
    + destruct (is_char e "u"); [|discriminate].
      destruct t1 as [|h1 [|h2 [|h3 [|h4 t2]]]]; try discriminate.
      destruct (hex4 h1 h2 h3 h4); [|discriminate].
      destruct (scan_string t2) as [[raw' r']|] eqn:E; [|discriminate].
      injection H as <- <-. apply IH in E; simpl in *; lia.
  - destruct (byte_val c <? 32); [discriminate|].
    destruct (scan_string t) as [[raw' r']|] eqn:E; [|discriminate].
    injection H as <- <-. apply IH in E; simpl in *; lia.
Qed.

Lemma expect_length lit :
  forall s r, expect lit s = Some r -> (String.length r <= String.length s)%nat.
Proof.
  induction lit as [|a lit IH]; intros s r H; simpl in H.
  - injection H as <-. lia.
  - destruct s as [|c s']; [discriminate|].
    destruct (is_char a c); [|discriminate].
    apply IH in H. simpl. lia.
Qed.

Lemma skip_space_cons s c t :
  skip_space s = String c t -> (String.length t < String.length s)%nat.
Proof.
  intros E. pose proof (skip_space_length s) as H. rewrite E in H.
  simpl in H. lia.
Qed.

Lemma option_map_pair_length (v0 : jvalue) (o : option string) s v r :
  option_map (pair v0) o = Some (v, r) ->
  (forall t, o = Some t -> (String.length t <= String.length s)%nat) ->
  (String.length r <= String.length s)%nat.
Proof.
  destruct o as [t|]; [|discriminate]. simpl. intros H Ht.
  injection H as <- <-. apply Ht. reflexivity.
Qed.

(** A value that parses leaves less input than it was given. *)
Lemma parse_consumes fuel :
  (forall d s v r, parse_value fuel d s = Some (v, r) ->
                   (String.length r < String.length s)%nat)
  /\ (forall d s acc v r, parse_elements fuel d s acc = Some (v, r) ->
                          (String.length r < String.length s)%nat)
  /\ (forall d s acc v r, parse_members fuel d s acc = Some (v, r) ->
                          (String.length r < String.length s)%nat).
Proof.
  induction fuel as [|f (IHv & IHe & IHm)];
    [repeat split; intros; discriminate|].
  split; [|split].
  - intros d s v r H. destruct s as [|c t]; [discriminate|].
    cbn [parse_value] in H.
    destruct (is_digit c || is_char c "-").
    { destruct (scan_number (String c t)) as [[lit rest]|] eqn:E; [|discriminate].
      injection H as <- <-. apply scan_number_length in E. exact E. }
    destruct (is_char c ch_quote).
    { destruct (scan_string t) as [[raw rest]|] eqn:E; [|discriminate].
      destruct (unquote raw); [|discriminate]. injection H as <- <-.
      apply scan_string_length in E. simpl. lia. }
    destruct (is_char c "n").
    { eapply option_map_pair_length with (s := t) in H;
        [simpl; lia|apply expect_length]. }
    destruct (is_char c "t").
    { eapply option_map_pair_length with (s := t) in H;
        [simpl; lia|apply expect_length]. }
    destruct (is_char c "f").
    { eapply option_map_pair_length with (s := t) in H;
        [simpl; lia|apply expect_length]. }
    destruct (is_char c "[").
    { destruct (maxNestingDepth <? d + 1); [discriminate|].
      destruct (skip_space t) as [|c1 r1] eqn:E; [discriminate|].
      apply skip_space_cons in E.
      destruct (is_char c1 "]").
      - injection H as <- <-. simpl. lia.
      - apply IHe in H. simpl in *. lia. }
    destruct (is_char c "{"); [|discriminate].
    destruct (maxNestingDepth <? d + 1); [discriminate|].
    destruct (skip_space t) as [|c1 r1] eqn:E; [discriminate|].
    apply skip_space_cons in E.
    destruct (is_char c1 "}").
    + injection H as <- <-. simpl. lia.
    + apply IHm in H. simpl in *. lia.
  - intros d s acc v r H. cbn [parse_elements] in H.
    destruct (parse_value f d s) as [[v0 r0]|] eqn:Ev; [|discriminate].
    apply IHv in Ev.
    destruct (skip_space r0) as [|c r1] eqn:E; [discriminate|].
    apply skip_space_cons in E.
    destruct (is_char c ",").
    + apply IHe in H. pose proof (skip_space_length r1). lia.
    + destruct (is_char c "]"); [|discriminate].
      injection H as <- <-. lia.
  - intros d s acc v r H. cbn [parse_members] in H.
    destruct s as [|q t]; [discriminate|].
    destruct (is_char q ch_quote); [|discriminate].
    destruct (scan_string t) as [[raw r0]|] eqn:Es; [|discriminate].
    apply scan_string_length in Es.
    destruct (unquote raw) as [key|]; [|discriminate].
    destruct (skip_space r0) as [|c r1] eqn:E0; [discriminate|].
    apply skip_space_cons in E0.
    destruct (is_char c ":"); [|discriminate].
    destruct (parse_value f d (skip_space r1)) as [[v0 r2]|] eqn:Ev;
      [|discriminate].
    apply IHv in Ev. pose proof (skip_space_length r1).
    destruct (skip_space r2) as [|c2 r3] eqn:E2; [discriminate|].
    apply skip_space_cons in E2.
    destruct (is_char c2 ",").
    + apply IHm in H. pose proof (skip_space_length r3). simpl. lia.
    + destruct (is_char c2 "}"); [|discriminate].
      injection H as <- <-. simpl. lia.
Qed.

Lemma parse_stable n : stable_at n.
Proof.
  induction n as [n IH] using lt_wf_ind.
  assert (V : forall d s f f', String.length s = n ->
     (2 * n + 1 <= f)%nat -> (2 * n + 1 <= f')%nat ->
     parse_value f d s = parse_value f' d s).
  { intros d s f f' Hn Hf Hf'.
    destruct f as [|f1]; [lia|]. destruct f' as [|f1']; [lia|].
    destruct s as [|c t]; [reflexivity|]. cbn [parse_value].
    simpl String.length in Hn.
    destruct (is_digit c || is_char c "-"); [reflexivity|].
    destruct (is_char c ch_quote); [reflexivity|].
    destruct (is_char c "n"); [reflexivity|].
    destruct (is_char c "t"); [reflexivity|].
    destruct (is_char c "f"); [reflexivity|].
    destruct (is_char c "[").
    { destruct (maxNestingDepth <? d + 1); [reflexivity|].
      destruct (skip_space t) as [|c1 r1] eqn:E; [reflexivity|].
      destruct (is_char c1 "]"); [reflexivity|].
      pose proof (skip_space_length t) as Hl. rewrite E in Hl.
      destruct (IH (String.length (String c1 r1)) ltac:(lia)) as (_ & E1 & _).
      apply E1; [reflexivity|lia|lia]. }
    destruct (is_char c "{"); [|reflexivity].
    destruct (maxNestingDepth <? d + 1); [reflexivity|].
    destruct (skip_space t) as [|c1 r1] eqn:E; [reflexivity|].
    destruct (is_char c1 "}"); [reflexivity|].
    pose proof (skip_space_length t) as Hl. rewrite E in Hl.
    destruct (IH (String.length (String c1 r1)) ltac:(lia)) as (_ & _ & M1).
    apply M1; [reflexivity|lia|lia]. }
  split; [exact V|split].
  - intros d s acc f f' Hn Hf Hf'.
    destruct f as [|f2]; [lia|]. destruct f' as [|f2']; [lia|].
    cbn [parse_elements]. rewrite (V d s f2 f2') by lia.
    destruct (parse_value f2' d s) as [[v r]|] eqn:Ev; [|reflexivity].
    apply (proj1 (parse_consumes f2')) in Ev.
    destruct (skip_space r) as [|c r1] eqn:E; [reflexivity|].
    apply skip_space_cons in E.
    destruct (is_char c ","); [|reflexivity].
    pose proof (skip_space_length r1) as Hl.
    destruct (IH (String.length (skip_space r1)) ltac:(lia)) as (_ & E1 & _).
    apply E1; [reflexivity|lia|lia].
  - intros d s acc f f' Hn Hf Hf'.
    destruct f as [|f2]; [lia|]. destruct f' as [|f2']; [lia|].
    cbn [parse_members].
    destruct s as [|q t]; [reflexivity|]. simpl String.length in Hn.
    destruct (is_char q ch_quote); [|reflexivity].
    destruct (scan_string t) as [[raw r0]|] eqn:Es; [|reflexivity].
    apply scan_string_length in Es.
    destruct (unquote raw) as [key|]; [|reflexivity].
    destruct (skip_space r0) as [|c r1] eqn:E0; [reflexivity|].
    apply skip_space_cons in E0.
    destruct (is_char c ":"); [|reflexivity].
    pose proof (skip_space_length r1) as Hl1.
    destruct (IH (String.length (skip_space r1)) ltac:(lia)) as (V1 & _ & _).
    rewrite (V1 d (skip_space r1) f2 f2') by (reflexivity || lia).
    destruct (parse_value f2' d (skip_space r1)) as [[v r2]|] eqn:Ev;
      [|reflexivity].
    apply (proj1 (parse_consumes f2')) in Ev.
    destruct (skip_space r2) as [|c2 r3] eqn:E2; [reflexivity|].
    apply skip_space_cons in E2.
    destruct (is_char c2 ","); [|reflexivity].
    pose proof (skip_space_length r3) as Hl3.
    destruct (IH (String.length (skip_space r3)) ltac:(lia)) as (_ & _ & M1).
    apply M1; [reflexivity|lia|lia].
Qed.

(** [decode] never fails for want of fuel: any larger amount gives the
    same answer. *)
Theorem decode_fuel_enough (data : string) (fuel : nat) :
  (2 * String.length data + 2 <= fuel)%nat ->
  parse_value fuel 0 (skip_space data)
  = parse_value (2 * String.length data + 2) 0 (skip_space data).
Proof.
  intros Hf. pose proof (skip_space_length data) as Hl.
  destruct (parse_stable (String.length (skip_space data))) as (V & _ & _).
  apply V; [reflexivity|lia|lia].
Qed.

(** * Encoding *)

Lemma FormatUint_not_null u :
  in_uint64 u -> FormatUint u <> NullBytes /\ FormatUint u <> EmptyString.
Proof.
  intros Hu. destruct (FormatUint_head u Hu) as (c & r & E & Hc & _).
  pose proof (Equal_NullBytes_digit c r Hc) as Hn. rewrite E.
  split; [|discriminate].
  intros Heq. rewrite Heq in Hn. discriminate Hn.
Qed.

Lemma FormatInt_not_null v :
  in_int64 v -> FormatInt v <> NullBytes /\ FormatInt v <> EmptyString.
Proof.
  intros Hv. unfold FormatInt. destruct (v <? 0) eqn:E.
  - split; discriminate.
  - apply Z.ltb_ge in E. apply FormatUint_not_null.
    unfold in_int64 in Hv. rewrite to_uint64_small; unfold in_uint64; lia.
Qed.

(** C8.  An invalid instance of any of the three types encodes to the
    bytes [null] as JSON and to no bytes at all as text, whatever number
    it stores; neither is the decimal form of a number. *)
Theorem Marshal_invalid (i : Int16.t) (u : Uint.t) (w : Uint64.t) :
  (Int16.Valid i = false ->
     Int16.MarshalJSON i = ("null", None)
     /\ Int16.MarshalText i = (EmptyString, None))
  /\ (Uint.Valid u = false ->
        Uint.MarshalJSON u = ("null", None)
        /\ Uint.MarshalText u = (EmptyString, None))
  /\ (Uint64.Valid w = false ->
        Uint64.MarshalJSON w = ("null", None)
        /\ Uint64.MarshalText w = (EmptyString, None))
  /\ (forall v, in_int64 v ->
        FormatInt v <> "null" /\ FormatInt v <> EmptyString)
  /\ (forall v, in_uint64 v ->
        FormatUint v <> "null" /\ FormatUint v <> EmptyString).
Proof.
  repeat split.
  - unfold Int16.MarshalJSON. rewrite H. reflexivity.
  - unfold Int16.MarshalText. rewrite H. reflexivity.
  - unfold Uint.MarshalJSON. rewrite H. reflexivity.
  - unfold Uint.MarshalText. rewrite H. reflexivity.
  - unfold Uint64.MarshalJSON. rewrite H. reflexivity.
  - unfold Uint64.MarshalText. rewrite H. reflexivity.
  - apply (FormatInt_not_null v H).
  - apply (FormatInt_not_null v H).
  - apply (FormatUint_not_null v H).
  - apply (FormatUint_not_null v H).
Qed.

Lemma Marshal_invalid_witness :
  (Int16.MarshalJSON (Int16.NewInt16 12 false true) = ("null", None)
   /\ Int16.MarshalText (Int16.NewInt16 12 false true) = (EmptyString, None))
  /\ (Uint.MarshalJSON (Uint.NewUint 12 false) = ("null", None)
      /\ Uint.MarshalText (Uint.NewUint 12 false) = (EmptyString, None))
  /\ (Uint64.MarshalJSON (Uint64.NewUint64 12 false) = ("null", None)
      /\ Uint64.MarshalText (Uint64.NewUint64 12 false) = (EmptyString, None))
  /\ (FormatInt (-12) <> "null" /\ FormatInt (-12) <> EmptyString)
  /\ (FormatUint 12 <> "null" /\ FormatUint 12 <> EmptyString).
Proof.
  destruct (Marshal_invalid (Int16.NewInt16 12 false true)
              (Uint.NewUint 12 false) (Uint64.NewUint64 12 false))
    as (H1 & H2 & H3 & H4 & H5).
  split; [apply H1; reflexivity|].
  split; [apply H2; reflexivity|].
  split; [apply H3; reflexivity|].
  split; [apply H4; unfold in_int64; lia|apply H5; unfold in_uint64; lia].
Defined.

(** * The database bridge *)

(** C7.  Whatever converter is in use and whatever the instance held,
    [Scan] of a nil driver value succeeds and leaves the instance invalid
    with the number zero; an [Int16] is also marked as not set. *)
Theorem Scan_nil (conv : Converter) (i : Int16.t) (u : Uint.t) (w : Uint64.t) :
  Int16.Scan i VNil = ({| Int16.Int16 := 0; Int16.Valid := false; Int16.set := false |}, None)
  /\ Uint.Scan u VNil = ({| Uint.Uint := 0; Uint.Valid := false |}, None)
  /\ Uint64.Scan w VNil = ({| Uint64.Uint64 := 0; Uint64.Valid := false |}, None).
Proof. repeat split. Qed.

(** C5.  [Value] of a [Uint64]: nil when the instance is invalid; the
    number as a signed 64-bit integer when it is valid and below [2^63];
    otherwise the decimal string [FormatUint] writes, which is canonical
    and denotes the number.  For [2^63] that string is
    9223372036854775808. *)
Theorem Uint64_Value_spec (u : Uint64.t) :
  in_uint64 (Uint64.Uint64 u) ->
  (Uint64.Valid u = false -> Uint64.Value u = (VNil, None))
  /\ (Uint64.Valid u = true -> Uint64.Uint64 u < 2 ^ 63 ->
        Uint64.Value u = (VInt64 (Uint64.Uint64 u), None))
  /\ (Uint64.Valid u = true -> 2 ^ 63 <= Uint64.Uint64 u ->
        Uint64.Value u = (VString (FormatUint (Uint64.Uint64 u)), None)
        /\ canonical (FormatUint (Uint64.Uint64 u)) = true
        /\ dec_value 0 (FormatUint (Uint64.Uint64 u)) = Uint64.Uint64 u)
  /\ Uint64.Value (Uint64.Uint64From (2 ^ 63))
     = (VString "9223372036854775808", None).
Proof.
  intros Hu. unfold Uint64.Value. repeat split.
  - intros ->. reflexivity.
  - intros -> Hlt. cbn [negb]. apply Z.leb_gt in Hlt as Hb. rewrite Hb.
    rewrite to_int64_small; [reflexivity|].
    unfold in_int64, in_uint64 in *. lia.
  - rewrite H. cbn [negb]. apply Z.leb_le in H0. rewrite H0. reflexivity.
  - apply FormatUint_canonical, Hu.
  - apply (FormatUint_spec _ Hu).
Qed.

Lemma Uint64_Value_spec_witness :
  Uint64.Value (Uint64.NewUint64 77 false) = (VNil, None)
  /\ Uint64.Value (Uint64.Uint64From 77) = (VInt64 77, None)
  /\ Uint64.Value (Uint64.Uint64From 18446744073709551615)
     = (VString "18446744073709551615", None).
Proof.
  split; [|split].
  - apply (Uint64_Value_spec (Uint64.NewUint64 77 false)).
    + unfold in_uint64. simpl. lia.
    + reflexivity.
  - apply (Uint64_Value_spec (Uint64.Uint64From 77)).
    + unfold in_uint64. simpl. lia.
    + reflexivity.
    + simpl. lia.
  - apply (Uint64_Value_spec (Uint64.Uint64From 18446744073709551615)).
    + unfold in_uint64. simpl. lia.
    + reflexivity.
    + simpl. lia.
Defined.

Lemma integerConverter_assigns_uint64 a : assigns_uint64 (integerConverter a).
Proof.
  intros dest u [Hlo Hhi]. unfold ConvertAssign, integerConverter.
  apply Z.leb_le in Hlo. apply Z.ltb_lt in Hhi. rewrite Hlo, Hhi. reflexivity.
Qed.

(** C6.  With a converter that stores an unsigned 64-bit source in an
    unsigned 64-bit destination as it is, [Uint64.Scan] of a negative
    signed 64-bit value [n] succeeds and stores [n + 2^64], the same 64
    bits read as unsigned, with valid true. *)
Theorem Uint64_Scan_negative (conv : Converter) (u : Uint64.t) (n : Z) :
  assigns_uint64 conv -> - 2 ^ 63 <= n < 0 ->
  Uint64.Scan u (VInt64 n)
  = ({| Uint64.Uint64 := n + 2 ^ 64; Uint64.Valid := true |}, None).
Proof.
  intros Hconv Hn. unfold Uint64.Scan.
  destruct (Z.ltb_spec n 0) as [_|]; [|lia].
  assert (E : to_uint64 n = n + 2 ^ 64).
  { unfold to_uint64, to_unsigned.
    rewrite <- (Z.mod_add n 1 (2 ^ 64)) by lia.
    rewrite Z.mul_1_l. apply Z.mod_small. lia. }
  rewrite E, Hconv; [reflexivity|]. unfold in_uint64. lia.
Qed.

Lemma Uint64_Scan_negative_witness :
  Uint64.Scan (conv := integerConverter Arch64) Uint64.zero (VInt64 (-1))
  = ({| Uint64.Uint64 := 18446744073709551615; Uint64.Valid := true |}, None).
Proof.
  apply (Uint64_Scan_negative (integerConverter Arch64) Uint64.zero (-1)).
  - apply integerConverter_assigns_uint64.
  - lia.
Defined.

(** * Decoding *)

(** C3.  The JSON literal 0 decodes to an invalid [Uint] and an invalid
    [Uint64] (number 0, valid false), and to a valid [Int16] holding 0,
    whatever the instance held before. *)
Theorem UnmarshalJSON_zero_literal
  (a : arch) (u : Uint.t) (w : Uint64.t) (i : Int16.t) :
  Uint.UnmarshalJSON a u "0"
  = ({| Uint.Uint := 0; Uint.Valid := false |}, None)
  /\ Uint64.UnmarshalJSON w "0"
     = ({| Uint64.Uint64 := 0; Uint64.Valid := false |}, None)
  /\ Int16.UnmarshalJSON i "0"
     = ({| Int16.Int16 := 0; Int16.Valid := true; Int16.set := true |}, None).
Proof.
  split; [destruct a; reflexivity|split; reflexivity].
Qed.

(** C2, at the input that fails.  [Int16.UnmarshalJSON] compares the
    decoded number with [math.MaxInt16] only: the literal -40000, below
    the range of an int16, is accepted and stored as 25536 with valid
    true. *)
Theorem Int16_UnmarshalJSON_below_range :
  Int16.UnmarshalJSON Int16.zero "-40000"
  = ({| Int16.Int16 := 25536; Int16.Valid := true; Int16.set := true |}, None).
Proof. reflexivity. Qed.

(** Above the range the check is there: a literal that decodes to more
    than 32767 is refused, and the number and the valid flag stay as they
    were. *)
Lemma Int16_UnmarshalJSON_above_range (i : Int16.t) (data : string) (x : Z) :
  Unmarshal_int64 data 0 = (x, None) -> MaxInt16 < x ->
  Int16.UnmarshalJSON i data
  = ({| Int16.Int16 := Int16.Int16 i; Int16.Valid := Int16.Valid i;
        Int16.set := true |}, Some (OverflowError x)).
Proof.
  intros Hd Hx. unfold Int16.UnmarshalJSON.
  destruct (Equal data NullBytes) eqn:E.
  - apply String.eqb_eq in E. subst data. vm_compute in Hd.
    injection Hd as <-. unfold MaxInt16 in Hx. lia.
  - rewrite Hd. apply Z.ltb_lt in Hx. rewrite Hx. reflexivity.
Qed.

(** Below the range nothing is checked, for any literal. *)
Lemma Int16_UnmarshalJSON_truncates (i : Int16.t) (data : string) (x : Z) :
  Unmarshal_int64 data 0 = (x, None) -> x < MinInt16 ->
  Int16.UnmarshalJSON i data
  = ({| Int16.Int16 := to_int16 x; Int16.Valid := true; Int16.set := true |},
     None).
Proof.
  intros Hd Hx. unfold Int16.UnmarshalJSON. unfold MinInt16 in Hx.
  destruct (Equal data NullBytes) eqn:E.
  - apply String.eqb_eq in E. subst data. vm_compute in Hd.
    injection Hd as <-. lia.
  - rewrite Hd. unfold MaxInt16.
    destruct (Z.ltb_spec 32767 x); [lia|reflexivity].
Qed.

(** C10.  When [UnmarshalText] gets bytes that are not empty and that
    [ParseInt] or [ParseUint] refuses for the width of the type, it
    returns that error, clears the valid flag and leaves the number as it
    was. *)
Theorem UnmarshalText_parse_failure (a : arch) (text : string) (e : error) :
  is_empty text = false ->
  (forall i, snd (ParseInt text 10 16) = Some e ->
     Int16.UnmarshalText i text
     = ({| Int16.Int16 := Int16.Int16 i; Int16.Valid := false;
           Int16.set := true |}, Some e))
  /\ (forall u, snd (ParseUint text 10 (IntSize a)) = Some e ->
        Uint.UnmarshalText a u text
        = ({| Uint.Uint := Uint.Uint u; Uint.Valid := false |}, Some e))
  /\ (forall w, snd (ParseUint text 10 64) = Some e ->
        Uint64.UnmarshalText w text
        = ({| Uint64.Uint64 := Uint64.Uint64 w; Uint64.Valid := false |}, Some e)).
Proof.
  intros Hne. repeat split.
  - intros i He. unfold Int16.UnmarshalText. rewrite Hne.
    destruct (ParseInt text 10 16) as [res err]. simpl in He. subst err.
    reflexivity.
  - intros u He. unfold Uint.UnmarshalText. rewrite Hne.
    change (resolveBitSize a 0) with (IntSize a).
    destruct (ParseUint text 10 (IntSize a)) as [res err]. simpl in He.
    subst err. reflexivity.
  - intros w He. unfold Uint64.UnmarshalText. rewrite Hne.
    destruct (ParseUint text 10 64) as [res err]. simpl in He. subst err.
    reflexivity.
Qed.

Lemma UnmarshalText_parse_failure_witness :
  Int16.UnmarshalText (Int16.Int16From 7) "40000"
  = ({| Int16.Int16 := 7; Int16.Valid := false; Int16.set := true |},
     Some (NumError "ParseInt" ErrRange))
  /\ Uint.UnmarshalText Arch32 (Uint.UintFrom 7) "12x"
     = ({| Uint.Uint := 7; Uint.Valid := false |},
        Some (NumError "ParseUint" ErrSyntax))
  /\ Uint64.UnmarshalText (Uint64.Uint64From 7) "-1"
     = ({| Uint64.Uint64 := 7; Uint64.Valid := false |},
        Some (NumError "ParseUint" ErrSyntax)).
Proof.
  split; [|split].
  - apply (UnmarshalText_parse_failure Arch32 "40000"); reflexivity.
  - apply (UnmarshalText_parse_failure Arch32 "12x"); reflexivity.
  - apply (UnmarshalText_parse_failure Arch32 "-1"); reflexivity.
Defined.

(** * Round trips *)

Lemma Equal_NullBytes_FormatInt v :
  in_int64 v -> Equal (FormatInt v) NullBytes = false.
Proof.
  intros Hv. unfold FormatInt. destruct (Z.ltb_spec v 0); [reflexivity|].
  apply Equal_NullBytes_FormatUint. unfold in_int64 in Hv.
  rewrite to_uint64_small; unfold in_uint64; lia.
Qed.

Lemma FormatInt_not_empty v : in_int64 v -> is_empty (FormatInt v) = false.
Proof.
  intros Hv. destruct (FormatInt_not_null v Hv) as [_ Hne].
  destruct (FormatInt v); [congruence|reflexivity].
Qed.

Lemma in_int16_int64 v : in_int16 v -> in_int64 v.
Proof. unfold in_int16, in_int64, MinInt16, MaxInt16. lia. Qed.

Lemma Int16_roundtrip_json (i : Int16.t) (v : Z) :
  in_int16 v ->
  Int16.UnmarshalJSON i (fst (Int16.MarshalJSON (Int16.Int16From v)))
  = (Int16.Int16From v, None).
Proof.
  intros Hv. pose proof (in_int16_int64 v Hv) as Hv64.
  unfold Int16.MarshalJSON, Int16.Int16From, Int16.NewInt16.
  cbn [fst negb Int16.Valid Int16.Int16].
  rewrite (to_int64_small v Hv64). unfold Int16.UnmarshalJSON.
  rewrite (Equal_NullBytes_FormatInt v Hv64).
  rewrite (Unmarshal_int64_FormatInt v 0 Hv64).
  destruct (Z.ltb_spec MaxInt16 v); [unfold in_int16 in Hv; lia|].
  rewrite (to_int16_small v Hv). reflexivity.
Qed.

Lemma Int16_roundtrip_text (i : Int16.t) (v : Z) :
  in_int16 v ->
  Int16.UnmarshalText i (fst (Int16.MarshalText (Int16.Int16From v)))
  = (Int16.Int16From v, None).
Proof.
  intros Hv. pose proof (in_int16_int64 v Hv) as Hv64.
  unfold Int16.MarshalText, Int16.Int16From, Int16.NewInt16.
  cbn [fst negb Int16.Valid Int16.Int16].
  rewrite (to_int64_small v Hv64). unfold Int16.UnmarshalText.
  rewrite (FormatInt_not_empty v Hv64).
  rewrite (ParseInt_FormatInt v 16) by (unfold in_int16, MinInt16, MaxInt16 in Hv; lia).
  cbn. rewrite (to_int16_small v Hv). reflexivity.
Qed.

Lemma FormatUint_not_empty u : in_uint64 u -> is_empty (FormatUint u) = false.
Proof.
  intros Hu. destruct (FormatUint_head u Hu) as (c & r & -> & _). reflexivity.
Qed.

Lemma Uint_roundtrip_json (a : arch) (u : Uint.t) (v : Z) :
  in_uint a v ->
  Uint.UnmarshalJSON a u (fst (Uint.MarshalJSON (Uint.UintFrom v)))
  = (Uint.NewUint v (negb (v =? 0)), None).
Proof.
  intros Hv. pose proof (in_uint_uint64 a v Hv) as Hv64.
  unfold Uint.MarshalJSON, Uint.UintFrom, Uint.NewUint.
  cbn [fst negb Uint.Valid Uint.Uint].
  rewrite (to_uint64_small v Hv64). unfold Uint.UnmarshalJSON.
  rewrite (Equal_NullBytes_FormatUint v Hv64).
  rewrite (Unmarshal_interface_FormatUint v Hv64).
  rewrite (Unmarshal_uint64_FormatUint v 0 Hv64).
  rewrite (to_uint_small a v Hv). reflexivity.
Qed.

Lemma Uint_roundtrip_text (a : arch) (u : Uint.t) (v : Z) :
  in_uint a v ->
  Uint.UnmarshalText a u (fst (Uint.MarshalText (Uint.UintFrom v)))
  = (Uint.UintFrom v, None).
Proof.
  intros Hv. pose proof (in_uint_uint64 a v Hv) as Hv64.
  unfold Uint.MarshalText, Uint.UintFrom, Uint.NewUint.
  cbn [fst negb Uint.Valid Uint.Uint].
  rewrite (to_uint64_small v Hv64). unfold Uint.UnmarshalText.
  rewrite (FormatUint_not_empty v Hv64).
  change (resolveBitSize a 0) with (IntSize a).
  rewrite (ParseUint_FormatUint v (IntSize a)) by (destruct a; simpl; lia || exact Hv).
  cbn. rewrite (to_uint_small a v Hv). reflexivity.
Qed.

Lemma Uint64_roundtrip_json (w : Uint64.t) (v : Z) :
  in_uint64 v ->
  Uint64.UnmarshalJSON w (fst (Uint64.MarshalJSON (Uint64.Uint64From v)))
  = (Uint64.NewUint64 v (negb (v =? 0)), None).
Proof.
  intros Hv.
  unfold Uint64.MarshalJSON, Uint64.Uint64From, Uint64.NewUint64.
  cbn [fst negb Uint64.Valid Uint64.Uint64].
  unfold Uint64.UnmarshalJSON.
  rewrite (Equal_NullBytes_FormatUint v Hv).
  rewrite (Unmarshal_interface_FormatUint v Hv).
  rewrite (Unmarshal_uint64_FormatUint v _ Hv). reflexivity.
Qed.

Lemma Uint64_roundtrip_text (w : Uint64.t) (v : Z) :
  in_uint64 v ->
  Uint64.UnmarshalText w (fst (Uint64.MarshalText (Uint64.Uint64From v)))
  = (Uint64.Uint64From v, None).
Proof.
  intros Hv.
  unfold Uint64.MarshalText, Uint64.Uint64From, Uint64.NewUint64.
  cbn [fst negb Uint64.Valid Uint64.Uint64].
  unfold Uint64.UnmarshalText.
  rewrite (FormatUint_not_empty v Hv).
  rewrite (ParseUint_FormatUint v 64) by (unfold in_uint64 in Hv; lia).
  cbn. rewrite (to_uint64_small v Hv). reflexivity.
Qed.

(** C1, as the code has it.  For a number [v] the type can hold, and
    whatever the receiving instance held: the text encoding of [From v]
    decodes back to [From v] for all three types; the JSON encoding of
    [Int16From v] decodes back to [Int16From v]; the JSON encoding of
    [UintFrom v] and of [Uint64From v] decodes back to it when [v] is not
    zero, and to an invalid instance holding zero when [v] is zero. *)
Theorem roundtrip_From (a : arch) (v : Z) :
  (in_int16 v -> forall i,
     Int16.UnmarshalJSON i (fst (Int16.MarshalJSON (Int16.Int16From v)))
     = (Int16.Int16From v, None)
     /\ Int16.UnmarshalText i (fst (Int16.MarshalText (Int16.Int16From v)))
        = (Int16.Int16From v, None))
  /\ (in_uint a v -> forall u,
        Uint.UnmarshalText a u (fst (Uint.MarshalText (Uint.UintFrom v)))
        = (Uint.UintFrom v, None)
        /\ (v <> 0 ->
            Uint.UnmarshalJSON a u (fst (Uint.MarshalJSON (Uint.UintFrom v)))
            = (Uint.UintFrom v, None))
        /\ (v = 0 ->
            Uint.UnmarshalJSON a u (fst (Uint.MarshalJSON (Uint.UintFrom v)))
            = (Uint.NewUint 0 false, None)))
  /\ (in_uint64 v -> forall w,
        Uint64.UnmarshalText w (fst (Uint64.MarshalText (Uint64.Uint64From v)))
        = (Uint64.Uint64From v, None)
        /\ (v <> 0 ->
            Uint64.UnmarshalJSON w (fst (Uint64.MarshalJSON (Uint64.Uint64From v)))
            = (Uint64.Uint64From v, None))
        /\ (v = 0 ->
            Uint64.UnmarshalJSON w (fst (Uint64.MarshalJSON (Uint64.Uint64From v)))
            = (Uint64.NewUint64 0 false, None))).
Proof.
  split; [|split].
  - intros Hv i. split.
    + apply Int16_roundtrip_json, Hv.
    + apply Int16_roundtrip_text, Hv.
  - intros Hv u. split; [apply Uint_roundtrip_text, Hv|].
    rewrite (Uint_roundtrip_json a u v Hv). split.
    + intros Hne. apply Z.eqb_neq in Hne. rewrite Hne. reflexivity.
    + intros ->. reflexivity.
  - intros Hv w. split; [apply Uint64_roundtrip_text, Hv|].
    rewrite (Uint64_roundtrip_json w v Hv). split.
    + intros Hne. apply Z.eqb_neq in Hne. rewrite Hne. reflexivity.
    + intros ->. reflexivity.
Qed.

Lemma roundtrip_From_witness :
  (Int16.UnmarshalJSON Int16.zero (fst (Int16.MarshalJSON (Int16.Int16From (-32768))))
   = (Int16.Int16From (-32768), None)
   /\ Int16.UnmarshalText Int16.zero (fst (Int16.MarshalText (Int16.Int16From (-32768))))
      = (Int16.Int16From (-32768), None))
  /\ (Uint.UnmarshalText Arch32 Uint.zero (fst (Uint.MarshalText (Uint.UintFrom 4294967295)))
      = (Uint.UintFrom 4294967295, None)
      /\ Uint.UnmarshalJSON Arch32 Uint.zero (fst (Uint.MarshalJSON (Uint.UintFrom 4294967295)))
         = (Uint.UintFrom 4294967295, None))
  /\ (Uint64.UnmarshalText Uint64.zero (fst (Uint64.MarshalText (Uint64.Uint64From 0)))
      = (Uint64.Uint64From 0, None)
      /\ Uint64.UnmarshalJSON (Uint64.Uint64From 9)
           (fst (Uint64.MarshalJSON (Uint64.Uint64From 0)))
         = (Uint64.NewUint64 0 false, None)).
Proof.
  split; [|split].
  - apply (roundtrip_From Arch32 (-32768)).
    unfold in_int16, MinInt16, MaxInt16. lia.
  - destruct (roundtrip_From Arch32 4294967295) as (_ & H & _).
    destruct (H ltac:(unfold in_uint; simpl; lia) Uint.zero) as (Ht & Hj & _).
    split; [exact Ht|apply Hj; lia].
  - destruct (roundtrip_From Arch64 0) as (_ & _ & H).
    split.
    + apply (H ltac:(unfold in_uint64; lia) Uint64.zero).
    + apply (H ltac:(unfold in_uint64; lia) (Uint64.Uint64From 9)). reflexivity.
Defined.

(** C1 as stated fails at zero: the JSON encoding of [UintFrom 0] and of
    [Uint64From 0] does not decode back to a valid zero. *)
Lemma roundtrip_json_zero_is_lost :
  fst (Uint64.UnmarshalJSON Uint64.zero
         (fst (Uint64.MarshalJSON (Uint64.Uint64From 0))))
  <> Uint64.Uint64From 0
  /\ fst (Uint.UnmarshalJSON Arch64 Uint.zero
            (fst (Uint.MarshalJSON (Uint.UintFrom 0))))
     <> Uint.UintFrom 0.
Proof. split; vm_compute; discriminate. Qed.

(** * Errors and the valid flag *)

(** C4, as the code has it.  [UnmarshalText] of each type leaves valid
    false whenever it returns an error.  [UnmarshalJSON] of [Uint] and of
    [Uint64] leaves valid false when it returns an error after the first,
    generic decoding of the bytes has succeeded; when that first decoding
    fails they return its error and leave the instance as it was.
    [Int16.UnmarshalJSON] leaves the number and the valid flag as they
    were whenever it returns an error. *)
Theorem decode_error_valid_flag (a : arch) (data : string) (e : error) :
  (forall i, snd (Int16.UnmarshalText i data) = Some e ->
     Int16.Valid (fst (Int16.UnmarshalText i data)) = false)
  /\ (forall u, snd (Uint.UnmarshalText a u data) = Some e ->
        Uint.Valid (fst (Uint.UnmarshalText a u data)) = false)
  /\ (forall w, snd (Uint64.UnmarshalText w data) = Some e ->
        Uint64.Valid (fst (Uint64.UnmarshalText w data)) = false)
  /\ (forall u v, Unmarshal_interface data = inl v ->
        snd (Uint.UnmarshalJSON a u data) = Some e ->
        Uint.Valid (fst (Uint.UnmarshalJSON a u data)) = false)
  /\ (forall w v, Unmarshal_interface data = inl v ->
        snd (Uint64.UnmarshalJSON w data) = Some e ->
        Uint64.Valid (fst (Uint64.UnmarshalJSON w data)) = false)
  /\ (forall u, Equal data NullBytes = false ->
        Unmarshal_interface data = inr e ->
        Uint.UnmarshalJSON a u data = (u, Some e))
  /\ (forall w, Equal data NullBytes = false ->
        Unmarshal_interface data = inr e ->
        Uint64.UnmarshalJSON w data = (w, Some e))
  /\ (forall i, snd (Int16.UnmarshalJSON i data) = Some e ->
        fst (Int16.UnmarshalJSON i data)
        = {| Int16.Int16 := Int16.Int16 i; Int16.Valid := Int16.Valid i;
             Int16.set := true |}).
Proof.
  repeat match goal with |- _ /\ _ => split end.
  - intros i. unfold Int16.UnmarshalText.
    destruct (is_empty data); [discriminate|].
    destruct (ParseInt data 10 16) as [res [err|]]; [reflexivity|discriminate].
  - intros u. unfold Uint.UnmarshalText.
    destruct (is_empty data); [discriminate|].
    destruct (ParseUint data 10 _) as [res [err|]]; [reflexivity|discriminate].
  - intros w. unfold Uint64.UnmarshalText.
    destruct (is_empty data); [discriminate|].
    destruct (ParseUint data 10 64) as [res [err|]]; [reflexivity|discriminate].
  - intros u v Hv. unfold Uint.UnmarshalJSON. rewrite Hv.
    destruct (Equal data NullBytes); [discriminate|].
    destruct v as [| b | lit | str | elems | members]; try discriminate;
      try reflexivity.
    + destruct (Unmarshal_uint64 data 0) as [n [err|]];
        [reflexivity|discriminate].
    + destruct (is_empty str); [discriminate|].
      destruct (ParseUint str 10 64) as [n [err|]]; [reflexivity|discriminate].
  - intros w v Hv. unfold Uint64.UnmarshalJSON. rewrite Hv.
    destruct (Equal data NullBytes); [discriminate|].
    destruct v as [| b | lit | str | elems | members]; try discriminate;
      try reflexivity.
    + destruct (Unmarshal_uint64 data _) as [n [err|]];
        [reflexivity|discriminate].
    + destruct (is_empty str); [discriminate|].
      destruct (ParseUint str 10 64) as [n [err|]]; [reflexivity|discriminate].
  - intros u Hn Hv. unfold Uint.UnmarshalJSON. rewrite Hn, Hv. reflexivity.
  - intros w Hn Hv. unfold Uint64.UnmarshalJSON. rewrite Hn, Hv. reflexivity.
  - intros i. unfold Int16.UnmarshalJSON.
    destruct (Equal data NullBytes); [discriminate|].
    destruct (Unmarshal_int64 data 0) as [x [err|]]; [reflexivity|].
    destruct (MaxInt16 <? x); [reflexivity|discriminate].
Qed.

Lemma decode_error_valid_flag_witness :
  Int16.Valid (fst (Int16.UnmarshalText (Int16.Int16From 5) "x")) = false
  /\ Uint.Valid (fst (Uint.UnmarshalText Arch64 (Uint.UintFrom 5) "-1")) = false
  /\ Uint64.Valid (fst (Uint64.UnmarshalText (Uint64.Uint64From 5)
                          "18446744073709551616")) = false
  /\ Uint.Valid (fst (Uint.UnmarshalJSON Arch64 (Uint.UintFrom 5) "true")) = false
  /\ Uint64.Valid (fst (Uint64.UnmarshalJSON (Uint64.Uint64From 5) "1.5")) = false
  /\ Uint.UnmarshalJSON Arch64 (Uint.UintFrom 5) "x"
     = (Uint.UintFrom 5, Some SyntaxError)
  /\ Uint64.UnmarshalJSON (Uint64.Uint64From 5) "[1e999]"
     = (Uint64.Uint64From 5, Some (UnmarshalTypeError "number 1e999"))
  /\ fst (Int16.UnmarshalJSON (Int16.NewInt16 5 true false) "40000")
     = Int16.NewInt16 5 true true.
Proof.
  repeat match goal with |- _ /\ _ => split end.
  - apply (decode_error_valid_flag Arch64 "x" (NumError "ParseInt" ErrSyntax)).
    reflexivity.
  - apply (decode_error_valid_flag Arch64 "-1" (NumError "ParseUint" ErrSyntax)).
    reflexivity.
  - apply (decode_error_valid_flag Arch64 "18446744073709551616"
             (NumError "ParseUint" ErrRange)).
    reflexivity.
  - apply (proj1 (proj2 (proj2 (proj2
             (decode_error_valid_flag Arch64 "true"
                (TypeMismatchError "null.Uint" "bool")))))
             (Uint.UintFrom 5) (JBool true)); reflexivity.
  - apply (proj1 (proj2 (proj2 (proj2 (proj2
             (decode_error_valid_flag Arch64 "1.5"
                (UnmarshalTypeError "number 1.5"))))))
             (Uint64.Uint64From 5) (JNumber "1.5")); reflexivity.
  - apply (decode_error_valid_flag Arch64 "x" SyntaxError); reflexivity.
  - apply (decode_error_valid_flag Arch64 "[1e999]"
             (UnmarshalTypeError "number 1e999")); reflexivity.
  - apply (decode_error_valid_flag Arch64 "40000" (OverflowError 40000)
             ). reflexivity.
Defined.

(** C4 as stated fails: these decodings return an error and leave valid
    true. *)
Lemma decode_error_keeps_valid_true :
  (snd (Int16.UnmarshalJSON (Int16.Int16From 5) "40000") = Some (OverflowError 40000)
   /\ Int16.Valid (fst (Int16.UnmarshalJSON (Int16.Int16From 5) "40000")) = true)
  /\ (snd (Uint.UnmarshalJSON Arch64 (Uint.UintFrom 5) "x") = Some SyntaxError
      /\ Uint.Valid (fst (Uint.UnmarshalJSON Arch64 (Uint.UintFrom 5) "x")) = true)
  /\ (snd (Uint64.UnmarshalJSON (Uint64.Uint64From 5) "x") = Some SyntaxError
      /\ Uint64.Valid (fst (Uint64.UnmarshalJSON (Uint64.Uint64From 5) "x")) = true).
Proof. repeat split. Qed.

(** * The set flag of an Int16 *)

Lemma IsSet_UnmarshalJSON i data :
  Int16.IsSet (fst (Int16.UnmarshalJSON i data)) = true.
Proof.
  unfold Int16.UnmarshalJSON. destruct (Equal data NullBytes); [reflexivity|].
  destruct (Unmarshal_int64 data 0) as [x [err|]]; [reflexivity|].
  destruct (MaxInt16 <? x); reflexivity.
Qed.

Lemma IsSet_UnmarshalText i text :
  Int16.IsSet (fst (Int16.UnmarshalText i text)) = true.
Proof.
  unfold Int16.UnmarshalText. destruct (is_empty text); [reflexivity|].
  destruct (ParseInt text 10 16) as [res [err|]]; reflexivity.
Qed.

Lemma IsSet_Scan (conv : Converter) i value :
  Int16.IsSet (fst (Int16.Scan i value)) = negb (is_scan_nil (OpScan value)).
Proof.
  unfold Int16.Scan.
  destruct value; try reflexivity;
    destruct (ConvertAssign DestInt16 (Int16.Int16 i) _); reflexivity.
Qed.

Lemma IsSet_apply_op (conv : Converter) i o :
  Int16.IsSet i = true -> is_scan_nil o = false ->
  Int16.IsSet (apply_op i o) = true.
Proof.
  intros Hi Ho. destruct o as [data|text|n|value|f ft b]; cbn [apply_op].
  - apply IsSet_UnmarshalJSON.
  - apply IsSet_UnmarshalText.
  - reflexivity.
  - rewrite IsSet_Scan, Ho. reflexivity.
  - unfold Int16.Randomize. destruct b; exact Hi.
Qed.

Lemma IsSet_run (conv : Converter) ops :
  forall i, Int16.IsSet i = true -> existsb is_scan_nil ops = false ->
            Int16.IsSet (run ops i) = true.
Proof.
  induction ops as [|o ops IH]; intros i Hi Hops; [exact Hi|].
  cbn [existsb] in Hops. apply orb_false_iff in Hops as [Ho Hops].
  unfold run. cbn [fold_left]. apply IH; [|exact Hops].
  apply IsSet_apply_op; assumption.
Qed.

(** C9, as the code has it.  [IsSet] returns the set field.  It is false
    on the zero value; [UnmarshalJSON], [UnmarshalText], [SetValid] and
    [Scan] of a value that is not nil make it true; [Scan] of nil makes
    it false; [Randomize] leaves it as it was; [Int16From] and
    [Int16FromPtr] construct with it true and [NewInt16] with the flag it
    is given.  Once true it stays true through every sequence of
    operations that has no [Scan] of nil. *)
Theorem IsSet_spec (conv : Converter) (i : Int16.t) :
  Int16.IsSet Int16.zero = false
  /\ (forall data, Int16.IsSet (fst (Int16.UnmarshalJSON i data)) = true)
  /\ (forall text, Int16.IsSet (fst (Int16.UnmarshalText i text)) = true)
  /\ (forall n, Int16.IsSet (Int16.SetValid i n) = true)
  /\ (forall value, value <> VNil -> Int16.IsSet (fst (Int16.Scan i value)) = true)
  /\ Int16.IsSet (fst (Int16.Scan i VNil)) = false
  /\ (forall nextInt fieldType shouldBeNull,
        Int16.IsSet (Int16.Randomize i nextInt fieldType shouldBeNull)
        = Int16.IsSet i)
  /\ (forall v, Int16.IsSet (Int16.Int16From v) = true)
  /\ (forall p, Int16.IsSet (Int16.Int16FromPtr p) = true)
  /\ (forall v valid set, Int16.IsSet (Int16.NewInt16 v valid set) = set)
  /\ (forall ops, Int16.IsSet i = true -> existsb is_scan_nil ops = false ->
        Int16.IsSet (run ops i) = true).
Proof.
  repeat match goal with |- _ /\ _ => split end.
  - reflexivity.
  - apply IsSet_UnmarshalJSON.
  - apply IsSet_UnmarshalText.
  - reflexivity.
  - intros value Hv. rewrite IsSet_Scan. destruct value; congruence || reflexivity.
  - reflexivity.
  - intros f ft b. unfold Int16.Randomize. destruct b; reflexivity.
  - reflexivity.
  - intros [v|]; reflexivity.
  - reflexivity.
  - intros ops. apply IsSet_run.
Qed.

Lemma IsSet_spec_witness :
  Int16.IsSet (fst (Int16.Scan (conv := integerConverter Arch64)
                      Int16.zero (VInt64 3))) = true
  /\ Int16.IsSet
       (run (conv := integerConverter Arch64)
          [OpRandomize (fun _ => 7) "int16" false; OpUnmarshalText "x";
           OpScan (VString "12"); OpUnmarshalJSON "null"]
          (Int16.Int16From 1)) = true.
Proof.
  split.
  - destruct (IsSet_spec (integerConverter Arch64) Int16.zero)
      as (_ & _ & _ & _ & HScan & _).
    apply HScan. discriminate.
  - destruct (IsSet_spec (integerConverter Arch64) (Int16.Int16From 1))
      as (_ & _ & _ & _ & _ & _ & _ & _ & _ & _ & Hrun).
    apply Hrun; reflexivity.
Defined.

(** C9 as stated fails: [Randomize] changes an instance and leaves it
    not set, and [Scan] of nil is a decode operation after which it is
    not set either. *)
Lemma IsSet_false_after_operations :
  let ops := [OpRandomize (fun _ => 7) "int16" false] in
  let i := run (conv := integerConverter Arch64) ops Int16.zero in
  ops <> [] /\ i = Int16.NewInt16 7 true false /\ Int16.IsSet i = false
  /\ Int16.IsSet (run (conv := integerConverter Arch64)
                    [OpScan VNil] Int16.zero) = false.
Proof. cbv zeta. repeat split. discriminate. Qed.


(** * Pointers, emptiness and the driver value *)

(** X1.  [FromPtr] and [Ptr] are inverse to each other: the pointer view
    of [FromPtr p] is [p] again, and [FromPtr] of the pointer view of a
    valid instance (for [Int16]: one that is marked set) gives the
    instance back. *)
Theorem Ptr_FromPtr (p : option Z) (i : Int16.t) (u : Uint.t) (w : Uint64.t) :
  Int16.Ptr (Int16.Int16FromPtr p) = p
  /\ Uint.Ptr (Uint.UintFromPtr p) = p
  /\ Uint64.Ptr (Uint64.Uint64FromPtr p) = p
  /\ (Int16.Valid i = true -> Int16.set i = true ->
      Int16.Int16FromPtr (Int16.Ptr i) = i)
  /\ (Uint.Valid u = true -> Uint.UintFromPtr (Uint.Ptr u) = u)
  /\ (Uint64.Valid w = true -> Uint64.Uint64FromPtr (Uint64.Ptr w) = w).
Proof.
  repeat match goal with |- _ /\ _ => split end.
  - destruct p; reflexivity.
  - destruct p; reflexivity.
  - destruct p; reflexivity.
  - destruct i as [v valid s]. simpl. intros -> ->. reflexivity.
  - destruct u as [v valid]. simpl. intros ->. reflexivity.
  - destruct w as [v valid]. simpl. intros ->. reflexivity.
Qed.

Lemma Ptr_FromPtr_witness :
  Int16.Int16FromPtr (Int16.Ptr (Int16.Int16From 9)) = Int16.Int16From 9
  /\ Uint.UintFromPtr (Uint.Ptr (Uint.UintFrom 9)) = Uint.UintFrom 9
  /\ Uint64.Uint64FromPtr (Uint64.Ptr (Uint64.Uint64From 9)) = Uint64.Uint64From 9.
Proof.
  destruct (Ptr_FromPtr None (Int16.Int16From 9) (Uint.UintFrom 9)
              (Uint64.Uint64From 9)) as (_ & _ & _ & H1 & H2 & H3).
  split; [apply H1; reflexivity|split; [apply H2|apply H3]; reflexivity].
Defined.

(** X2.  The views of an instance agree on when it has no value: for an
    instance whose number is in the range of its type, [IsZero] is true
    exactly when [Ptr] is nil, when [Value] is nil, when [MarshalJSON]
    writes [null], and when [MarshalText] writes nothing. *)
Theorem IsZero_views (i : Int16.t) (u : Uint.t) (w : Uint64.t) :
  (in_int16 (Int16.Int16 i) ->
     (Int16.IsZero i = true <-> Int16.Ptr i = None)
     /\ (Int16.IsZero i = true <-> fst (Int16.Value i) = VNil)
     /\ (Int16.IsZero i = true <-> fst (Int16.MarshalJSON i) = NullBytes)
     /\ (Int16.IsZero i = true <-> fst (Int16.MarshalText i) = EmptyString))
  /\ (in_uint64 (Uint.Uint u) ->
        (Uint.IsZero u = true <-> Uint.Ptr u = None)
        /\ (Uint.IsZero u = true <-> fst (Uint.Value u) = VNil)
        /\ (Uint.IsZero u = true <-> fst (Uint.MarshalJSON u) = NullBytes)
        /\ (Uint.IsZero u = true <-> fst (Uint.MarshalText u) = EmptyString))
  /\ (in_uint64 (Uint64.Uint64 w) ->
        (Uint64.IsZero w = true <-> Uint64.Ptr w = None)
        /\ (Uint64.IsZero w = true <-> fst (Uint64.Value w) = VNil)
        /\ (Uint64.IsZero w = true <-> fst (Uint64.MarshalJSON w) = NullBytes)
        /\ (Uint64.IsZero w = true <-> fst (Uint64.MarshalText w) = EmptyString)).
Proof.
  split; [|split].
  - destruct i as [v [|] s]; cbn [Int16.Int16]; intros Hv;
      unfold Int16.IsZero, Int16.Ptr, Int16.Value, Int16.MarshalJSON,
             Int16.MarshalText; cbn [Int16.Valid Int16.Int16 negb fst];
      [|repeat split; reflexivity].
    rewrite (to_int64_small v (in_int16_int64 v Hv)).
    destruct (FormatInt_not_null v (in_int16_int64 v Hv)) as [Hn He].
    repeat split; intros H; try discriminate; contradiction.
  - destruct u as [v [|]]; cbn [Uint.Uint]; intros Hv;
      unfold Uint.IsZero, Uint.Ptr, Uint.Value, Uint.MarshalJSON,
             Uint.MarshalText; cbn [Uint.Valid Uint.Uint negb fst];
      [|repeat split; reflexivity].
    rewrite (to_uint64_small v Hv).
    destruct (FormatUint_not_null v Hv) as [Hn He].
    repeat split; intros H; try discriminate; contradiction.
  - destruct w as [v [|]]; cbn [Uint64.Uint64]; intros Hv;
      unfold Uint64.IsZero, Uint64.Ptr, Uint64.Value, Uint64.MarshalJSON,
             Uint64.MarshalText; cbn [Uint64.Valid Uint64.Uint64 negb fst];
      [|repeat split; reflexivity].
    destruct (FormatUint_not_null v Hv) as [Hn He].
    repeat split; intros H; try discriminate; try contradiction.
    + destruct (2 ^ 63 <=? v); discriminate.
Qed.

Lemma IsZero_views_witness :
  (Int16.IsZero (Int16.Int16From 0) = true
   <-> fst (Int16.MarshalJSON (Int16.Int16From 0)) = NullBytes)
  /\ (Uint.IsZero (Uint.NewUint 4 false) = true
      <-> fst (Uint.MarshalText (Uint.NewUint 4 false)) = EmptyString)
  /\ (Uint64.IsZero (Uint64.Uint64From (2 ^ 63)) = true
      <-> fst (Uint64.Value (Uint64.Uint64From (2 ^ 63))) = VNil).
Proof.
  destruct (IsZero_views (Int16.Int16From 0) (Uint.NewUint 4 false)
              (Uint64.Uint64From (2 ^ 63))) as (H1 & H2 & H3).
  split; [|split].
  - apply H1. unfold in_int16, MinInt16, MaxInt16. simpl. lia.
  - apply H2. unfold in_uint64. simpl. lia.
  - apply H3. unfold in_uint64. simpl. lia.
Defined.

(** X3.  Decoding what an invalid instance encodes to: the JSON form
    ([null]) makes the receiver invalid and resets its number to zero;
    the text form (no bytes) makes the receiver invalid and leaves its
    number as it was.  Neither reports an error; an [Int16] is marked
    set. *)
Theorem roundtrip_invalid
  (a : arch) (x : Int16.t) (y : Uint.t) (z : Uint64.t)
  (i : Int16.t) (u : Uint.t) (w : Uint64.t) :
  (Int16.Valid x = false ->
     Int16.UnmarshalJSON i (fst (Int16.MarshalJSON x))
     = (Int16.NewInt16 0 false true, None)
     /\ Int16.UnmarshalText i (fst (Int16.MarshalText x))
        = (Int16.NewInt16 (Int16.Int16 i) false true, None))
  /\ (Uint.Valid y = false ->
        Uint.UnmarshalJSON a u (fst (Uint.MarshalJSON y))
        = (Uint.NewUint 0 false, None)
        /\ Uint.UnmarshalText a u (fst (Uint.MarshalText y))
           = (Uint.NewUint (Uint.Uint u) false, None))
  /\ (Uint64.Valid z = false ->
        Uint64.UnmarshalJSON w (fst (Uint64.MarshalJSON z))
        = (Uint64.NewUint64 0 false, None)
        /\ Uint64.UnmarshalText w (fst (Uint64.MarshalText z))
           = (Uint64.NewUint64 (Uint64.Uint64 w) false, None)).
Proof.
  split; [|split]; intros Hx.
  - unfold Int16.MarshalJSON, Int16.MarshalText. rewrite Hx. split; reflexivity.
  - unfold Uint.MarshalJSON, Uint.MarshalText. rewrite Hx. split; reflexivity.
  - unfold Uint64.MarshalJSON, Uint64.MarshalText. rewrite Hx. split; reflexivity.
Qed.

Lemma roundtrip_invalid_witness :
  Int16.UnmarshalJSON (Int16.Int16From 8) (fst (Int16.MarshalJSON Int16.zero))
  = (Int16.NewInt16 0 false true, None)
  /\ Uint.UnmarshalText Arch32 (Uint.UintFrom 8) (fst (Uint.MarshalText Uint.zero))
     = (Uint.NewUint 8 false, None)
  /\ Uint64.UnmarshalJSON (Uint64.Uint64From 8)
       (fst (Uint64.MarshalJSON (Uint64.NewUint64 3 false)))
     = (Uint64.NewUint64 0 false, None).
Proof.
  destruct (roundtrip_invalid Arch32 Int16.zero Uint.zero (Uint64.NewUint64 3 false)
              (Int16.Int16From 8) (Uint.UintFrom 8) (Uint64.Uint64From 8))
    as (H1 & H2 & H3).
  split; [apply H1; reflexivity|split; [apply H2|apply H3]; reflexivity].
Defined.

(** X4.  [Scan] marks the instance valid before it converts: for every
    converter and every driver value other than nil the instance is
    valid afterwards, also when the converter reports an error (and an
    [Int16] is marked set); the error returned is the converter's. *)
Theorem Scan_valid_despite_error
  (conv : Converter) (value : GoValue)
  (i : Int16.t) (u : Uint.t) (w : Uint64.t) :
  value <> VNil ->
  (Int16.Valid (fst (Int16.Scan i value)) = true
   /\ Int16.set (fst (Int16.Scan i value)) = true
   /\ snd (Int16.Scan i value)
      = snd (ConvertAssign DestInt16 (Int16.Int16 i) value))
  /\ (Uint.Valid (fst (Uint.Scan u value)) = true
      /\ snd (Uint.Scan u value)
         = snd (ConvertAssign DestUint (Uint.Uint u) value))
  /\ Uint64.Valid (fst (Uint64.Scan w value)) = true.
Proof.
  intros Hv. split; [|split].
  - unfold Int16.Scan. destruct value; try congruence;
      destruct (ConvertAssign DestInt16 (Int16.Int16 i) _); repeat split.
  - unfold Uint.Scan. destruct value; try congruence;
      destruct (ConvertAssign DestUint (Uint.Uint u) _); repeat split.
  - unfold Uint64.Scan. destruct value; try congruence;
      try (destruct (ConvertAssign DestUint64 (Uint64.Uint64 w) _); reflexivity).
    destruct (i0 <? 0);
      destruct (ConvertAssign DestUint64 (Uint64.Uint64 w) _); reflexivity.
Qed.

Lemma Scan_valid_despite_error_witness :
  Int16.Scan (conv := integerConverter Arch64) Int16.zero (VInt64 40000)
  = (Int16.NewInt16 0 true true, Some (ConversionError "value out of range"))
  /\ Uint.Valid (fst (Uint.Scan (conv := integerConverter Arch64)
                        Uint.zero (VString "abc"))) = true
  /\ Uint64.Valid (fst (Uint64.Scan (conv := integerConverter Arch64)
                          Uint64.zero (VOther "bool"))) = true.
Proof.
  split; [reflexivity|split].
  - apply (Scan_valid_despite_error (integerConverter Arch64) (VString "abc")
             Int16.zero Uint.zero Uint64.zero). discriminate.
  - apply (Scan_valid_despite_error (integerConverter Arch64) (VOther "bool")
             Int16.zero Uint.zero Uint64.zero). discriminate.
Defined.

(** X5.  For every converter, [Uint64.Scan] treats a negative signed
    64-bit value exactly as the unsigned 64-bit value with the same bits:
    the converter never sees the negative number. *)
Theorem Uint64_Scan_negative_as_unsigned
  (conv : Converter) (w : Uint64.t) (n : Z) :
  - 2 ^ 63 <= n < 0 ->
  Uint64.Scan w (VInt64 n) = Uint64.Scan w (VUint64 (n + 2 ^ 64)).
Proof.
  intros Hn. unfold Uint64.Scan.
  destruct (Z.ltb_spec n 0) as [_|]; [|lia].
  replace (to_uint64 n) with (n + 2 ^ 64); [reflexivity|].
  unfold to_uint64, to_unsigned.
  rewrite <- (Z.mod_add n 1 (2 ^ 64)) by lia.
  rewrite Z.mul_1_l. symmetry. apply Z.mod_small. lia.
Qed.

Lemma Uint64_Scan_negative_as_unsigned_witness :
  Uint64.Scan (conv := integerConverter Arch32) Uint64.zero
    (VInt64 (-9223372036854775808))
  = Uint64.Scan (conv := integerConverter Arch32) Uint64.zero
      (VUint64 9223372036854775808).
Proof.
  apply (Uint64_Scan_negative_as_unsigned (integerConverter Arch32)
           Uint64.zero (-9223372036854775808)). lia.
Defined.

(** X6.  [Value] of a valid [Int16] is its number as a signed 64-bit
    integer.  [Value] of a valid [Uint] is its number when that is below
    [2^63]; from [2^63] on, which a 64-bit [uint] can hold, the
    conversion to [int64] wraps and [Value] returns the negative number
    [u - 2^64].  Neither returns an error or a string. *)
Theorem Value_valid (a : arch) (i : Int16.t) (u : Uint.t) :
  (Int16.Valid i = true -> in_int16 (Int16.Int16 i) ->
     Int16.Value i = (VInt64 (Int16.Int16 i), None))
  /\ (Uint.Valid u = true -> in_uint a (Uint.Uint u) ->
        (Uint.Uint u < 2 ^ 63 ->
           Uint.Value u = (VInt64 (Uint.Uint u), None))
        /\ (2 ^ 63 <= Uint.Uint u ->
              a = Arch64
              /\ Uint.Value u = (VInt64 (Uint.Uint u - 2 ^ 64), None))).
Proof.
  split.
  - intros Hv Hr. unfold Int16.Value. rewrite Hv. cbn [negb].
    rewrite to_int64_small by (apply in_int16_int64, Hr). reflexivity.
  - intros Hv Hr. unfold Uint.Value. rewrite Hv. cbn [negb].
    pose proof (in_uint_uint64 a _ Hr) as Hr64. unfold in_uint64 in Hr64.
    split; intros Hu.
    + rewrite to_int64_small by (unfold in_int64; lia). reflexivity.
    + split.
      * destruct a; [|reflexivity]. unfold in_uint in Hr. simpl in Hr. lia.
      * do 2 f_equal. unfold to_int64, to_signed.
        change (2 ^ (64 - 1)) with (2 ^ 63).
        replace (Uint.Uint u + 2 ^ 63)
          with (Uint.Uint u - 2 ^ 63 + 1 * 2 ^ 64) by lia.
        rewrite Z.mod_add by lia. rewrite Z.mod_small by lia. lia.
Qed.

Lemma Value_valid_witness :
  Int16.Value (Int16.Int16From (-5)) = (VInt64 (-5), None)
  /\ Uint.Value (Uint.UintFrom 4294967295) = (VInt64 4294967295, None)
  /\ Uint.Value (Uint.UintFrom 18446744073709551615) = (VInt64 (-1), None).
Proof.
  split; [|split].
  - apply (Value_valid Arch64 (Int16.Int16From (-5)) Uint.zero);
      [reflexivity|unfold in_int16, MinInt16, MaxInt16; simpl; lia].
  - apply (Value_valid Arch32 Int16.zero (Uint.UintFrom 4294967295));
      [reflexivity|unfold in_uint; simpl; lia|simpl; lia].
  - apply (Value_valid Arch64 Int16.zero (Uint.UintFrom 18446744073709551615));
      [reflexivity|unfold in_uint; simpl; lia|simpl; lia].
Defined.

(** * strconv: what is accepted and what is refused *)

Lemma digit_value_small c d :
  digit_value c = Some d -> d < 10 -> is_digit c = true /\ d = byte_val c - 48.
Proof.
  unfold digit_value. destruct (is_digit c) eqn:E.
  - intros H _. injection H as <-. split; reflexivity.
  - destruct (in_range "a" "z" (lower c)) eqn:El; [|discriminate].
    intros H Hd. injection H as <-.
    unfold in_range in El. apply andb_true_iff in El as [Hlo _].
    apply Z.leb_le in Hlo. change (byte_val "a") with 97 in *. lia.
Qed.

Lemma digit_value_not_digit c :
  is_digit c = false ->
  match digit_value c with Some d => 10 <= d | None => True end.
Proof.
  intros E. destruct (digit_value c) as [d|] eqn:Ed; [|exact I].
  destruct (Z.lt_ge_cases d 10) as [Hlt|Hge]; [|exact Hge].
  destruct (digit_value_small c d Ed Hlt) as [Hc _]. congruence.
Qed.

(** What the loop of [ParseUint] returns lies between 0 and [maxVal]. *)
Lemma parseUint_loop_range maxVal s :
  0 <= maxVal ->
  forall n r e, 0 <= n <= maxVal ->
    parseUint_loop 10 (maxUint64 / 10 + 1) maxVal n s = (r, e) ->
    0 <= r <= maxVal.
Proof.
  intros Hmax. induction s as [|c s IH]; intros n r e Hn H.
  - injection H as <- <-. exact Hn.
  - cbn [parseUint_loop] in H.
    destruct (digit_value c) as [d|]; [|injection H as <- <-; lia].
    destruct (10 <=? d); [injection H as <- <-; lia|].
    destruct (maxUint64 / 10 + 1 <=? n); [injection H as <- <-; lia|].
    cbv zeta in H.
    destruct ((to_uint64 (n * 10 + d) <? n * 10) || (maxVal <? to_uint64 (n * 10 + d)))
      eqn:E; [injection H as <- <-; lia|].
    apply orb_false_iff in E as [_ E2]. apply Z.ltb_ge in E2.
    apply (IH _ _ _ (conj (proj1 (Z.mod_pos_bound (n * 10 + d) (2 ^ 64) ltac:(lia))) E2) H).
Qed.

(** When the loop succeeds, the bytes were decimal digits and the result
    is the number they denote. *)
Lemma parseUint_loop_success maxVal s :
  maxVal <= maxUint64 ->
  forall n r, 0 <= n ->
    parseUint_loop 10 (maxUint64 / 10 + 1) maxVal n s = (r, None) ->
    all_digits s = true /\ r = dec_value n s.
Proof.
  intros Hmax. induction s as [|c s IH]; intros n r Hn H.
  - injection H as <-. split; reflexivity.
  - cbn [parseUint_loop] in H.
    destruct (digit_value c) as [d|] eqn:Ed; [|discriminate].
    destruct (Z.leb_spec 10 d) as [|Hd]; [discriminate|].
    destruct (digit_value_small c d Ed Hd) as [Hc ->].
    apply is_digit_true in Hc as Hcv.
    unfold maxUint64 in *.
    change ((2 ^ 64 - 1) / 10 + 1) with 1844674407370955162 in *.
    destruct (Z.leb_spec 1844674407370955162 n); [discriminate|].
    cbv zeta in H.
    set (n0 := n * 10 + (byte_val c - 48)) in *.
    destruct ((to_uint64 n0 <? n * 10) || (maxVal <? to_uint64 n0)) eqn:E;
      [discriminate|].
    apply orb_false_iff in E as [E1 E2].
    apply Z.ltb_ge in E1. apply Z.ltb_ge in E2.
    assert (Hsmall : to_uint64 n0 = n0).
    { unfold to_uint64, to_unsigned in *.
      destruct (Z.lt_ge_cases n0 (2 ^ 64)) as [Hlt|Hge].
      - apply Z.mod_small. subst n0. lia.
      - exfalso. replace n0 with (n0 - 2 ^ 64 + 1 * 2 ^ 64) in E1 by lia.
        rewrite Z.mod_add, Z.mod_small in E1 by (subst n0; lia).
        subst n0. lia. }
    rewrite Hsmall in H. destruct (IH n0 r ltac:(subst n0; lia) H) as [Hs ->].
    cbn [all_digits dec_value]. rewrite Hc, Hs. split; reflexivity.
Qed.

(** On digits whose value does not fit, the loop reports a range error
    and returns [maxVal]. *)
Lemma parseUint_loop_overflow maxVal s :
  maxVal <= maxUint64 -> all_digits s = true ->
  forall n, 0 <= n <= maxVal -> maxVal < dec_value n s ->
    parseUint_loop 10 (maxUint64 / 10 + 1) maxVal n s = (maxVal, Some ErrRange).
Proof.
  intros Hmax. induction s as [|c s IH]; intros Hs n Hn Hv.
  - simpl in Hv. lia.
  - simpl in Hs. apply andb_true_iff in Hs as [Hc Hs].
    cbn [parseUint_loop dec_value] in *.
    rewrite (digit_value_digit c Hc). apply is_digit_true in Hc.
    destruct (Z.leb_spec 10 (byte_val c - 48)); [lia|].
    unfold maxUint64 in *.
    change ((2 ^ 64 - 1) / 10 + 1) with 1844674407370955162 in *.
    destruct (Z.leb_spec 1844674407370955162 n); [reflexivity|].
    cbv zeta. set (n0 := n * 10 + (byte_val c - 48)) in *.
    destruct ((to_uint64 n0 <? n * 10) || (maxVal <? to_uint64 n0)) eqn:E;
      [reflexivity|].
    apply orb_false_iff in E as [E1 E2].
    apply Z.ltb_ge in E1. apply Z.ltb_ge in E2.
    assert (Hsmall : to_uint64 n0 = n0).
    { unfold to_uint64, to_unsigned in *.
      destruct (Z.lt_ge_cases n0 (2 ^ 64)) as [Hlt|Hge].
      - apply Z.mod_small. subst n0. lia.
      - exfalso. replace n0 with (n0 - 2 ^ 64 + 1 * 2 ^ 64) in E1 by lia.
        rewrite Z.mod_add, Z.mod_small in E1 by (subst n0; lia).
        subst n0. lia. }
    rewrite Hsmall in *. apply IH; auto. subst n0. lia.
Qed.

Lemma pow2_bitSize bitSize :
  1 <= bitSize <= 64 ->
  0 < 2 ^ (bitSize - 1) /\ 2 ^ bitSize = 2 * 2 ^ (bitSize - 1)
  /\ 2 ^ bitSize <= 2 ^ 64.
Proof.
  intros Hb. repeat split.
  - apply Z.pow_pos_nonneg; lia.
  - replace bitSize with (bitSize - 1 + 1) at 1 by lia.
    rewrite Z.pow_add_r by lia. lia.
  - apply Z.pow_le_mono_r; lia.
Qed.

Lemma parseUint_range s bitSize r e :
  1 <= bitSize <= 64 -> parseUint s 10 bitSize = (r, e) ->
  0 <= r <= 2 ^ bitSize - 1.
Proof.
  intros Hb H. destruct (pow2_bitSize bitSize Hb) as (Hp & Hpp & _).
  unfold parseUint in H. destruct (is_empty s).
  - injection H as <- <-. lia.
  - cbv zeta in H. apply parseUint_loop_range in H; lia.
Qed.

Lemma parseUint_success s bitSize r :
  1 <= bitSize <= 64 -> parseUint s 10 bitSize = (r, None) ->
  all_digits s = true /\ r = dec_value 0 s /\ 0 <= r < 2 ^ bitSize.
Proof.
  intros Hb H. pose proof (parseUint_range s bitSize r None Hb H) as Hr.
  destruct (pow2_bitSize bitSize Hb) as (_ & _ & Hle).
  unfold parseUint in H. destruct (is_empty s); [discriminate|].
  cbv zeta in H. apply parseUint_loop_success in H; [|unfold maxUint64|]; try lia.
  destruct H as [Hs ->]. repeat split; auto; lia.
Qed.

(** A decimal string that [FormatUint] writes for a number that does not
    fit [bitSize] bits is refused with a range error. *)
Lemma parseUint_FormatUint_overflow u bitSize :
  1 <= bitSize <= 64 -> 2 ^ bitSize <= u < 2 ^ 64 ->
  parseUint (FormatUint u) 10 bitSize = (2 ^ bitSize - 1, Some ErrRange).
Proof.
  intros Hb Hu. destruct (pow2_bitSize bitSize Hb) as (Hp & Hpp & Hle).
  assert (Hu64 : in_uint64 u) by (unfold in_uint64; lia).
  destruct (FormatUint_spec u Hu64) as (Hd & Hv & _ & Hl).
  unfold parseUint. rewrite (FormatUint_not_empty u Hu64). cbv zeta.
  apply parseUint_loop_overflow; auto; unfold maxUint64; try lia;
    try (rewrite Hv; lia).
Qed.

(** Text whose first byte is not a decimal digit is a syntax error for
    [ParseUint]. *)
Lemma parseUint_bad_head c r bitSize :
  is_digit c = false -> parseUint (String c r) 10 bitSize = (0, Some ErrSyntax).
Proof.
  intros Hc. unfold parseUint. cbn [is_empty parseUint_loop]. cbv zeta.
  pose proof (digit_value_not_digit c Hc) as H.
  destruct (digit_value c) as [d|]; [|reflexivity].
  destruct (Z.leb_spec 10 d); [reflexivity|lia].
Qed.

(** What [ParseInt] accepts lies in the range of [bitSize] bits. *)
Lemma parseInt_success_range s bitSize r :
  1 <= bitSize <= 64 -> parseInt s 10 bitSize = (r, None) ->
  - 2 ^ (bitSize - 1) <= r < 2 ^ (bitSize - 1).
Proof.
  intros Hb H. destruct (pow2_bitSize bitSize Hb) as (Hp & Hpp & Hle).
  assert (H63 : 2 ^ (bitSize - 1) <= 2 ^ 63) by (apply Z.pow_le_mono_r; lia).
  unfold parseInt in H. destruct s as [|c0 s1]; [discriminate|].
  destruct (if Ascii.eqb c0 "+" then (false, s1)
            else if Ascii.eqb c0 "-" then (true, s1) else (false, String c0 s1))
    as [neg body].
  destruct (parseUint body 10 bitSize) as [un err] eqn:Eu.
  pose proof (parseUint_range body bitSize un err Hb Eu) as Hun.
  assert (Hgo : (if negb neg && (2 ^ (bitSize - 1) <=? un)
                 then (2 ^ (bitSize - 1) - 1, Some ErrRange)
                 else if neg && (2 ^ (bitSize - 1) <? un)
                      then (- 2 ^ (bitSize - 1), Some ErrRange)
                      else (if neg then to_int64 (- to_int64 un) else to_int64 un, None))
                = (r, None)).
  { destruct err as [[|]|]; [discriminate|exact H|exact H]. }
  clear H. destruct neg; cbn [negb andb] in Hgo.
  - destruct (Z.ltb_spec (2 ^ (bitSize - 1)) un); [discriminate|].
    injection Hgo as <-.
    destruct (Z.eq_dec un (2 ^ 63)) as [->|Hne].
    + assert (2 ^ (bitSize - 1) = 2 ^ 63) by lia.
      change (to_int64 (- to_int64 (2 ^ 63))) with (- 2 ^ 63). lia.
    + rewrite (to_int64_small un) by (unfold in_int64; lia).
      rewrite to_int64_small by (unfold in_int64; lia). lia.
  - destruct (Z.leb_spec (2 ^ (bitSize - 1)) un); [discriminate|].
    injection Hgo as <-.
    rewrite to_int64_small by (unfold in_int64; lia). lia.
Qed.

Lemma parseInt_FormatInt_overflow v bitSize :
  2 <= bitSize <= 64 -> in_int64 v ->
  v < - 2 ^ (bitSize - 1) \/ 2 ^ (bitSize - 1) <= v ->
  snd (parseInt (FormatInt v) 10 bitSize) = Some ErrRange.
Proof.
  intros Hb [Hlo Hhi] Hout.
  destruct (pow2_bitSize bitSize ltac:(lia)) as (Hp & Hpp & Hle).
  assert (H2 : 2 <= 2 ^ (bitSize - 1)).
  { change 2 with (2 ^ 1) at 1. apply Z.pow_le_mono_r; lia. }
  unfold FormatInt. destruct (Z.ltb_spec v 0) as [Hneg|Hpos].
  - assert (Hu : in_uint64 (- v)) by (unfold in_uint64; lia).
    rewrite (to_uint64_small _ Hu).
    unfold parseInt. change (Ascii.eqb "-" "+") with false.
    change (Ascii.eqb "-" "-") with true. cbv iota.
    destruct (Z.lt_ge_cases (- v) (2 ^ bitSize)) as [Hfit|Hbig].
    + rewrite (parseUint_FormatUint (- v) bitSize) by lia.
      cbv zeta. cbn [negb andb].
      destruct (Z.ltb_spec (2 ^ (bitSize - 1)) (- v)); [reflexivity|lia].
    + rewrite (parseUint_FormatUint_overflow (- v) bitSize) by lia.
      cbv zeta. cbn [negb andb].
      destruct (Z.ltb_spec (2 ^ (bitSize - 1)) (2 ^ bitSize - 1));
        [reflexivity|lia].
  - assert (Hu : in_uint64 v) by (unfold in_uint64; lia).
    rewrite (to_uint64_small _ Hu).
    destruct (FormatUint_head v Hu) as (c & r & Hs & Hc & Hr).
    destruct (digit_not_sign c Hc) as (Hplus & Hminus & _).
    unfold is_char in Hplus, Hminus.
    unfold parseInt. rewrite Hs, Hplus, Hminus, <- Hs.
    destruct (Z.lt_ge_cases v (2 ^ bitSize)) as [Hfit|Hbig].
    + rewrite (parseUint_FormatUint v bitSize) by lia.
      cbv zeta. cbn [negb andb].
      destruct (Z.leb_spec (2 ^ (bitSize - 1)) v); [reflexivity|lia].
    + rewrite (parseUint_FormatUint_overflow v bitSize) by lia.
      cbv zeta. cbn [negb andb].
      destruct (Z.leb_spec (2 ^ (bitSize - 1)) (2 ^ bitSize - 1));
        [reflexivity|lia].
Qed.

Lemma to_int16_range x : in_int16 (to_int16 x).
Proof.
  unfold in_int16, MinInt16, MaxInt16, to_int16, to_signed.
  pose proof (Z.mod_pos_bound (x + 2 ^ (16 - 1)) (2 ^ 16) ltac:(lia)).
  change (2 ^ (16 - 1)) with 32768 in *. change (2 ^ 16) with 65536 in *. lia.
Qed.

Lemma to_uint_range a x : in_uint a (to_uint a x).
Proof.
  unfold in_uint, to_uint, to_unsigned. apply Z.mod_pos_bound.
  destruct a; reflexivity.
Qed.


(** * Text decoding: what is accepted *)

(** X7.  Whatever bytes [UnmarshalText] accepts (bytes that are not
    empty, decoded without an error), the instance it leaves is valid
    and holds a number in the range of its type, and encoding that
    instance with [MarshalText] and decoding the result gives the same
    instance again. *)
Theorem UnmarshalText_accepts_in_range (a : arch) (text : string) :
  is_empty text = false ->
  (forall i r, Int16.UnmarshalText i text = (r, None) ->
     Int16.Valid r = true /\ Int16.set r = true /\ in_int16 (Int16.Int16 r)
     /\ forall j, Int16.UnmarshalText j (fst (Int16.MarshalText r)) = (r, None))
  /\ (forall u r, Uint.UnmarshalText a u text = (r, None) ->
        Uint.Valid r = true /\ in_uint a (Uint.Uint r)
        /\ forall j, Uint.UnmarshalText a j (fst (Uint.MarshalText r)) = (r, None))
  /\ (forall w r, Uint64.UnmarshalText w text = (r, None) ->
        Uint64.Valid r = true /\ in_uint64 (Uint64.Uint64 r)
        /\ forall j, Uint64.UnmarshalText j (fst (Uint64.MarshalText r)) = (r, None)).
Proof.
  intros Hne. split; [|split].
  - intros i r. unfold Int16.UnmarshalText, ParseInt, wrapErr. rewrite Hne.
    destruct (parseInt text 10 16) as [res [e|]] eqn:E; [discriminate|].
    cbn. intros H. injection H as <-. cbn.
    pose proof (parseInt_success_range text 16 res ltac:(lia) E) as Hr.
    assert (Hin : in_int16 res) by (unfold in_int16, MinInt16, MaxInt16; lia).
    rewrite (to_int16_small res Hin). repeat split; try apply Hin.
    intros j. apply (Int16_roundtrip_text j res Hin).
  - intros u r. unfold Uint.UnmarshalText, ParseUint, wrapErr. rewrite Hne.
    change (resolveBitSize a 0) with (IntSize a).
    destruct (parseUint text 10 (IntSize a)) as [res [e|]] eqn:E; [discriminate|].
    cbn. intros H. injection H as <-. cbn.
    destruct (parseUint_success text (IntSize a) res ltac:(destruct a; simpl; lia) E)
      as (_ & _ & Hr).
    rewrite (to_uint_small a res Hr). repeat split; try apply Hr.
    intros j. apply (Uint_roundtrip_text a j res Hr).
  - intros w r. unfold Uint64.UnmarshalText, ParseUint, wrapErr. rewrite Hne.
    destruct (parseUint text 10 64) as [res [e|]] eqn:E; [discriminate|].
    cbn. intros H. injection H as <-. cbn.
    destruct (parseUint_success text 64 res ltac:(lia) E) as (_ & _ & Hr).
    rewrite (to_uint64_small res Hr). repeat split; try apply Hr.
    intros j. apply (Uint64_roundtrip_text j res Hr).
Qed.

Lemma UnmarshalText_accepts_in_range_witness :
  Int16.UnmarshalText Int16.zero (fst (Int16.MarshalText (Int16.Int16From 7)))
  = (Int16.Int16From 7, None)
  /\ in_uint Arch32 (Uint.Uint (Uint.UintFrom 12))
  /\ Uint64.Valid (Uint64.Uint64From 5) = true.
Proof.
  split; [|split].
  - apply (proj1 (UnmarshalText_accepts_in_range Arch32 "+007" eq_refl)
             Int16.zero (Int16.Int16From 7) eq_refl).
  - apply (proj1 (proj2 (UnmarshalText_accepts_in_range Arch32 "0012" eq_refl))
             Uint.zero (Uint.UintFrom 12) eq_refl).
  - apply (proj2 (proj2 (UnmarshalText_accepts_in_range Arch32 "5" eq_refl))
             Uint64.zero (Uint64.Uint64From 5) eq_refl).
Defined.

(** X8.  [Int16.UnmarshalText] checks both ends of the range: for every
    64-bit integer outside the range of an int16, above or below, the
    decimal form is refused with a range error, the number is left as it
    was and valid is cleared. *)
Theorem Int16_UnmarshalText_out_of_range (i : Int16.t) (v : Z) :
  in_int64 v -> v < MinInt16 \/ MaxInt16 < v ->
  Int16.UnmarshalText i (FormatInt v)
  = ({| Int16.Int16 := Int16.Int16 i; Int16.Valid := false; Int16.set := true |},
     Some (NumError "ParseInt" ErrRange)).
Proof.
  intros Hv Hout. unfold Int16.UnmarshalText, ParseInt, wrapErr.
  rewrite (FormatInt_not_empty v Hv).
  pose proof (parseInt_FormatInt_overflow v 16 ltac:(lia) Hv) as H.
  change (2 ^ (16 - 1)) with 32768 in H. unfold MinInt16, MaxInt16 in Hout.
  specialize (H ltac:(lia)).
  destruct (parseInt (FormatInt v) 10 16) as [res e]. simpl in H. subst e.
  reflexivity.
Qed.

Lemma Int16_UnmarshalText_out_of_range_witness :
  Int16.UnmarshalText (Int16.Int16From 3) "-40000"
  = ({| Int16.Int16 := 3; Int16.Valid := false; Int16.set := true |},
     Some (NumError "ParseInt" ErrRange)).
Proof.
  apply (Int16_UnmarshalText_out_of_range (Int16.Int16From 3) (-40000)).
  - unfold in_int64. lia.
  - unfold MinInt16. lia.
Defined.

(** X9.  [Uint.UnmarshalJSON] does not check the word size: the decimal
    literal of any unsigned 64-bit number is decoded without an error
    and stored reduced modulo [2^IntSize], valid unless that is zero.  On
    a 32-bit [uint] a literal of [2^32] or more is truncated silently. *)
Theorem Uint_UnmarshalJSON_truncates (a : arch) (u : Uint.t) (v : Z) :
  in_uint64 v ->
  Uint.UnmarshalJSON a u (FormatUint v)
  = (Uint.NewUint (v mod 2 ^ IntSize a) (negb (v mod 2 ^ IntSize a =? 0)), None).
Proof.
  intros Hv. unfold Uint.UnmarshalJSON.
  rewrite (Equal_NullBytes_FormatUint v Hv).
  rewrite (Unmarshal_interface_FormatUint v Hv).
  rewrite (Unmarshal_uint64_FormatUint v 0 Hv). reflexivity.
Qed.

Lemma Uint_UnmarshalJSON_truncates_witness :
  Uint.UnmarshalJSON Arch32 Uint.zero "4294967297" = (Uint.UintFrom 1, None)
  /\ Uint.UnmarshalJSON Arch32 (Uint.UintFrom 5) "4294967296"
     = (Uint.NewUint 0 false, None).
Proof.
  split.
  - apply (Uint_UnmarshalJSON_truncates Arch32 Uint.zero 4294967297).
    unfold in_uint64. lia.
  - apply (Uint_UnmarshalJSON_truncates Arch32 (Uint.UintFrom 5) 4294967296).
    unfold in_uint64. lia.
Defined.

(** X10.  [Uint.UnmarshalText] does check the word size: the decimal
    form of an unsigned 64-bit number that a [uint] cannot hold is
    refused with a range error, the number is left as it was and valid
    is cleared. *)
Theorem Uint_UnmarshalText_out_of_range (a : arch) (u : Uint.t) (v : Z) :
  in_uint64 v -> 2 ^ IntSize a <= v ->
  Uint.UnmarshalText a u (FormatUint v)
  = ({| Uint.Uint := Uint.Uint u; Uint.Valid := false |},
     Some (NumError "ParseUint" ErrRange)).
Proof.
  intros Hv Hbig. unfold Uint.UnmarshalText, ParseUint, wrapErr.
  rewrite (FormatUint_not_empty v Hv).
  change (resolveBitSize a 0) with (IntSize a).
  rewrite (parseUint_FormatUint_overflow v (IntSize a))
    by (unfold in_uint64 in Hv; destruct a; simpl in *; lia).
  reflexivity.
Qed.

Lemma Uint_UnmarshalText_out_of_range_witness :
  Uint.UnmarshalText Arch32 (Uint.UintFrom 5) "4294967296"
  = ({| Uint.Uint := 5; Uint.Valid := false |},
     Some (NumError "ParseUint" ErrRange)).
Proof.
  apply (Uint_UnmarshalText_out_of_range Arch32 (Uint.UintFrom 5) 4294967296).
  - unfold in_uint64. lia.
  - simpl. lia.
Defined.

(** X11.  Text that does not start with a decimal digit is a syntax
    error for [Uint.UnmarshalText] and [Uint64.UnmarshalText], signs
    included; for [Int16.UnmarshalText] so is text that starts with
    neither a digit nor a sign.  The number is left as it was and valid
    is cleared. *)
Theorem UnmarshalText_bad_first_byte (a : arch) (c : ascii) (rest : string) :
  is_digit c = false ->
  (forall u, Uint.UnmarshalText a u (String c rest)
             = ({| Uint.Uint := Uint.Uint u; Uint.Valid := false |},
                Some (NumError "ParseUint" ErrSyntax)))
  /\ (forall w, Uint64.UnmarshalText w (String c rest)
                = ({| Uint64.Uint64 := Uint64.Uint64 w; Uint64.Valid := false |},
                   Some (NumError "ParseUint" ErrSyntax)))
  /\ (is_char c "+" = false -> is_char c "-" = false ->
      forall i, Int16.UnmarshalText i (String c rest)
                = ({| Int16.Int16 := Int16.Int16 i; Int16.Valid := false;
                      Int16.set := true |},
                   Some (NumError "ParseInt" ErrSyntax))).
Proof.
  intros Hc. split; [|split].
  - intros u. unfold Uint.UnmarshalText, ParseUint, wrapErr. cbn [is_empty].
    rewrite (parseUint_bad_head c rest _ Hc). reflexivity.
  - intros w. unfold Uint64.UnmarshalText, ParseUint, wrapErr. cbn [is_empty].
    rewrite (parseUint_bad_head c rest _ Hc). reflexivity.
  - intros Hplus Hminus i. unfold is_char in Hplus, Hminus.
    unfold Int16.UnmarshalText, ParseInt, wrapErr, parseInt. cbn [is_empty].
    rewrite Hplus, Hminus, (parseUint_bad_head c rest _ Hc). reflexivity.
Qed.

Lemma UnmarshalText_bad_first_byte_witness :
  Uint.UnmarshalText Arch64 (Uint.UintFrom 5) "+1"
  = ({| Uint.Uint := 5; Uint.Valid := false |},
     Some (NumError "ParseUint" ErrSyntax))
  /\ Uint64.UnmarshalText (Uint64.Uint64From 5) " 1"
     = ({| Uint64.Uint64 := 5; Uint64.Valid := false |},
        Some (NumError "ParseUint" ErrSyntax))
  /\ Int16.UnmarshalText (Int16.Int16From 5) "x1"
     = ({| Int16.Int16 := 5; Int16.Valid := false; Int16.set := true |},
        Some (NumError "ParseInt" ErrSyntax)).
Proof.
  split; [|split].
  - apply (UnmarshalText_bad_first_byte Arch64 "+" "1"). reflexivity.
  - apply (UnmarshalText_bad_first_byte Arch64 " " "1"). reflexivity.
  - apply (proj2 (proj2 (UnmarshalText_bad_first_byte Arch64 "x" "1" eq_refl)));
      reflexivity.
Defined.

(** X12.  [Int16.UnmarshalText] accepts an explicit plus sign: a plus
    followed by the decimal form of a number from 0 to 32767 decodes to
    that number, valid and set. *)
Theorem Int16_UnmarshalText_plus_sign (i : Int16.t) (v : Z) :
  0 <= v <= MaxInt16 ->
  Int16.UnmarshalText i (String "+" (FormatUint v)) = (Int16.Int16From v, None).
Proof.
  unfold MaxInt16. intros Hv.
  unfold Int16.UnmarshalText, ParseInt, wrapErr, parseInt. cbn [is_empty].
  change (Ascii.eqb "+" "+") with true. cbv iota.
  rewrite (parseUint_FormatUint v 16) by (change (2 ^ 16) with 65536; lia).
  cbv zeta. cbn [negb andb]. change (2 ^ (16 - 1)) with 32768.
  destruct (Z.leb_spec 32768 v); [lia|].
  cbn. rewrite (to_int64_small v) by (unfold in_int64; lia).
  rewrite to_int16_small by (unfold in_int16, MinInt16, MaxInt16; lia).
  reflexivity.
Qed.

Lemma Int16_UnmarshalText_plus_sign_witness :
  Int16.UnmarshalText Int16.zero "+32767" = (Int16.Int16From 32767, None).
Proof.
  apply (Int16_UnmarshalText_plus_sign Int16.zero 32767). unfold MaxInt16. lia.
Defined.


(** * JSON decoding: overflow, strings and padded null *)

Lemma Unmarshal_int64_FormatUint_overflow x x0 :
  2 ^ 63 <= x < 2 ^ 64 ->
  Unmarshal_int64 (FormatUint x) x0
  = (x0, Some (UnmarshalTypeError ("number " ++ FormatUint x))).
Proof.
  intros Hx. assert (Hu : in_uint64 x) by (unfold in_uint64; lia).
  unfold Unmarshal_int64.
  rewrite (decode_canonical _ (FormatUint_canonical x Hu)).
  unfold ParseInt, wrapErr, parseInt.
  destruct (FormatUint_head x Hu) as (c & r & Hs & Hc & Hr).
  destruct (digit_not_sign c Hc) as (Hplus & Hminus & _).
  unfold is_char in Hplus, Hminus. rewrite Hs, Hplus, Hminus, <- Hs.
  rewrite (parseUint_FormatUint x 64) by lia.
  cbv zeta. cbn [negb andb]. change (2 ^ (64 - 1)) with (2 ^ 63).
  destruct (Z.leb_spec (2 ^ 63) x); [reflexivity|lia].
Qed.

(** X13.  Above the range [Int16.UnmarshalJSON] refuses: the decimal
    literal of a 64-bit integer greater than 32767 gives the overflow
    error carrying that integer, and the literal of a number from [2^63]
    to [2^64 - 1], which no int64 holds, gives the decoder's type error.
    In both cases the number and the valid flag stay as they were and the
    instance is marked set. *)
Theorem Int16_UnmarshalJSON_overflow (i : Int16.t) (x : Z) :
  (in_int64 x -> MaxInt16 < x ->
     Int16.UnmarshalJSON i (FormatInt x)
     = ({| Int16.Int16 := Int16.Int16 i; Int16.Valid := Int16.Valid i;
           Int16.set := true |}, Some (OverflowError x)))
  /\ (2 ^ 63 <= x < 2 ^ 64 ->
        Int16.UnmarshalJSON i (FormatUint x)
        = ({| Int16.Int16 := Int16.Int16 i; Int16.Valid := Int16.Valid i;
              Int16.set := true |},
           Some (UnmarshalTypeError ("number " ++ FormatUint x)))).
Proof.
  split.
  - intros Hx Hbig. apply Int16_UnmarshalJSON_above_range; [|exact Hbig].
    apply Unmarshal_int64_FormatInt, Hx.
  - intros Hx. unfold Int16.UnmarshalJSON.
    rewrite Equal_NullBytes_FormatUint by (unfold in_uint64; lia).
    rewrite (Unmarshal_int64_FormatUint_overflow x 0 Hx). reflexivity.
Qed.

Lemma Int16_UnmarshalJSON_overflow_witness :
  Int16.UnmarshalJSON (Int16.Int16From 4) "32768"
  = (Int16.Int16From 4, Some (OverflowError 32768))
  /\ Int16.UnmarshalJSON (Int16.Int16From 4) "9223372036854775808"
     = (Int16.Int16From 4,
        Some (UnmarshalTypeError "number 9223372036854775808")).
Proof.
  split.
  - apply (Int16_UnmarshalJSON_overflow (Int16.Int16From 4) 32768);
      [unfold in_int64|unfold MaxInt16]; lia.
  - apply (Int16_UnmarshalJSON_overflow (Int16.Int16From 4) 9223372036854775808).
    lia.
Defined.

Lemma plain_byte_cases c :
  plain_byte c = true ->
  is_char c ch_quote = false /\ is_char c ch_backslash = false
  /\ (byte_val c <? 32) = false /\ (byte_val c <? 128) = true.
Proof.
  unfold plain_byte. intros H.
  apply andb_true_iff in H as [H Hb]. apply andb_true_iff in H as [H Hq].
  apply andb_true_iff in H as [Hlo Hhi].
  apply negb_true_iff in Hb. apply negb_true_iff in Hq.
  apply Z.leb_le in Hlo. repeat split; auto. apply Z.ltb_ge. exact Hlo.
Qed.

Lemma scan_string_plain s rest :
  all_plain s = true ->
  scan_string (s ++ String ch_quote rest) = Some (s, rest).
Proof.
  induction s as [|c s IH]; intros Hs.
  - reflexivity.
  - simpl in Hs. apply andb_true_iff in Hs as [Hc Hs].
    destruct (plain_byte_cases c Hc) as (Hq & Hb & Hlo & _).
    change (String c s ++ String ch_quote rest)%string
      with (String c (s ++ String ch_quote rest)).
    cbn [scan_string]. rewrite Hq, Hb, Hlo, (IH Hs). reflexivity.
Qed.

Lemma unquote_plain s : all_plain s = true -> unquote s = Some s.
Proof.
  induction s as [|c s IH]; intros Hs; [reflexivity|].
  simpl in Hs. apply andb_true_iff in Hs as [Hc Hs].
  destruct (plain_byte_cases c Hc) as (Hq & Hb & Hlo & Hhi).
  cbn [unquote]. rewrite Hb, Hq, Hlo, Hhi, (IH Hs). reflexivity.
Qed.

Lemma all_digits_plain s : all_digits s = true -> all_plain s = true.
Proof.
  induction s as [|c s IH]; intros Hs; [reflexivity|].
  simpl in Hs. apply andb_true_iff in Hs as [Hc Hs].
  simpl. rewrite (IH Hs), andb_true_r.
  apply is_digit_true in Hc. unfold plain_byte. rewrite !is_char_val.
  change (byte_val ch_quote) with 34. change (byte_val ch_backslash) with 92.
  repeat (apply andb_true_iff; split);
    try apply negb_true_iff; try apply Z.eqb_neq;
    try apply Z.leb_le; try apply Z.ltb_lt; lia.
Qed.

Lemma decode_quoted s : all_plain s = true -> decode (quoted s) = Some (JString s).
Proof.
  intros Hs. unfold decode, quoted.
  destruct (decode_fuel (String ch_quote (s ++ String ch_quote EmptyString)))
    as [fuel ->].
  cbn [skip_space]. change (is_space ch_quote) with false. cbv iota.
  cbn [parse_value]. change (is_digit ch_quote || is_char ch_quote "-") with false.
  change (is_char ch_quote ch_quote) with true. cbv iota.
  rewrite (scan_string_plain s EmptyString Hs), (unquote_plain s Hs).
  reflexivity.
Qed.

Lemma Unmarshal_interface_quoted s :
  all_plain s = true -> Unmarshal_interface (quoted s) = inl (JString s).
Proof.
  intros Hs. unfold Unmarshal_interface. rewrite (decode_quoted s Hs).
  reflexivity.
Qed.

Lemma Equal_NullBytes_quoted s : Equal (quoted s) NullBytes = false.
Proof. reflexivity. Qed.

(** What the three decoders do with a JSON string token. *)
Lemma UnmarshalJSON_quoted (a : arch) (s : string) :
  all_plain s = true ->
  (forall u, Uint.UnmarshalJSON a u (quoted s)
     = if is_empty s then ({| Uint.Uint := Uint.Uint u; Uint.Valid := false |}, None)
       else ({| Uint.Uint := to_uint a (fst (ParseUint s 10 64));
                Uint.Valid := is_nil (snd (ParseUint s 10 64))
                              && negb (to_uint a (fst (ParseUint s 10 64)) =? 0) |},
             snd (ParseUint s 10 64)))
  /\ (forall w, Uint64.UnmarshalJSON w (quoted s)
        = if is_empty s
          then ({| Uint64.Uint64 := Uint64.Uint64 w; Uint64.Valid := false |}, None)
          else ({| Uint64.Uint64 := fst (ParseUint s 10 64);
                   Uint64.Valid := is_nil (snd (ParseUint s 10 64))
                                   && negb (fst (ParseUint s 10 64) =? 0) |},
                snd (ParseUint s 10 64)))
  /\ (forall i, Int16.UnmarshalJSON i (quoted s)
        = ({| Int16.Int16 := Int16.Int16 i; Int16.Valid := Int16.Valid i;
              Int16.set := true |}, Some (UnmarshalTypeError "string"))).
Proof.
  intros Hs. split; [|split].
  - intros u. unfold Uint.UnmarshalJSON.
    rewrite Equal_NullBytes_quoted, (Unmarshal_interface_quoted s Hs).
    destruct (is_empty s); [reflexivity|].
    destruct (ParseUint s 10 64) as [n err]. reflexivity.
  - intros w. unfold Uint64.UnmarshalJSON.
    rewrite Equal_NullBytes_quoted, (Unmarshal_interface_quoted s Hs).
    destruct (is_empty s); [reflexivity|].
    destruct (ParseUint s 10 64) as [n err]. reflexivity.
  - intros i. unfold Int16.UnmarshalJSON, Unmarshal_int64.
    rewrite Equal_NullBytes_quoted, (decode_quoted s Hs). reflexivity.
Qed.

(** X14.  [Uint.UnmarshalJSON] and [Uint64.UnmarshalJSON] accept a number
    written as a JSON string: the quoted decimal form of a number the
    type can hold decodes to that number, valid unless it is zero, and
    the empty JSON string decodes without an error to an invalid instance
    whose number is left as it was.  [Int16.UnmarshalJSON] refuses the
    quoted decimal with the decoder's type error and leaves number and
    valid as they were. *)
Theorem UnmarshalJSON_quoted_decimal (a : arch) (v : Z) :
  (in_uint a v -> forall u,
     Uint.UnmarshalJSON a u (quoted (FormatUint v))
     = (Uint.NewUint v (negb (v =? 0)), None))
  /\ (in_uint64 v -> forall w,
        Uint64.UnmarshalJSON w (quoted (FormatUint v))
        = (Uint64.NewUint64 v (negb (v =? 0)), None))
  /\ (in_uint64 v -> forall i,
        Int16.UnmarshalJSON i (quoted (FormatUint v))
        = ({| Int16.Int16 := Int16.Int16 i; Int16.Valid := Int16.Valid i;
              Int16.set := true |}, Some (UnmarshalTypeError "string")))
  /\ (forall u, Uint.UnmarshalJSON a u (quoted EmptyString)
                = (Uint.NewUint (Uint.Uint u) false, None))
  /\ (forall w, Uint64.UnmarshalJSON w (quoted EmptyString)
                = (Uint64.NewUint64 (Uint64.Uint64 w) false, None)).
Proof.
  assert (Hplain : in_uint64 v -> all_plain (FormatUint v) = true).
  { intros Hv. apply all_digits_plain, (FormatUint_spec v Hv). }
  repeat match goal with |- _ /\ _ => split end.
  - intros Hv u. pose proof (in_uint_uint64 a v Hv) as Hv64.
    rewrite (proj1 (UnmarshalJSON_quoted a _ (Hplain Hv64))).
    rewrite (FormatUint_not_empty v Hv64).
    rewrite ParseUint_FormatUint by (unfold in_uint64 in Hv64; lia).
    cbn [fst snd is_nil andb]. rewrite (to_uint_small a v Hv). reflexivity.
  - intros Hv w.
    rewrite (proj1 (proj2 (UnmarshalJSON_quoted a _ (Hplain Hv)))).
    rewrite (FormatUint_not_empty v Hv).
    rewrite ParseUint_FormatUint by (unfold in_uint64 in Hv; lia).
    reflexivity.
  - intros Hv i. apply (UnmarshalJSON_quoted a _ (Hplain Hv)).
  - intros u. reflexivity.
  - intros w. reflexivity.
Qed.

Lemma UnmarshalJSON_quoted_decimal_witness :
  Uint.UnmarshalJSON Arch32 Uint.zero (quoted "4294967295")
  = (Uint.UintFrom 4294967295, None)
  /\ Uint64.UnmarshalJSON (Uint64.Uint64From 3) (quoted "0")
     = (Uint64.NewUint64 0 false, None)
  /\ Int16.UnmarshalJSON (Int16.Int16From 3) (quoted "12")
     = (Int16.Int16From 3, Some (UnmarshalTypeError "string")).
Proof.
  split; [|split].
  - apply (UnmarshalJSON_quoted_decimal Arch32 4294967295).
    unfold in_uint. simpl. lia.
  - apply (proj1 (proj2 (UnmarshalJSON_quoted_decimal Arch32 0))).
    unfold in_uint64. lia.
  - apply (proj1 (proj2 (proj2 (UnmarshalJSON_quoted_decimal Arch32 12)))).
    unfold in_uint64. lia.
Defined.

(** X15.  A JSON string that fails to parse overwrites the number of a
    [Uint] or [Uint64]: when the string starts with a byte that is not a
    digit the number becomes 0, and when it is made of digits that
    denote [2^64] or more the number becomes the largest value of the
    type; valid is cleared and the parse error returned.  ([UnmarshalText]
    keeps the number in the same situation.) *)
Theorem UnmarshalJSON_string_failure (a : arch) (s : string) :
  all_plain s = true ->
  (forall c r, s = String c r -> is_digit c = false ->
     (forall u, Uint.UnmarshalJSON a u (quoted s)
                = (Uint.NewUint 0 false, Some (NumError "ParseUint" ErrSyntax)))
     /\ (forall w, Uint64.UnmarshalJSON w (quoted s)
                   = (Uint64.NewUint64 0 false,
                      Some (NumError "ParseUint" ErrSyntax))))
  /\ (all_digits s = true -> 2 ^ 64 <= dec_value 0 s ->
        (forall u, Uint.UnmarshalJSON a u (quoted s)
                   = (Uint.NewUint (2 ^ IntSize a - 1) false,
                      Some (NumError "ParseUint" ErrRange)))
        /\ (forall w, Uint64.UnmarshalJSON w (quoted s)
                      = (Uint64.NewUint64 (2 ^ 64 - 1) false,
                         Some (NumError "ParseUint" ErrRange)))).
Proof.
  intros Hs. destruct (UnmarshalJSON_quoted a s Hs) as (HU & HW & _). split.
  - intros c r -> Hc.
    assert (E : ParseUint (String c r) 10 64
                = (0, Some (NumError "ParseUint" ErrSyntax))).
    { unfold ParseUint, wrapErr. rewrite (parseUint_bad_head c r 64 Hc).
      reflexivity. }
    split; [intros u; rewrite HU|intros w; rewrite HW];
      cbn [is_empty]; rewrite E; destruct a; reflexivity.
  - intros Hd Hv.
    assert (Hne : is_empty s = false).
    { destruct s; [simpl in Hv; lia|reflexivity]. }
    assert (E : ParseUint s 10 64 = (2 ^ 64 - 1, Some (NumError "ParseUint" ErrRange))).
    { unfold ParseUint, wrapErr, parseUint. rewrite Hne. cbv zeta.
      rewrite parseUint_loop_overflow; auto; unfold maxUint64; try lia;
        reflexivity. }
    split; [intros u; rewrite HU|intros w; rewrite HW];
      rewrite Hne, E; destruct a; reflexivity.
Qed.

Lemma UnmarshalJSON_string_failure_witness :
  Uint64.UnmarshalJSON (Uint64.Uint64From 7) (quoted "abc")
  = (Uint64.NewUint64 0 false, Some (NumError "ParseUint" ErrSyntax))
  /\ Uint.UnmarshalJSON Arch32 (Uint.UintFrom 7) (quoted "18446744073709551616")
     = (Uint.NewUint 4294967295 false, Some (NumError "ParseUint" ErrRange)).
Proof.
  split.
  - apply (proj1 (UnmarshalJSON_string_failure Arch64 "abc" eq_refl)
             "a"%char "bc");
      reflexivity.
  - apply (proj2 (UnmarshalJSON_string_failure Arch32 "18446744073709551616" eq_refl));
      [reflexivity|simpl; lia].
Defined.

Lemma skip_space_app ws s :
  all_space ws = true -> skip_space (ws ++ s) = skip_space s.
Proof.
  induction ws as [|c ws IH]; intros H; [reflexivity|].
  simpl in H. apply andb_true_iff in H as [Hc Hws].
  change (String c ws ++ s)%string with (String c (ws ++ s)).
  cbn [skip_space]. rewrite Hc. apply IH, Hws.
Qed.

Lemma skip_space_all ws : all_space ws = true -> skip_space ws = EmptyString.
Proof.
  intros H. rewrite <- (append_nil_r ws) at 1.
  rewrite (skip_space_app ws EmptyString H). reflexivity.
Qed.

Lemma decode_padded_null ws ws' :
  all_space ws = true -> all_space ws' = true ->
  decode (ws ++ "null" ++ ws') = Some JNull.
Proof.
  intros H H'. unfold decode.
  destruct (decode_fuel (ws ++ "null" ++ ws')) as [fuel ->].
  rewrite (skip_space_app ws _ H).
  change ("null" ++ ws')%string with (String "n" (String "u" (String "l" (String "l" ws')))).
  cbn. rewrite (skip_space_all ws' H'). reflexivity.
Qed.

Lemma padded_null_not_NullBytes ws ws' :
  all_space ws = true -> is_empty ws && is_empty ws' = false ->
  Equal (ws ++ "null" ++ ws') NullBytes = false.
Proof.
  intros H Hne. destruct ws as [|c ws].
  - destruct ws' as [|c' ws']; [discriminate|]. reflexivity.
  - simpl in H. apply andb_true_iff in H as [Hc _].
    unfold Equal, NullBytes.
    change (String c ws ++ "null" ++ ws')%string
      with (String c (ws ++ "null" ++ ws')).
    cbn [String.eqb]. destruct (Ascii.eqb_spec c "n") as [->|]; [|reflexivity].
    discriminate Hc.
Qed.

(** X16.  A JSON null with white space around it is not the byte string
    [null], so it reaches the decoder.  [Int16.UnmarshalJSON] then yields
    a valid zero; [Uint.UnmarshalJSON] and [Uint64.UnmarshalJSON] yield
    an invalid instance whose number is left as it was (the bare [null]
    resets it to zero).  None reports an error. *)
Theorem UnmarshalJSON_padded_null (a : arch) (ws ws' : string) :
  all_space ws = true -> all_space ws' = true ->
  is_empty ws && is_empty ws' = false ->
  (forall i, Int16.UnmarshalJSON i (ws ++ "null" ++ ws')
             = (Int16.NewInt16 0 true true, None))
  /\ (forall u, Uint.UnmarshalJSON a u (ws ++ "null" ++ ws')
                = (Uint.NewUint (Uint.Uint u) false, None))
  /\ (forall w, Uint64.UnmarshalJSON w (ws ++ "null" ++ ws')
                = (Uint64.NewUint64 (Uint64.Uint64 w) false, None)).
Proof.
  intros H H' Hne.
  pose proof (padded_null_not_NullBytes ws ws' H Hne) as E.
  pose proof (decode_padded_null ws ws' H H') as D.
  split; [|split].
  - intros i. unfold Int16.UnmarshalJSON, Unmarshal_int64. rewrite E, D.
    reflexivity.
  - intros u. unfold Uint.UnmarshalJSON, Unmarshal_interface. rewrite E, D.
    reflexivity.
  - intros w. unfold Uint64.UnmarshalJSON, Unmarshal_interface. rewrite E, D.
    reflexivity.
Qed.

Lemma UnmarshalJSON_padded_null_witness :
  Int16.UnmarshalJSON Int16.zero " null"
  = (Int16.NewInt16 0 true true, None)
  /\ Uint.UnmarshalJSON Arch64 (Uint.UintFrom 6) " null"
     = (Uint.NewUint 6 false, None)
  /\ Uint64.UnmarshalJSON (Uint64.Uint64From 6) (String ch_lf "null ")
     = (Uint64.NewUint64 6 false, None).
Proof.
  split; [|split].
  - apply (UnmarshalJSON_padded_null Arch64 " " EmptyString); reflexivity.
  - apply (UnmarshalJSON_padded_null Arch64 " " EmptyString); reflexivity.
  - apply (UnmarshalJSON_padded_null Arch64 (String ch_lf EmptyString) " ");
      reflexivity.
Defined.

Lemma Unmarshal_uint64_number data lit x0 n :
  decode data = Some (JNumber lit) ->
  Unmarshal_uint64 data x0 = (n, None) -> in_uint64 n.
Proof.
  intros D. unfold Unmarshal_uint64, ParseUint, wrapErr. rewrite D.
  destruct (parseUint lit 10 64) as [m [e|]] eqn:E; cbn; [discriminate|].
  intros H. injection H as <-.
  apply (parseUint_success lit 64 m ltac:(lia) E).
Qed.

Lemma Unmarshal_interface_decode data v :
  Unmarshal_interface data = inl v -> decode data = Some v.
Proof.
  unfold Unmarshal_interface. destruct (decode data) as [v'|]; [|discriminate].
  destruct (convert_error v'); [discriminate|]. congruence.
Qed.

(** X17.  Whatever bytes [Uint.UnmarshalJSON] or [Uint64.UnmarshalJSON]
    decode without an error, the instance they leave is never a valid
    zero: if it is valid, its number is not zero and lies in the range
    of the type. *)
Theorem UnmarshalJSON_never_valid_zero (a : arch) (data : string) :
  (forall u r, Uint.UnmarshalJSON a u data = (r, None) ->
     Uint.Valid r = true -> Uint.Uint r <> 0 /\ in_uint a (Uint.Uint r))
  /\ (forall w r, Uint64.UnmarshalJSON w data = (r, None) ->
        Uint64.Valid r = true ->
        Uint64.Uint64 r <> 0 /\ in_uint64 (Uint64.Uint64 r)).
Proof.
  split.
  - intros u r. unfold Uint.UnmarshalJSON.
    destruct (Equal data NullBytes);
      [intros H; injection H as <-; discriminate|].
    destruct (Unmarshal_interface data) as [v|e]; [|discriminate].
    destruct v as [| b | lit | str | elems | members]; try discriminate;
      try (intros H; injection H as <-; discriminate).
    + destruct (Unmarshal_uint64 data 0) as [n [e|]]; [discriminate|].
      intros H. injection H as <-. cbn. intros Hv.
      apply negb_true_iff, Z.eqb_neq in Hv. split; [exact Hv|apply to_uint_range].
    + destruct (is_empty str); [intros H; injection H as <-; discriminate|].
      destruct (ParseUint str 10 64) as [n [e|]]; [discriminate|].
      intros H. injection H as <-. cbn. intros Hv.
      apply negb_true_iff, Z.eqb_neq in Hv. split; [exact Hv|apply to_uint_range].
  - intros w r. unfold Uint64.UnmarshalJSON.
    destruct (Equal data NullBytes);
      [intros H; injection H as <-; discriminate|].
    destruct (Unmarshal_interface data) as [v|e] eqn:Ei; [|discriminate].
    apply Unmarshal_interface_decode in Ei.
    destruct v as [| b | lit | str | elems | members]; try discriminate;
      try (intros H; injection H as <-; discriminate).
    + destruct (Unmarshal_uint64 data (Uint64.Uint64 w)) as [n [e|]] eqn:En;
        [discriminate|].
      intros H. injection H as <-. cbn. intros Hv.
      apply negb_true_iff, Z.eqb_neq in Hv. split; [exact Hv|].
      apply (Unmarshal_uint64_number data lit _ n Ei En).
    + destruct (is_empty str); [intros H; injection H as <-; discriminate|].
      unfold ParseUint, wrapErr.
      destruct (parseUint str 10 64) as [n [e|]] eqn:En; [discriminate|].
      cbn. intros H. injection H as <-. cbn. intros Hv.
      apply negb_true_iff, Z.eqb_neq in Hv. split; [exact Hv|].
      apply (parseUint_success str 64 n ltac:(lia) En).
Qed.

Lemma UnmarshalJSON_never_valid_zero_witness :
  Uint.Uint (Uint.UintFrom 1) <> 0
  /\ Uint64.Uint64 (Uint64.Uint64From 18446744073709551615) <> 0.
Proof.
  split.
  - apply (proj1 (UnmarshalJSON_never_valid_zero Arch32 "4294967297")
             Uint.zero (Uint.UintFrom 1)); reflexivity.
  - apply (proj2 (UnmarshalJSON_never_valid_zero Arch32
                    (quoted "18446744073709551615"))
             Uint64.zero (Uint64.Uint64From 18446744073709551615)); reflexivity.
Defined.

(** X18.  Whatever bytes [Int16.UnmarshalJSON] decodes without an error,
    the instance it leaves is marked set and holds a number in the range
    of an int16, and it is invalid exactly when the bytes are the four
    bytes [null], in which case the number is zero. *)
Theorem Int16_UnmarshalJSON_success (i r : Int16.t) (data : string) :
  Int16.UnmarshalJSON i data = (r, None) ->
  Int16.set r = true /\ in_int16 (Int16.Int16 r)
  /\ (Int16.Valid r = false <-> data = NullBytes)
  /\ (Int16.Valid r = false -> Int16.Int16 r = 0).
Proof.
  unfold Int16.UnmarshalJSON. destruct (Equal data NullBytes) eqn:E.
  - apply String.eqb_eq in E. intros H. injection H as <-. cbn.
    repeat split; auto; unfold MinInt16, MaxInt16; lia.
  - apply String.eqb_neq in E.
    destruct (Unmarshal_int64 data 0) as [x [e|]]; [discriminate|].
    destruct (MaxInt16 <? x); [discriminate|].
    intros H. injection H as <-. cbn.
    repeat split; try apply to_int16_range; try discriminate; try contradiction.
Qed.

Lemma Int16_UnmarshalJSON_success_witness :
  Int16.set (Int16.NewInt16 (-7) true true) = true
  /\ in_int16 (Int16.Int16 (Int16.NewInt16 (-7) true true))
  /\ (Int16.Valid (Int16.NewInt16 (-7) true true) = false <-> "-7" = NullBytes)
  /\ (Int16.Valid (Int16.NewInt16 (-7) true true) = false ->
      Int16.Int16 (Int16.NewInt16 (-7) true true) = 0).
Proof.
  apply (Int16_UnmarshalJSON_success Int16.zero (Int16.NewInt16 (-7) true true) "-7").
  reflexivity.
Defined.

(** * Randomize, encoding, and the number field on a JSON error *)



(** X20.  [MarshalJSON] never fails and always writes one JSON value: for
    an instance whose number is in the range of its type the decoder
    reads the bytes back as null when the instance is invalid and as a
    number with the written literal when it is valid.  For a valid
    instance [MarshalText] writes the same bytes as [MarshalJSON]. *)
Theorem MarshalJSON_is_json (i : Int16.t) (u : Uint.t) (w : Uint64.t) :
  (in_int16 (Int16.Int16 i) ->
     snd (Int16.MarshalJSON i) = None
     /\ decode (fst (Int16.MarshalJSON i))
        = Some (if Int16.Valid i then JNumber (fst (Int16.MarshalJSON i)) else JNull)
     /\ (Int16.Valid i = true -> Int16.MarshalText i = Int16.MarshalJSON i))
  /\ (in_uint64 (Uint.Uint u) ->
        snd (Uint.MarshalJSON u) = None
        /\ decode (fst (Uint.MarshalJSON u))
           = Some (if Uint.Valid u then JNumber (fst (Uint.MarshalJSON u)) else JNull)
        /\ (Uint.Valid u = true -> Uint.MarshalText u = Uint.MarshalJSON u))
  /\ (in_uint64 (Uint64.Uint64 w) ->
        snd (Uint64.MarshalJSON w) = None
        /\ decode (fst (Uint64.MarshalJSON w))
           = Some (if Uint64.Valid w then JNumber (fst (Uint64.MarshalJSON w)) else JNull)
        /\ (Uint64.Valid w = true -> Uint64.MarshalText w = Uint64.MarshalJSON w)).
Proof.
  split; [|split].
  - destruct i as [v [|] s]; cbn [Int16.Int16]; intros Hv;
      unfold Int16.MarshalJSON, Int16.MarshalText; cbn [Int16.Valid Int16.Int16 negb fst snd];
      [|repeat split; discriminate].
    pose proof (in_int16_int64 v Hv) as Hv64.
    rewrite (to_int64_small v Hv64). repeat split.
    unfold FormatInt. unfold in_int64 in Hv64. destruct (Z.ltb_spec v 0).
    + apply decode_negative, FormatUint_canonical.
      rewrite to_uint64_small; unfold in_uint64; lia.
    + apply decode_canonical, FormatUint_canonical.
      rewrite to_uint64_small; unfold in_uint64; lia.
  - destruct u as [v [|]]; cbn [Uint.Uint]; intros Hv;
      unfold Uint.MarshalJSON, Uint.MarshalText; cbn [Uint.Valid Uint.Uint negb fst snd];
      [|repeat split; discriminate].
    rewrite (to_uint64_small v Hv). repeat split.
    apply decode_canonical, FormatUint_canonical, Hv.
  - destruct w as [v [|]]; cbn [Uint64.Uint64]; intros Hv;
      unfold Uint64.MarshalJSON, Uint64.MarshalText;
      cbn [Uint64.Valid Uint64.Uint64 negb fst snd];
      [|repeat split; discriminate].
    repeat split. apply decode_canonical, FormatUint_canonical, Hv.
Qed.

Lemma MarshalJSON_is_json_witness :
  decode (fst (Int16.MarshalJSON (Int16.Int16From (-32768))))
  = Some (JNumber "-32768")
  /\ decode (fst (Uint.MarshalJSON (Uint.NewUint 3 false))) = Some JNull
  /\ decode (fst (Uint64.MarshalJSON (Uint64.Uint64From 18446744073709551615)))
     = Some (JNumber "18446744073709551615").
Proof.
  destruct (MarshalJSON_is_json (Int16.Int16From (-32768)) (Uint.NewUint 3 false)
              (Uint64.Uint64From 18446744073709551615)) as (H1 & H2 & H3).
  split; [|split].
  - apply H1. unfold in_int16, MinInt16, MaxInt16. simpl. lia.
  - apply H2. unfold in_uint64. simpl. lia.
  - apply H3. unfold in_uint64. simpl. lia.
Defined.

(** X21.  When the bytes decode generically to something other than a
    string and [UnmarshalJSON] then returns an error (a number that is
    not an unsigned integer of 64 bits, a boolean, an array, an object),
    a [Uint] is left invalid with its number reset to zero, while a
    [Uint64] is left invalid with its number as it was. *)
Theorem UnmarshalJSON_error_number_field
  (a : arch) (data : string) (v : jvalue) (e : error) :
  Unmarshal_interface data = inl v ->
  (forall str, v <> JString str) ->
  (forall u, snd (Uint.UnmarshalJSON a u data) = Some e ->
     fst (Uint.UnmarshalJSON a u data) = Uint.NewUint 0 false)
  /\ (forall w, snd (Uint64.UnmarshalJSON w data) = Some e ->
        fst (Uint64.UnmarshalJSON w data)
        = Uint64.NewUint64 (Uint64.Uint64 w) false).
Proof.
  intros Hi Hstr. pose proof (Unmarshal_interface_decode data v Hi) as Hd.
  split.
  - intros u. unfold Uint.UnmarshalJSON. rewrite Hi.
    destruct (Equal data NullBytes); [discriminate|].
    destruct v as [| b | lit | str | elems | members]; try discriminate;
      try (intros _; destruct a; reflexivity).
    + unfold Unmarshal_uint64. rewrite Hd.
      destruct (ParseUint lit 10 64) as [n [err|]]; [|discriminate].
      intros _. destruct a; reflexivity.
    + exfalso. apply (Hstr str). reflexivity.
  - intros w. unfold Uint64.UnmarshalJSON. rewrite Hi.
    destruct (Equal data NullBytes); [discriminate|].
    destruct v as [| b | lit | str | elems | members]; try discriminate;
      try (intros _; reflexivity).
    + unfold Unmarshal_uint64. rewrite Hd.
      destruct (ParseUint lit 10 64) as [n [err|]]; [|discriminate].
      intros _. reflexivity.
    + exfalso. apply (Hstr str). reflexivity.
Qed.

Lemma UnmarshalJSON_error_number_field_witness :
  fst (Uint.UnmarshalJSON Arch64 (Uint.UintFrom 9) "1.0") = Uint.NewUint 0 false
  /\ fst (Uint64.UnmarshalJSON (Uint64.Uint64From 9) "[1, 2]")
     = Uint64.NewUint64 9 false.
Proof.
  split.
  - apply (proj1 (UnmarshalJSON_error_number_field Arch64 "1.0" (JNumber "1.0")
                    (UnmarshalTypeError "number 1.0") eq_refl
                    ltac:(intros str; discriminate))). reflexivity.
  - apply (proj2 (UnmarshalJSON_error_number_field Arch64 "[1, 2]"
                    (JArray [JNumber "1"; JNumber "2"])
                    (TypeMismatchError "null.Uint64" EmptyString) eq_refl
                    ltac:(intros str; discriminate))). reflexivity.
Defined.

Lemma ParseFloat64_err_decimal s :
  canonical s = true ->
  ParseFloat64_err s
  = if float64_limit <=? dec_value 0 s then Some ErrRange else None.
Proof.
  intros Hs. destruct (canonical_head s Hs) as (c & r & -> & Hc & Hr).
  destruct (digit_not_sign c Hc) as (Hplus & Hminus & _).
  assert (Hall : all_digits (String c r) = true) by (simpl; rewrite Hc, Hr; reflexivity).
  unfold ParseFloat64_err. rewrite Hplus, Hminus. cbn [orb].
  rewrite (read_digits_all _ Hall). cbv iota beta zeta.
  rewrite slen_cons. pose proof (slen_nonneg r) as Hl.
  destruct (Z.eqb_spec (0 + (slen r + 1) + 0) 0); [lia|].
  cbn [is_empty negb]. change (0 - 0) with 0. change (0 <=? 0) with true.
  cbv iota. rewrite Z.pow_0_r, Z.mul_1_r. reflexivity.
Qed.

(** X22.  A JSON integer literal too large for 64 bits is an error for
    [Uint.UnmarshalJSON] and [Uint64.UnmarshalJSON], never a wrapped
    number.  While the literal is still in the range of a float64 the
    error comes from the second decoding: valid is cleared, a [Uint]
    gets the number zero and a [Uint64] keeps its number.  From
    [2^1024 - 2^970] on the first, generic decoding already fails and
    the instance is left exactly as it was. *)
Theorem UnmarshalJSON_huge_literal (a : arch) (s : string) :
  canonical s = true -> 2 ^ 64 <= dec_value 0 s ->
  (dec_value 0 s < float64_limit ->
     (forall u, Uint.UnmarshalJSON a u s
                = (Uint.NewUint 0 false,
                   Some (UnmarshalTypeError ("number " ++ s))))
     /\ (forall w, Uint64.UnmarshalJSON w s
                   = (Uint64.NewUint64 (Uint64.Uint64 w) false,
                      Some (UnmarshalTypeError ("number " ++ s)))))
  /\ (float64_limit <= dec_value 0 s ->
        (forall u, Uint.UnmarshalJSON a u s
                   = (u, Some (UnmarshalTypeError ("number " ++ s))))
        /\ (forall w, Uint64.UnmarshalJSON w s
                      = (w, Some (UnmarshalTypeError ("number " ++ s))))).
Proof.
  intros Hs Hbig.
  destruct (canonical_head s Hs) as (c & r & E & Hc & Hr).
  assert (Hall : all_digits s = true) by (rewrite E; simpl; rewrite Hc, Hr; reflexivity).
  assert (Hnull : Equal s NullBytes = false)
    by (rewrite E; apply Equal_NullBytes_digit, Hc).
  pose proof (decode_canonical s Hs) as Hd.
  pose proof (ParseFloat64_err_decimal s Hs) as Hf.
  assert (Hp : ParseUint s 10 64 = (2 ^ 64 - 1, Some (NumError "ParseUint" ErrRange))).
  { unfold ParseUint, wrapErr, parseUint. rewrite E. cbn [is_empty]. rewrite <- E.
    cbv zeta. rewrite parseUint_loop_overflow; auto; unfold maxUint64; try lia;
      reflexivity. }
  split.
  - intros Hlt. apply Z.leb_gt in Hlt. rewrite Hlt in Hf.
    assert (Hi : Unmarshal_interface s = inl (JNumber s)).
    { unfold Unmarshal_interface. rewrite Hd. cbn [convert_error]. rewrite Hf.
      reflexivity. }
    split.
    + intros u. unfold Uint.UnmarshalJSON, Unmarshal_uint64.
      rewrite Hnull, Hi, Hd, Hp. destruct a; reflexivity.
    + intros w. unfold Uint64.UnmarshalJSON, Unmarshal_uint64.
      rewrite Hnull, Hi, Hd, Hp. reflexivity.
  - intros Hge. apply Z.leb_le in Hge. rewrite Hge in Hf.
    assert (Hi : Unmarshal_interface s
                 = inr (UnmarshalTypeError ("number " ++ s))).
    { unfold Unmarshal_interface. rewrite Hd. cbn [convert_error]. rewrite Hf.
      reflexivity. }
    split.
    + intros u. unfold Uint.UnmarshalJSON. rewrite Hnull, Hi. reflexivity.
    + intros w. unfold Uint64.UnmarshalJSON. rewrite Hnull, Hi. reflexivity.
Qed.

Lemma UnmarshalJSON_huge_literal_witness :
  Uint.UnmarshalJSON Arch64 (Uint.UintFrom 9) "18446744073709551616"
  = (Uint.NewUint 0 false,
     Some (UnmarshalTypeError "number 18446744073709551616"))
  /\ Uint64.UnmarshalJSON (Uint64.Uint64From 9) "18446744073709551616"
     = (Uint64.NewUint64 9 false,
        Some (UnmarshalTypeError "number 18446744073709551616")).
Proof.
  destruct (UnmarshalJSON_huge_literal Arch64 "18446744073709551616"
              eq_refl ltac:(simpl; lia)) as [H _].
  destruct (H ltac:(vm_compute; reflexivity)) as [H1 H2].
  split; [apply H1|apply H2].
Defined.
